(** * AI-reader: the extraction pipeline, embedded and verified

    A shallow embedding of the extraction pipeline of the AI-reader service:

    - [lib/extract/affiliateCode.ts]: product-code and registration-number
      normalisation, the mock result, [extractBusinessRegNo] and
      [validateExtractionResult];
    - [lib/llm/openai.ts]: model selection, the retry loop of
      [extractWithOpenAI], [parseExtractionResult], the connection test and
      the clearing of the cache;
    - the [POST] handler of the process route and the [GET] handler of the
      connection-test route;
    - [lib/util/env]: [loadEnvConfig] and its cache.

    JavaScript strings are sequences of UTF-16 code units, numbers are
    binary64 floats (Rocq's primitive floats), mutable module state and
    every interaction with the outside world (the OpenAI SDK, uuid, the
    mailer) go through an explicit world with a trace of events. *)

From Stdlib Require Import NArith ZArith List String Ascii Bool Lia DecimalString.
From Stdlib Require Import Floats.PrimFloat Numbers.Cyclic.Int63.Uint63.
Import ListNotations.

Set Implicit Arguments.
Set Warnings "-inexact-float,-register-all".

(* ===================================================================== *)
(** ** JavaScript values: strings, numbers, parsed JSON, thrown values    *)
(* ===================================================================== *)

Module JS.

(** A UTF-16 code unit and a JavaScript string. *)
Definition char16 := N.
Definition jstring := list char16.

(** Decoding of the UTF-8 bytes of a Rocq literal into UTF-16 code units, so
    that the literals of the source can be written down as they are. *)
Fixpoint utf8_decode (bs : list N) : jstring :=
  match bs with
  | [] => []
  | b :: r =>
    if (b <? 128)%N then b :: utf8_decode r
    else if (b <? 224)%N then
      match r with
      | c1 :: r' => ((b - 192) * 64 + (c1 - 128))%N :: utf8_decode r'
      | [] => []
      end
    else if (b <? 240)%N then
      match r with
      | c1 :: c2 :: r' =>
        ((b - 224) * 4096 + (c1 - 128) * 64 + (c2 - 128))%N :: utf8_decode r'
      | _ => []
      end
    else
      match r with
      | c1 :: c2 :: c3 :: r' =>
        let cp := ((b - 240) * 262144 + (c1 - 128) * 4096
                   + (c2 - 128) * 64 + (c3 - 128))%N in
        let v := (cp - 65536)%N in
        (55296 + v / 1024)%N :: (56320 + v mod 1024)%N :: utf8_decode r'
      | _ => []
      end
  end.

Definition js (s : string) : jstring :=
  utf8_decode (map N_of_ascii (list_ascii_of_string s)).

(** The double quote, which a literal cannot hold. *)
Definition dquote : jstring := [34%N].

Fixpoint eqb (a b : jstring) : bool :=
  match a, b with
  | [], [] => true
  | x :: a', y :: b' => (x =? y)%N && eqb a' b'
  | _, _ => false
  end.

(** Truthiness of a string: [Boolean(s)]. *)
Definition truthy (s : jstring) : bool :=
  match s with [] => false | _ => true end.

(** [WhiteSpace] and [LineTerminator] code units: the class [\s] of regular
    expressions and what [String.prototype.trim] removes. *)
Definition isWhiteSpace (c : char16) : bool :=
  ((9 <=? c) && (c <=? 13) || (c =? 32) || (c =? 160) || (c =? 5760)
   || (8192 <=? c) && (c <=? 8202) || (c =? 8232) || (c =? 8233)
   || (c =? 8239) || (c =? 8287) || (c =? 12288) || (c =? 65279))%N.

(** The class [\d]: ASCII digits only. *)
Definition isDigit (c : char16) : bool := ((48 <=? c) && (c <=? 57))%N.

Fixpoint trimStart (s : jstring) : jstring :=
  match s with
  | c :: r => if isWhiteSpace c then trimStart r else s
  | [] => []
  end.

Definition trimEnd (s : jstring) : jstring := rev (trimStart (rev s)).

Definition trim (s : jstring) : jstring := trimEnd (trimStart s).

(** [s.split(sep)] for a separator of one code unit. *)
Fixpoint split (sep : char16) (s : jstring) : list jstring :=
  match s with
  | [] => [[]]
  | c :: r =>
    if (c =? sep)%N then [] :: split sep r
    else match split sep r with
         | h :: t => (c :: h) :: t
         | [] => [[c]]
         end
  end.

(** [parts.join(sep)]. *)
Fixpoint join (sep : jstring) (parts : list jstring) : jstring :=
  match parts with
  | [] => []
  | [p] => p
  | p :: rest => p ++ sep ++ join sep rest
  end.

Fixpoint startsWith (s p : jstring) : bool :=
  match p, s with
  | [], _ => true
  | x :: p', y :: s' => (x =? y)%N && startsWith s' p'
  | _ :: _, [] => false
  end.

(** [s.includes(sub)]. *)
Fixpoint includes (s sub : jstring) : bool :=
  startsWith s sub
  || match s with
     | [] => false
     | _ :: r => includes r sub
     end.

(** [s.slice(a, b)] and [s.slice(a)] for indices within [0, length]. *)
Definition slice (a b : nat) (s : jstring) : jstring := firstn (b - a) (skipn a s).
Definition sliceFrom (a : nat) (s : jstring) : jstring := skipn a s.

(** [xs.includes(x)] on an array of strings. *)
Definition array_includes (xs : list jstring) (x : jstring) : bool :=
  existsb (eqb x) xs.

(** Numbers are binary64 floats. *)
Definition number := float.

Definition of_nat (n : nat) : number :=
  PrimFloat.of_uint63 (Uint63.of_Z (Z.of_nat n)).

(** [String(n)] for a natural number, as a template literal renders an index. *)
Definition nat_to_js (n : nat) : jstring :=
  js (NilZero.string_of_uint (Nat.to_uint n)).

(** The result of [JSON.parse]; an object keeps its properties in order, one
    entry per key. [None] stands for [undefined] where a property is read. *)
Inductive value :=
| VNull
| VBool (b : bool)
| VNum (x : number)
| VStr (s : jstring)
| VArr (elems : list value)
| VObj (props : list (jstring * value)).

Fixpoint lookup (k : jstring) (props : list (jstring * value)) : option value :=
  match props with
  | [] => None
  | (k', v) :: rest => if eqb k k' then Some v else lookup k rest
  end.

(** What can be thrown and caught. [APIError] stands for the instances of
    [OpenAI.APIError] (which are [Error]s too), [PlainError] for every other
    [Error] with its [name] and [message], [NonError] for any other thrown
    value, given by its [String(...)] image. *)
Inductive thrown :=
| APIError (status : option Z) (message : jstring)
| PlainError (name message : jstring)
| NonError (repr : jstring).

Definition newError (message : jstring) : thrown := PlainError (js "Error") message.

Definition isError (e : thrown) : bool :=
  match e with NonError _ => false | _ => true end.

Definition messageOf (e : thrown) : jstring :=
  match e with
  | APIError _ m => m
  | PlainError _ m => m
  | NonError _ => []
  end.

(** [String(e)], as a template literal renders a caught value. *)
Definition toString (e : thrown) : jstring :=
  match e with
  | APIError _ m => match m with [] => js "Error" | _ => js "Error: " ++ m end
  | PlainError n m =>
    match n, m with
    | [], _ => m
    | _, [] => n
    | _, _ => n ++ js ": " ++ m
    end
  | NonError r => r
  end.

End JS.

Import JS.

(* ===================================================================== *)
(** ** lib/util/env: the configuration                                    *)
(* ===================================================================== *)

(** Modelled from the spec: the [EnvConfig] type of [$lib/util/env], which is
    not among the sources. It holds the API credentials, the product-code
    validation pattern and the confidence threshold; the fields are the ones
    the sources read. The pattern is a regular expression without the global
    or sticky flag, so [regex.test] is a function of the string. *)
Record EnvConfig := {
  OPENAI_API_KEY : jstring;
  OPENAI_MODEL : option jstring;
  MOCK_LLM : bool;
  MIN_CONFIDENCE : number;
  PRODUCT_CODE_REGEX : jstring -> bool;
  SENDER_EMAIL : jstring;
  RECIPIENT_EMAIL : jstring
}.

(* ===================================================================== *)
(** ** The world: module state, the outside, and the monad of effects    *)
(* ===================================================================== *)

(** The response of [client.responses.create], as far as the caller reads it. *)
Record ContentPart := { text : option jstring }.
Record OutputItem := { type : jstring; content : option (list ContentPart) }.
Record ApiResponse := { output : option (list OutputItem) }.

(** Every interaction with the outside world, in the order it happens. *)
Inductive event :=
| EvUuid
| EvModelsList
| EvResponsesCreate (model prompt image_url clientRequestId : jstring)
| EvRandom
| EvSleep (delay : number)
| EvLoadEnvConfig
| EvNow
| EvSendEmail.

(** The outside world answers as a function of everything that happened so
    far (the request just made is the last event of the history). The pure
    built-ins of the runtime that the sources call are kept here too. *)
Record environment := {
  uuidv4 : list event -> jstring;
  models_list : list event -> thrown + list jstring;
  responses_create : list event -> thrown + ApiResponse;
  Math_random : list event -> number;
  JSON_parse : jstring -> thrown + value;
  toFixed : number -> nat -> jstring
}.

(** The module-level variables of [lib/llm/openai.ts] ([openaiClient], kept as
    the key it was built with, and [availableModel]) and the history. *)
Record world := {
  openaiClient : option jstring;
  availableModel : option jstring;
  trace : list event
}.

Definition M (A : Type) : Type := world -> (thrown + A) * world.

Definition ret {A} (a : A) : M A := fun w => (inr a, w).

Definition bind {A B} (m : M A) (k : A -> M B) : M B :=
  fun w => match m w with
           | (inr a, w') => k a w'
           | (inl e, w') => (inl e, w')
           end.

Definition throw {A} (e : thrown) : M A := fun w => (inl e, w).

(** [try { m } catch (error) { h error }]: the state reached when [m] threw
    is the one the handler starts from. *)
Definition tryCatch {A} (m : M A) (h : thrown -> M A) : M A :=
  fun w => match m w with
           | (inr a, w') => (inr a, w')
           | (inl e, w') => h e w'
           end.

Definition emit (ev : event) : M unit :=
  fun w => (inr tt, {| openaiClient := openaiClient w;
                       availableModel := availableModel w;
                       trace := trace w ++ [ev] |}).

(** Ask the outside world: record the request, then read the answer. *)
Definition ask {A} (ev : event) (answer : list event -> A) : M A :=
  fun w => let w' := {| openaiClient := openaiClient w;
                        availableModel := availableModel w;
                        trace := trace w ++ [ev] |} in
           (inr (answer (trace w')), w').

Definition askOrThrow {A} (ev : event) (answer : list event -> thrown + A) : M A :=
  fun w => let w' := {| openaiClient := openaiClient w;
                        availableModel := availableModel w;
                        trace := trace w ++ [ev] |} in
           (answer (trace w'), w').

Definition getAvailable : M (option jstring) := fun w => (inr (availableModel w), w).

Definition setAvailable (m : jstring) : M unit :=
  fun w => (inr tt, {| openaiClient := openaiClient w;
                       availableModel := Some m;
                       trace := trace w |}).

Declare Scope js_scope.
Delimit Scope js_scope with M.
Notation "x <- m ;; k" := (bind m (fun x => k))
  (at level 61, m at next level, right associativity) : js_scope.
Notation "m ;; k" := (bind m (fun _ => k))
  (at level 61, right associativity) : js_scope.
Open Scope js_scope.

(* ===================================================================== *)
(** ** lib/llm/openai.ts                                                  *)
(* ===================================================================== *)

Module OpenAI.

Module ExtractedItem.
Record t := mk {
  product_code : jstring;
  business_reg_no : jstring;
  company_name : option jstring;
  row_index : option number;
  raw_text : option jstring
}.
End ExtractedItem.

(** [total_found] and [raw_text] are declared [number] and [string?], but the
    parser passes on what it read, so they hold any parsed value. *)
Module OpenAIExtractionResult.
Record t := mk {
  items : list ExtractedItem.t;
  total_found : value;
  confidence : number;
  raw_text : option value
}.
End OpenAIExtractionResult.

Module OpenAICallMetadata.
Record t := mk {
  client_request_id : jstring;
  x_request_id : option jstring;
  model_used : jstring
}.
End OpenAICallMetadata.

Module OpenAIResponse.
Record t := mk {
  result : OpenAIExtractionResult.t;
  metadata : OpenAICallMetadata.t
}.
End OpenAIResponse.

Definition PRIMARY_MODEL : jstring := js "gpt-5-mini-2025-08-07".
Definition FALLBACK_MODEL : jstring := js "gpt-5-mini".
Definition LEGACY_FALLBACK : jstring := js "gpt-4o-mini".

Definition MAX_RETRIES : nat := 3.
Definition INITIAL_DELAY_MS : number := 1000%float.

(** The client is built once and kept. *)
Definition getOpenAIClient (apiKey : jstring) : M jstring :=
  fun w => match openaiClient w with
           | Some c => (inr c, w)
           | None => (inr apiKey, {| openaiClient := Some apiKey;
                                     availableModel := availableModel w;
                                     trace := trace w |})
           end.

(** [Math.pow(2, attempt)]. *)
Definition pow2 (attempt : nat) : number := of_nat (2 ^ attempt).

Definition getBackoffDelay (env : environment) (attempt : nat) : M number :=
  r <- ask EvRandom (Math_random env) ;;
  ret (PrimFloat.add (PrimFloat.mul INITIAL_DELAY_MS (pow2 attempt))
                     (PrimFloat.mul r 500%float)).

Definition modelPriority : list jstring :=
  [PRIMARY_MODEL; FALLBACK_MODEL; LEGACY_FALLBACK].

(** The part of [getAvailableModel] that asks the catalogue: the first model
    of the priority list that the catalogue has, the legacy model when it has
    none of them or when the query fails. *)
Definition selectFromCatalog (env : environment) : M jstring :=
  tryCatch
    (modelIds <- askOrThrow EvModelsList (models_list env) ;;
     match find (array_includes modelIds) modelPriority with
     | Some model => setAvailable model ;; ret model
     | None => setAvailable LEGACY_FALLBACK ;; ret LEGACY_FALLBACK
     end)
    (fun _ => setAvailable LEGACY_FALLBACK ;; ret LEGACY_FALLBACK).

Definition useConfigured (env : environment) (configuredModel : option jstring)
  : M jstring :=
  match configuredModel with
  | Some m =>
    if truthy m && negb (eqb m PRIMARY_MODEL)
    then setAvailable m ;; ret m
    else selectFromCatalog env
  | None => selectFromCatalog env
  end.

Definition getAvailableModel (env : environment) (configuredModel : option jstring)
  : M jstring :=
  cached <- getAvailable ;;
  match cached with
  | Some m => if truthy m then ret m else useConfigured env configuredModel
  | None => useConfigured env configuredModel
  end.

Definition isRetryableError (error : thrown) : bool :=
  match error with
  | APIError status _ =>
    match status with
    | Some st => (st =? 429)%Z || ((500 <=? st)%Z && (st <? 600)%Z)
    | None => false
    end
  | PlainError _ message => includes message (js "fetch")
  | NonError _ => false
  end.

Definition isModelNotFoundError (error : thrown) : bool :=
  match error with
  | APIError status message =>
    match status with Some st => (st =? 404)%Z | None => false end
    || (includes message (js "model") && includes message (js "not found"))
    || includes message (js "does not exist")
  | _ => false
  end.

(** *** parseExtractionResult *)

(** Group 1 of the first match of the fence pattern: three backticks, an
    optional [json], white space, then lazily up to the next three backticks. *)
Fixpoint find_sub (p s : jstring) : option (jstring * jstring) :=
  if startsWith s p then Some ([], skipn (List.length p) s)
  else match s with
       | [] => None
       | c :: r => match find_sub p r with
                   | Some (before, after) => Some (c :: before, after)
                   | None => None
                   end
       end.

Definition fence : jstring := js "```".

Definition match_fence (s : jstring) : option jstring :=
  match find_sub fence s with
  | None => None
  | Some (_, rest) =>
    let rest1 := if startsWith rest (js "json") then skipn 4 rest else rest in
    match find_sub fence (trimStart rest1) with
    | Some (inner, _) => Some inner
    | None => None
    end
  end.

(** The prefix of [s] that ends with the last occurrence of [c]. *)
Fixpoint upto_last (c : char16) (s : jstring) : option jstring :=
  match s with
  | [] => None
  | x :: r => match upto_last c r with
              | Some p => Some (x :: p)
              | None => if (x =? c)%N then Some [x] else None
              end
  end.

(** The match of the brace pattern: from the first opening brace to the last
    closing brace after it. *)
Definition match_braces (s : jstring) : option jstring :=
  match find_sub (js "{") s with
  | None => None
  | Some (_, rest) => match upto_last 125%N rest with
                      | Some p => Some (js "{" ++ p)
                      | None => None
                      end
  end.

(** Reading a property of a parsed value: [null] has none and throws, an
    object gives what it holds, anything else gives [undefined] (none of the
    names read here is defined on strings, numbers, booleans or arrays). *)
Definition getProp (v : value) (k : jstring) : thrown + option value :=
  match v with
  | VNull => inl (PlainError (js "TypeError")
                    (js "Cannot read properties of null (reading '" ++ k ++ js "')"))
  | VObj props => inr (lookup k props)
  | _ => inr None
  end.

Definition ebind {A B} (m : thrown + A) (k : A -> thrown + B) : thrown + B :=
  match m with inl e => inl e | inr a => k a end.

Definition asString (v : option value) : option jstring :=
  match v with Some (VStr s) => Some s | _ => None end.

Definition asNumber (v : option value) : option number :=
  match v with Some (VNum x) => Some x | _ => None end.

(** [v ?? d]: the default is taken for [undefined] and [null] only. *)
Definition nullish (v : option value) (d : value) : value :=
  match v with
  | None => d
  | Some VNull => d
  | Some x => x
  end.

Definition parseItem (index : nat) (item : value) : thrown + ExtractedItem.t :=
  ebind (getProp item (js "product_code")) (fun pc =>
  match asString pc with
  | None => inl (newError (js "Invalid item at index " ++ nat_to_js index
                           ++ js ": missing product_code or business_reg_no"))
  | Some product_code =>
    ebind (getProp item (js "business_reg_no")) (fun brn =>
    match asString brn with
    | None => inl (newError (js "Invalid item at index " ++ nat_to_js index
                             ++ js ": missing product_code or business_reg_no"))
    | Some business_reg_no =>
      ebind (getProp item (js "company_name")) (fun cn =>
      ebind (getProp item (js "row_index")) (fun ri =>
      ebind (getProp item (js "raw_text")) (fun rt =>
      inr (ExtractedItem.mk product_code business_reg_no
             (asString cn) (asNumber ri) (asString rt)))))
    end)
  end).

(** [parsed.items.map((item, index) => ...)]: the first bad item throws. *)
Fixpoint parseItems (index : nat) (elems : list value)
  : thrown + list ExtractedItem.t :=
  match elems with
  | [] => inr []
  | item :: rest =>
    ebind (parseItem index item) (fun it =>
    ebind (parseItems (S index) rest) (fun its => inr (it :: its)))
  end.

(** The body of the [try] block after [JSON.parse]. *)
Definition checkParsed (parsed : value) : thrown + OpenAIExtractionResult.t :=
  ebind (getProp parsed (js "items")) (fun its =>
  match its with
  | Some (VArr elems) =>
    ebind (getProp parsed (js "confidence")) (fun c =>
    match asNumber c with
    | None => inl (newError (js "Missing or invalid " ++ dquote ++ js "confidence"
                             ++ dquote ++ js " field"))
    | Some confidence =>
      ebind (parseItems 0 elems) (fun items =>
      ebind (getProp parsed (js "total_found")) (fun tf =>
      ebind (getProp parsed (js "raw_text")) (fun raw =>
      inr (OpenAIExtractionResult.mk items
             (nullish tf (VNum (of_nat (List.length items))))
             confidence raw))))
    end)
  | _ => inl (newError (js "Missing or invalid " ++ dquote ++ js "items" ++ dquote
                        ++ js " array in response"))
  end).

(** The text handed to [JSON.parse]: trimmed, taken out of a fenced block if
    there is one, then cut down to the brace block if there is one. *)
Definition jsonBlock (text : jstring) : jstring :=
  let jsonStr := trim text in
  let jsonStr := match match_fence jsonStr with
                 | Some inner => trim inner
                 | None => jsonStr
                 end in
  match match_braces jsonStr with
  | Some block => block
  | None => jsonStr
  end.

Definition parseExtractionResult (env : environment) (text : jstring)
  : thrown + OpenAIExtractionResult.t :=
  match ebind (JSON_parse env (jsonBlock text)) checkParsed with
  | inr r => inr r
  | inl e => inl (newError (js "Failed to parse JSON from LLM response: " ++ toString e))
  end.

(** *** extractWithOpenAI *)

(** The text of the first content part of the first [message] output, or the
    empty string. *)
Definition outputTextOf (response : ApiResponse) : jstring :=
  match output response with
  | Some outs =>
    match find (fun item => eqb (type item) (js "message")) outs with
    | Some messageOutput =>
      match content messageOutput with
      | Some (part :: _) => match text part with Some t => t | None => [] end
      | _ => []
      end
    | None => []
    end
  | None => []
  end.

(** The [try] block of one iteration: one call of the Responses API. *)
Definition attemptOnce (env : environment) (imageBase64 mimeType systemPrompt
                        clientRequestId modelToUse : jstring) : M OpenAIResponse.t :=
  response <- askOrThrow
                (EvResponsesCreate modelToUse systemPrompt
                   (js "data:" ++ mimeType ++ js ";base64," ++ imageBase64)
                   clientRequestId)
                (responses_create env) ;;
  let outputText := outputTextOf response in
  if negb (truthy outputText) then throw (newError (js "No text output in response"))
  else match parseExtractionResult env outputText with
       | inl e => throw e
       | inr result =>
         ret (OpenAIResponse.mk result
                (OpenAICallMetadata.mk clientRequestId None modelToUse))
       end.

(** [error instanceof Error ? error : new Error(String(error))]. *)
Definition asError (error : thrown) : thrown :=
  if isError error then error else newError (toString error).

(** The [for] loop, from iteration [attempt] on; [remaining] is
    [MAX_RETRIES - attempt], the number of iterations left. *)
Fixpoint attemptLoop (env : environment) (imageBase64 mimeType systemPrompt
                      clientRequestId : jstring) (remaining attempt : nat)
                     (modelToUse : jstring) (lastError : option thrown)
  : M OpenAIResponse.t :=
  match remaining with
  | O =>
    throw (match lastError with
           | Some e => e
           | None => newError (js "OpenAI extraction failed after retries")
           end)
  | S remaining' =>
    let next := attemptLoop env imageBase64 mimeType systemPrompt clientRequestId
                            remaining' (S attempt) in
    tryCatch
      (attemptOnce env imageBase64 mimeType systemPrompt clientRequestId modelToUse)
      (fun error =>
         let lastError := Some (asError error) in
         if isModelNotFoundError error && negb (eqb modelToUse LEGACY_FALLBACK) then
           let modelToUse := if eqb modelToUse PRIMARY_MODEL
                             then FALLBACK_MODEL else LEGACY_FALLBACK in
           setAvailable modelToUse ;;
           next modelToUse lastError
         else if isRetryableError error && (attempt <? MAX_RETRIES - 1)%nat then
           delay <- getBackoffDelay env attempt ;;
           emit (EvSleep delay) ;;
           next modelToUse lastError
         else
           next modelToUse lastError)
  end.

Definition extractWithOpenAI (env : environment) (imageBase64 mimeType : jstring)
                             (config : EnvConfig) (systemPrompt : jstring)
  : M OpenAIResponse.t :=
  if negb (truthy (OPENAI_API_KEY config)) then
    throw (newError (js "OPENAI_API_KEY is not configured. Please set it in .env file."))
  else
    _ <- getOpenAIClient (OPENAI_API_KEY config) ;;
    clientRequestId <- ask EvUuid (uuidv4 env) ;;
    modelToUse <- getAvailableModel env (OPENAI_MODEL config) ;;
    attemptLoop env imageBase64 mimeType systemPrompt clientRequestId
                MAX_RETRIES 0 modelToUse None.

(** *** testOpenAIConnection and clearOpenAICache *)

(** What [testOpenAIConnection] resolves to. *)
Module ConnectionTest.
Record t := mk {
  ok : bool;
  message : jstring;
  model : option jstring;
  modelCount : option number;
  error : option jstring
}.
End ConnectionTest.

Definition testOpenAIConnection (env : environment) (config : EnvConfig)
  : M ConnectionTest.t :=
  if negb (truthy (OPENAI_API_KEY config)) then
    ret (ConnectionTest.mk false (js "OPENAI_API_KEY가 설정되지 않았습니다.")
           None None (Some (js "missing_api_key")))
  else
    tryCatch
      (_ <- getOpenAIClient (OPENAI_API_KEY config) ;;
       modelIds <- askOrThrow EvModelsList (models_list env) ;;
       let gptModels := filter (fun id => includes id (js "gpt")) modelIds in
       selectedModel <- getAvailableModel env (OPENAI_MODEL config) ;;
       ret (ConnectionTest.mk true (js "OpenAI API 연결 성공!") (Some selectedModel)
              (Some (of_nat (List.length gptModels))) None))
      (fun error =>
         let errorMessage := if isError error then messageOf error
                             else toString error in
         ret (ConnectionTest.mk false (js "OpenAI API 연결 실패: " ++ errorMessage)
                None None (Some errorMessage))).

Definition clearOpenAICache : M unit :=
  fun w => (inr tt, {| openaiClient := None; availableModel := None;
                       trace := trace w |}).

End OpenAI.

(* ===================================================================== *)
(** ** lib/extract/affiliateCode.ts                                       *)
(* ===================================================================== *)

Module AffiliateCode.

Inductive Provider := openai | mock.

Module ExtractionItem.
Record t := mk {
  product_code : jstring;
  business_reg_no : jstring;
  company_name : option jstring;
  row_index : option number;
  raw_text : option jstring
}.
End ExtractionItem.

Module ExtractionResult.
Record t := mk {
  items : list ExtractionItem.t;
  total_found : value;
  confidence : number;
  provider : Provider;
  request_id : jstring;
  client_request_id : option jstring;
  x_request_id : option jstring
}.
End ExtractionResult.

Module ExtractionError.
Record t := mk {
  error_code : jstring;
  message : jstring;
  provider : option Provider;
  request_id : option jstring;
  client_request_id : option jstring;
  x_request_id : option jstring
}.
End ExtractionError.

(** A string between double quotes. *)
Definition q (s : string) : jstring := dquote ++ js s ++ dquote.

Definition createExtractionPrompt (targetCode : jstring) : jstring :=
  let targets := filter truthy (map trim (split 44%N targetCode)) in
  let first := match targets with t :: _ => t | [] => js "undefined" end in
  let targetCondition :=
    if (1 <? List.length targets)%nat
    then js "상품번호 리스트 [" ++ join (js ", ") targets ++ js "] 중 하나라도"
    else js "상품번호 " ++ dquote ++ first ++ dquote in
  List.concat
    [ js "당신은 이미지에서 특정 상품정보에 매핑된 사업자등록번호와 업체명을 추출하는 전문가입니다.

## 작업
이미지에서 ";
      targetCondition;
      js "가 포함된 **모든 행(row)**을 찾고, 각 행에 있는 사업자등록번호와 업체명을 추출하세요.

## 중요 규칙 (엄격 준수)
1. **대상 찾기**: 이미지 텍스트에서 **";
      targetCondition;
      js "**와 일치하는 숫자를 찾으세요.이 숫자는 ";
      q "상품번호";
      js ", ";
      q "상품코드";
      js ", ";
      q "제휴코드";
      js ", ";
      q "Product Code";
      js ", ";
      q "Code";
      js ", ";
      q "NO";
      js ", ";
      q "P/N";
      js " 등 다양한 레이블과 함께 있거나, 레이블 없이 숫자만 있을 수 있습니다. 
2. **모든 행 추출**: 동일한 상품번호가 여러 행에 있을 수 있습니다. 조건에 맞는 모든 행을 빠짐없이 추출하세요. 소기업 상품조회 대상(03269, 03275)의 경우 둘 중 하나라도 발견되면 즉시 추출하세요.
3. **사업자등록번호**: ";
      q "000-00-00000";
      js " (3-2-5자리) 형식 또는 하이픈 없는 10자리 숫자입니다. 사업자번호가 없으면 빈 문자열로 두세요.
4. **업체명**: 해당 행의 회사명, 상호, 법인명 등을 추출하세요.
5. **결과 없음**: 해당하는 상품번호를 전혀 찾을 수 없으면 items를 빈 배열로 반환하세요.

## 응답 형식
반드시 아래 JSON 형식으로만 응답하세요:
{
  ";
      q "items";
      js ": [
    {
      ";
      q "product_code";
      js ": ";
      dquote;
      js "찾은 상품번호 (예: ";
      first;
      js ")";
      dquote;
      js ",
      ";
      q "business_reg_no";
      js ": ";
      q "000-00-00000";
      js ",
      ";
      q "company_name";
      js ": ";
      q "업체명";
      js ",
      ";
      q "row_index";
      js ": 1,
      ";
      q "raw_text";
      js ": ";
      q "해당 행의 원본 텍스트 전체";
      js "
    }
  ],
  ";
      q "total_found";
      js ": 1,
  ";
      q "confidence";
      js ": 0.0~1.0
}" ].

(** [code.trim().replace(/\s+/g, '').replace(/[-_]/g, '')]. *)
Definition normalizeProductCode (code : jstring) : jstring :=
  filter (fun c => negb ((c =? 45)%N || (c =? 95)%N))
         (filter (fun c => negb (isWhiteSpace c)) (trim code)).

Definition validateProductCode (code : jstring) (regex : jstring -> bool) : bool :=
  regex code.

Definition normalizeBusinessRegNo (businessRegNo : jstring) : jstring :=
  let digits := filter isDigit businessRegNo in
  if (List.length digits =? 10)%nat then
    slice 0 3 digits ++ js "-" ++ slice 3 5 digits ++ js "-" ++ sliceFrom 5 digits
  else
    trim businessRegNo.

Definition getMockResult (env : environment) (targetCode : jstring)
  : M ExtractionResult.t :=
  let firstTarget := trim (hd [] (split 44%N targetCode)) in
  request_id <- ask EvUuid (uuidv4 env) ;;
  ret (ExtractionResult.mk
         [ ExtractionItem.mk firstTarget (js "123-45-67890") (Some (js "테스트업체A"))
             (Some 1%float)
             (Some (js "[MOCK] 행1: 상품번호 " ++ firstTarget
                    ++ js ", 사업자등록번호 123-45-67890, 업체명 테스트업체A"));
           ExtractionItem.mk firstTarget (js "987-65-43210") (Some (js "테스트업체B"))
             (Some 2%float)
             (Some (js "[MOCK] 행2: 상품번호 " ++ firstTarget
                    ++ js ", 사업자등록번호 987-65-43210, 업체명 테스트업체B")) ]
         (VNum 2%float) 0.95%float mock request_id None None).

(** [s || '']. *)
Definition orEmpty (s : option jstring) : jstring :=
  match s with
  | Some v => if truthy v then v else []
  | None => []
  end.

(** The conversion of one item of the response. *)
Definition convertItem (item : OpenAI.ExtractedItem.t) : ExtractionItem.t :=
  ExtractionItem.mk
    (OpenAI.ExtractedItem.product_code item)
    (orEmpty (Some (OpenAI.ExtractedItem.business_reg_no item)))
    (Some (orEmpty (OpenAI.ExtractedItem.company_name item)))
    (OpenAI.ExtractedItem.row_index item)
    (OpenAI.ExtractedItem.raw_text item).

Definition extractBusinessRegNo (env : environment) (imageBase64 mimeType targetCode
                                 : jstring) (config : EnvConfig)
  : M ExtractionResult.t :=
  if MOCK_LLM config then
    getMockResult env targetCode
  else
    let prompt := createExtractionPrompt targetCode in
    response <- OpenAI.extractWithOpenAI env imageBase64 mimeType config prompt ;;
    let result := OpenAI.OpenAIResponse.result response in
    let metadata := OpenAI.OpenAIResponse.metadata response in
    ret (ExtractionResult.mk
           (map convertItem (OpenAI.OpenAIExtractionResult.items result))
           (OpenAI.OpenAIExtractionResult.total_found result)
           (OpenAI.OpenAIExtractionResult.confidence result)
           openai
           (OpenAI.OpenAICallMetadata.client_request_id metadata)
           (Some (OpenAI.OpenAICallMetadata.client_request_id metadata))
           (OpenAI.OpenAICallMetadata.x_request_id metadata)).

(** *** validateExtractionResult

    The function returns nothing, throws an [ExtractionError] and updates the
    items of its argument in place: a computation over the result object. *)
Definition V (A : Type) : Type :=
  ExtractionResult.t -> (ExtractionError.t + A) * ExtractionResult.t.

Definition vret {A} (a : A) : V A := fun r => (inr a, r).

Definition vbind {A B} (m : V A) (k : A -> V B) : V B :=
  fun r => match m r with
           | (inr a, r') => k a r'
           | (inl e, r') => (inl e, r')
           end.

Definition vthrow {A} (e : ExtractionError.t) : V A := fun r => (inl e, r).

Definition vread : V ExtractionResult.t := fun r => (inr r, r).

(** [item.business_reg_no = v]. *)
Definition withBusinessRegNo (v : jstring) (item : ExtractionItem.t)
  : ExtractionItem.t :=
  ExtractionItem.mk (ExtractionItem.product_code item) v
    (ExtractionItem.company_name item) (ExtractionItem.row_index item)
    (ExtractionItem.raw_text item).

Fixpoint updateAt (index : nat) (f : ExtractionItem.t -> ExtractionItem.t)
                  (l : list ExtractionItem.t) : list ExtractionItem.t :=
  match l with
  | [] => []
  | item :: rest =>
    match index with
    | O => f item :: rest
    | S i => item :: updateAt i f rest
    end
  end.

(** The result object with other items; every other field as it was. *)
Definition withItems (r : ExtractionResult.t) (items : list ExtractionItem.t)
  : ExtractionResult.t :=
  ExtractionResult.mk items
    (ExtractionResult.total_found r) (ExtractionResult.confidence r)
    (ExtractionResult.provider r) (ExtractionResult.request_id r)
    (ExtractionResult.client_request_id r) (ExtractionResult.x_request_id r).

(** The assignment to the item at [index] of the result object. *)
Definition setBusinessRegNo (index : nat) (v : jstring) : V unit :=
  fun r => (inr tt,
            withItems r (updateAt index (withBusinessRegNo v)
                                  (ExtractionResult.items r))).

(** [for (const item of result.items)], from position [index] on; [todo] are
    the items not yet visited. *)
Fixpoint normalizeFrom (index : nat) (todo : list ExtractionItem.t) : V unit :=
  match todo with
  | [] => vret tt
  | item :: rest =>
    vbind (if truthy (ExtractionItem.business_reg_no item)
           then setBusinessRegNo index
                  (normalizeBusinessRegNo (ExtractionItem.business_reg_no item))
           else vret tt)
          (fun _ => normalizeFrom (S index) rest)
  end.

Definition errorFor (code message : jstring) (result : ExtractionResult.t)
  : ExtractionError.t :=
  ExtractionError.mk code message
    (Some (ExtractionResult.provider result))
    (Some (ExtractionResult.request_id result))
    (ExtractionResult.client_request_id result)
    (ExtractionResult.x_request_id result).

Definition validateExtractionResult (env : environment) (config : EnvConfig)
  : V unit :=
  vbind vread (fun result =>
  match ExtractionResult.items result with
  | [] =>
    vthrow (errorFor (js "extraction_failed")
              (js "이미지에서 해당 상품번호에 매핑된 사업자등록번호를 찾을 수 없습니다.")
              result)
  | _ :: _ =>
    if PrimFloat.ltb (ExtractionResult.confidence result) (MIN_CONFIDENCE config) then
      vthrow (errorFor (js "low_confidence")
                (js "사업자등록번호 인식 신뢰도가 너무 낮습니다. ("
                 ++ toFixed env (PrimFloat.mul (ExtractionResult.confidence result)
                                               100%float) 1
                 ++ js "% < "
                 ++ toFixed env (PrimFloat.mul (MIN_CONFIDENCE config) 100%float) 1
                 ++ js "%)")
                result)
    else
      normalizeFrom 0 (ExtractionResult.items result)
  end).

End AffiliateCode.

(* ===================================================================== *)
(** ** The process route: POST                                            *)
(* ===================================================================== *)

Module ProcessOnce.

Import AffiliateCode.

Definition MAX_PAYLOAD_SIZE : N := 4500000.

Module File.
Record t := mk { name : jstring; size : N; type : jstring; bytes : list N }.
End File.

(** What [formData.get] returns. *)
Inductive FormDataEntryValue :=
| FdNull
| FdString (s : jstring)
| FdFile (f : File.t).

Record FormData := { productCode : FormDataEntryValue; image : FormDataEntryValue }.

(** The request, as far as the handler reads it: the content-type header and
    what [request.formData()] gives or throws. *)
Record Request := {
  content_type : option jstring;
  formData : thrown + FormData
}.

Module ExcelDataItem.
Record t := mk {
  product_code : jstring;
  business_reg_no : jstring;
  company_name : option jstring;
  row_index : option number;
  processed_at : jstring
}.
End ExcelDataItem.

Record EmailResult := {
  success : bool;
  messageId : option jstring;
  error : option jstring
}.

(** The collaborators of the handler that are not among the sources
    ([$lib/util/env], [$lib/output/excel], [$lib/email/resend]) and the
    built-ins it calls, taken as parameters. *)
Record collaborators := {
  loadEnvConfig : list event -> thrown + EnvConfig;
  toBase64 : list N -> jstring;
  toISOString : list event -> jstring;
  generateExcel : list ExcelDataItem.t -> thrown + list N;
  excelToBase64 : list N -> jstring;
  generateExcelFilename : list event -> jstring;
  sendResultEmail : list event -> jstring -> list ExtractionItem.t -> jstring
                    -> jstring -> EnvConfig -> thrown + EmailResult
}.

Module ErrorDetails.
Record t := mk {
  name : option jstring;
  message : option jstring;
  statusCode : option number
}.
End ErrorDetails.

Module EmailDebugInfo.
Record t := mk {
  attempted : bool;
  success : bool;
  message_id : option jstring;
  error : option jstring;
  error_details : option ErrorDetails.t;
  sender_email : jstring;
  recipient_email : jstring
}.
End EmailDebugInfo.

Module ResponseItem.
Record t := mk {
  product_code : jstring;
  business_reg_no : jstring;
  company_name : option jstring;
  row_index : option number
}.
End ResponseItem.

Module SuccessResponse.
Record t := mk {
  product_code : jstring;
  items : list ResponseItem.t;
  total_found : value;
  confidence : number;
  emailed : bool;
  email_debug : EmailDebugInfo.t;
  provider : Provider;
  request_id : jstring;
  client_request_id : option jstring;
  x_request_id : option jstring
}.
End SuccessResponse.

Module ErrorResponse.
Record t := mk {
  error_code : jstring;
  message : jstring;
  request_id : jstring;
  provider : option Provider;
  client_request_id : option jstring;
  x_request_id : option jstring
}.
End ErrorResponse.

(** [json(body, { status })]: the body has [ok: false] or [ok: true]. *)
Inductive Body :=
| Failure (e : ErrorResponse.t)
| Success (r : SuccessResponse.t).

Record HttpResponse := { status : Z; body : Body }.

Definition fail (status : Z) (error_code message requestId : jstring) : HttpResponse :=
  {| status := status;
     body := Failure (ErrorResponse.mk error_code message requestId None None None) |}.

Definition allowedTypes : list jstring :=
  [js "image/jpeg"; js "image/png"; js "image/webp"; js "image/gif"].

Definition N_to_number (n : N) : number := PrimFloat.of_uint63 (Uint63.of_Z (Z.of_N n)).

(** [targetCodeRaw.split(',').map(normalizeProductCode).filter(c => c.length > 0)]. *)
Definition productCodesOf (targetCodeRaw : jstring) : list jstring :=
  filter (fun c => (0 <? List.length c)%nat)
         (map normalizeProductCode (split 44%N targetCodeRaw)).

Definition invalidCodesOf (config : EnvConfig) (productCodes : list jstring)
  : list jstring :=
  filter (fun code => negb (validateProductCode code (PRODUCT_CODE_REGEX config)))
         productCodes.

Definition toExcelItem (processedAt : jstring) (item : ExtractionItem.t)
  : ExcelDataItem.t :=
  ExcelDataItem.mk (ExtractionItem.product_code item)
    (ExtractionItem.business_reg_no item) (ExtractionItem.company_name item)
    (ExtractionItem.row_index item) processedAt.

Definition toResponseItem (item : ExtractionItem.t) : ResponseItem.t :=
  ResponseItem.mk (ExtractionItem.product_code item)
    (ExtractionItem.business_reg_no item) (ExtractionItem.company_name item)
    (ExtractionItem.row_index item).

Definition liftE {A} (r : thrown + A) : M A := fun w => (r, w).

(** Step 13: the mail is sent once; a failure is reported, not thrown. *)
Definition sendEmail (col : collaborators) (config : EnvConfig)
                     (productCodes : list jstring) (items : list ExtractionItem.t)
                     (excelBase64 excelFilename : jstring)
  : M (bool * EmailDebugInfo.t) :=
  tryCatch
    (emailResult <- askOrThrow EvSendEmail
                      (fun h => sendResultEmail col h (join (js ",") productCodes)
                                  items excelBase64 excelFilename config) ;;
     ret (success emailResult,
          EmailDebugInfo.mk true (success emailResult) (messageId emailResult)
            (error emailResult)
            (if success emailResult then None
             else Some (ErrorDetails.mk None (error emailResult) None))
            (SENDER_EMAIL config) (RECIPIENT_EMAIL config)))
    (fun e =>
       let msg := if isError e then messageOf e else toString e in
       ret (false,
            EmailDebugInfo.mk true false None (Some msg)
              (Some (ErrorDetails.mk
                       (Some (match e with
                              | PlainError n _ => n
                              | APIError _ _ => js "Error"
                              | NonError _ => js "Unknown"
                              end))
                       (Some msg) None))
              (SENDER_EMAIL config) (RECIPIENT_EMAIL config))).

(** Steps 12 to 14: export, mail, success response. *)
Definition respond (env : environment) (col : collaborators) (config : EnvConfig)
                   (requestId : jstring) (productCodes : list jstring)
                   (extractionResult : ExtractionResult.t) : M HttpResponse :=
  processedAt <- ask EvNow (toISOString col) ;;
  let excelItems := map (toExcelItem processedAt)
                        (ExtractionResult.items extractionResult) in
  excelBuffer <- liftE (generateExcel col excelItems) ;;
  let excelBase64 := excelToBase64 col excelBuffer in
  excelFilename <- ask EvNow (generateExcelFilename col) ;;
  sent <- sendEmail col config productCodes (ExtractionResult.items extractionResult)
                    excelBase64 excelFilename ;;
  ret {| status := 200;
         body := Success
           (SuccessResponse.mk (join (js ",") productCodes)
              (map toResponseItem (ExtractionResult.items extractionResult))
              (ExtractionResult.total_found extractionResult)
              (ExtractionResult.confidence extractionResult)
              (fst sent) (snd sent)
              (ExtractionResult.provider extractionResult)
              requestId
              (ExtractionResult.client_request_id extractionResult)
              (ExtractionResult.x_request_id extractionResult)) |}.

(** Steps 10 and 11: extraction, then validation of the result. *)
Definition extractAndValidate (env : environment) (col : collaborators)
                              (config : EnvConfig) (requestId : jstring)
                              (productCodes : list jstring) (file : File.t)
  : M HttpResponse :=
  let imageBase64 := toBase64 col (File.bytes file) in
  extracted <- tryCatch
                 (r <- extractBusinessRegNo env imageBase64 (File.type file)
                         (join (js ",") productCodes) config ;;
                  ret (inr r))
                 (fun e =>
                    ret (inl (fail 422 (js "extraction_error")
                                (if isError e then messageOf e
                                 else js "Failed to extract business registration number from image")
                                requestId))) ;;
  match extracted with
  | inl response => ret response
  | inr extractionResult =>
    match validateExtractionResult env config extractionResult with
    | (inl err, _) =>
      ret {| status := 422;
             body := Failure
               (ErrorResponse.mk (ExtractionError.error_code err)
                  (ExtractionError.message err) requestId
                  (ExtractionError.provider err)
                  (ExtractionError.client_request_id err)
                  (ExtractionError.x_request_id err)) |}
    | (inr _, validated) => respond env col config requestId productCodes validated
    end
  end.

(** Steps 6 to 8: the uploaded file. *)
Definition checkFile (env : environment) (col : collaborators) (config : EnvConfig)
                     (requestId : jstring) (productCodes : list jstring)
                     (form : FormData) : M HttpResponse :=
  match image form with
  | FdFile file =>
    if (MAX_PAYLOAD_SIZE <? File.size file)%N then
      ret (fail 413 (js "payload_too_large")
             (js "File size ("
              ++ toFixed env (PrimFloat.div
                                (PrimFloat.div (N_to_number (File.size file)) 1024%float)
                                1024%float) 2
              ++ js "MB) exceeds limit (4.5MB). Please compress the image before uploading.")
             requestId)
    else if negb (array_includes allowedTypes (File.type file)) then
      ret (fail 400 (js "invalid_file_type")
             (js "Invalid file type: " ++ File.type file ++ js ". Allowed types: "
              ++ join (js ", ") allowedTypes)
             requestId)
    else extractAndValidate env col config requestId productCodes file
  | _ =>
    ret (fail 400 (js "missing_file")
           (js "No image file provided. Field name must be " ++ dquote ++ js "image"
            ++ dquote ++ js ".")
           requestId)
  end.

(** Steps 4 and 5: the product codes. *)
Definition checkProductCodes (env : environment) (col : collaborators)
                             (config : EnvConfig) (requestId : jstring)
                             (form : FormData) : M HttpResponse :=
  match productCode form with
  | FdString targetCodeRaw =>
    if negb (truthy targetCodeRaw) then
      ret (fail 400 (js "missing_product_code") (js "대상 상품번호를 입력해주세요.")
             requestId)
    else
      let productCodes := productCodesOf targetCodeRaw in
      let invalidCodes := invalidCodesOf config productCodes in
      if (List.length productCodes =? 0)%nat then
        ret (fail 400 (js "invalid_product_code") (js "유효한 상품번호가 없습니다.")
               requestId)
      else if (0 <? List.length invalidCodes)%nat then
        ret (fail 400 (js "invalid_product_code")
               (js "상품번호 형식이 올바르지 않습니다. 5자리 숫자를 입력해주세요. (잘못된 입력: "
                ++ join (js ", ") invalidCodes ++ js ")")
               requestId)
      else checkFile env col config requestId productCodes form
  | _ =>
    ret (fail 400 (js "missing_product_code") (js "대상 상품번호를 입력해주세요.")
           requestId)
  end.

(** The body of the outer [try]. *)
Definition handle (env : environment) (col : collaborators) (request : Request)
                  (requestId : jstring) : M HttpResponse :=
  config <- askOrThrow EvLoadEnvConfig (loadEnvConfig col) ;;
  let contentType := match content_type request with Some h => orEmpty (Some h) | None => [] end in
  if negb (includes contentType (js "multipart/form-data")) then
    ret (fail 400 (js "invalid_content_type")
           (js "Content-Type must be multipart/form-data") requestId)
  else
    match formData request with
    | inl _ =>
      ret (fail 400 (js "invalid_form_data") (js "Failed to parse form data") requestId)
    | inr form => checkProductCodes env col config requestId form
    end.

Definition POST (env : environment) (col : collaborators) (request : Request)
  : M HttpResponse :=
  requestId <- ask EvUuid (uuidv4 env) ;;
  tryCatch
    (handle env col request requestId)
    (fun e =>
       if isError e && includes (messageOf e) (js "Missing required environment variables")
       then ret (fail 500 (js "configuration_error")
                   (js "Server configuration error. Please contact administrator.")
                   requestId)
       else ret (fail 500 (js "internal_error")
                   (if isError e then messageOf e else js "An unexpected error occurred")
                   requestId)).

End ProcessOnce.

(* ===================================================================== *)
(** ** The connection-test route: GET                                     *)
(* ===================================================================== *)

Module TestConnection.

(** The body of the answer: [ok: true] with the model, or [ok: false] with
    an error code. *)
Inductive Body :=
| Connected (message : jstring) (configured_model : option jstring)
            (model_count : option number) (request_id : jstring)
| Failed (error_code message request_id : jstring).

Record HttpResponse := { status : Z; body : Body }.

Definition GET (env : environment) (col : ProcessOnce.collaborators)
  : M HttpResponse :=
  requestId <- ask EvUuid (uuidv4 env) ;;
  tryCatch
    (config <- askOrThrow EvLoadEnvConfig (ProcessOnce.loadEnvConfig col) ;;
     result <- OpenAI.testOpenAIConnection env config ;;
     if OpenAI.ConnectionTest.ok result then
       ret {| status := 200;
              body := Connected (OpenAI.ConnectionTest.message result)
                                (OpenAI.ConnectionTest.model result)
                                (OpenAI.ConnectionTest.modelCount result)
                                requestId |}
     else
       ret {| status := 500;
              body := Failed (js "connection_failed")
                             (OpenAI.ConnectionTest.message result) requestId |})
    (fun e =>
       if isError e && includes (messageOf e) (js "Missing required environment variables")
       then ret {| status := 500;
                   body := Failed (js "configuration_error") (messageOf e) requestId |}
       else ret {| status := 500;
                   body := Failed (js "connection_error")
                                  (if isError e then messageOf e else js "연결 실패")
                                  requestId |}).

End TestConnection.

(* ===================================================================== *)
(** ** lib/util/env: loadEnvConfig                                      *)
(* ===================================================================== *)

(** [loadEnvConfig] of [$lib/util/env], from the copy of the module that
    accompanies the connection-test route. The environment is the object
    [env] of [$env/dynamic/private], read by name; the cache is the module
    variable [cachedConfig], passed in and out. The record [Config.t] has
    every field of the interface; [configOf] below gives the part of it that
    the handlers read. *)
Module Env.

(** [new RegExp(s)], which throws on a malformed pattern and else gives the
    [test] of the pattern, and [parseFloat]. *)
Record platform := {
  RegExp_new : jstring -> thrown + (jstring -> bool);
  parseFloat : jstring -> number
}.

Module Config.
Record t := mk {
  PRODUCT_CODE_REGEX : jstring -> bool;
  MIN_CONFIDENCE : number;
  OPENAI_API_KEY : jstring;
  OPENAI_MODEL : jstring;
  OPENAI_ORGANIZATION_ID : option jstring;
  OPENAI_PROJECT_ID : option jstring;
  RESEND_API_KEY : option jstring;
  RECIPIENT_EMAIL : jstring;
  SENDER_EMAIL : jstring;
  MOCK_LLM : bool
}.
End Config.

Definition variables := jstring -> option jstring.

Definition REQUIRED_VARS : list jstring :=
  [js "OPENAI_API_KEY"; js "RESEND_API_KEY"].

(** [Boolean(env[key])] and [env[key] || d]. *)
Definition isSet (v : option jstring) : bool :=
  match v with Some s => truthy s | None => false end.

Definition orDefault (v : option jstring) (d : jstring) : jstring :=
  match v with
  | Some s => if truthy s then s else d
  | None => d
  end.

(** A variable inside a template literal. *)
Definition rendered (v : option jstring) : jstring :=
  match v with Some s => s | None => js "undefined" end.

(** [env.MOCK_LLM === 'true']. *)
Definition mockLlmOf (env : variables) : bool :=
  match env (js "MOCK_LLM") with Some v => eqb v (js "true") | None => false end.

(** The loop over the required variables. *)
Definition missingVarsOf (env : variables) : list jstring :=
  fold_left
    (fun missingVars key =>
       if mockLlmOf env && eqb key (js "OPENAI_API_KEY") then missingVars
       else if negb (isSet (env key)) then missingVars ++ [key]
       else missingVars)
    REQUIRED_VARS [].

Definition loadEnvConfig (pf : platform) (env : variables)
  : option Config.t -> (thrown + Config.t) * option Config.t :=
  fun cachedConfig =>
    match cachedConfig with
    | Some config => (inr config, cachedConfig)
    | None =>
      let mockLlm := mockLlmOf env in
      let missingVars := missingVarsOf env in
      if (0 <? List.length missingVars)%nat then
        (inl (newError (js "Missing required environment variables: "
                        ++ join (js ", ") missingVars)),
         cachedConfig)
      else
        let regexStr := orDefault (env (js "PRODUCT_CODE_REGEX")) (js "^\d{5}$") in
        match RegExp_new pf regexStr with
        | inl e =>
          (inl (newError (js "Invalid PRODUCT_CODE_REGEX: " ++ dquote ++ regexStr
                          ++ dquote ++ js " - " ++ toString e)),
           cachedConfig)
        | inr productCodeRegex =>
          let minConfidence :=
              parseFloat pf (orDefault (env (js "MIN_CONFIDENCE")) (js "0.6")) in
          if PrimFloat.is_nan minConfidence
             || PrimFloat.ltb minConfidence 0%float
             || PrimFloat.ltb 1%float minConfidence
          then
            (inl (newError (js "Invalid MIN_CONFIDENCE: " ++ dquote
                            ++ rendered (env (js "MIN_CONFIDENCE")) ++ dquote
                            ++ js ". Must be a number between 0 and 1.")),
             cachedConfig)
          else
            let config :=
                Config.mk productCodeRegex minConfidence
                          (orDefault (env (js "OPENAI_API_KEY")) [])
                          (orDefault (env (js "OPENAI_MODEL"))
                                     (js "gpt-5-mini-2025-08-07"))
                          (env (js "OPENAI_ORGANIZATION_ID"))
                          (env (js "OPENAI_PROJECT_ID"))
                          (env (js "RESEND_API_KEY"))
                          (js "kaura24@gmail.com")
                          (orDefault (env (js "SENDER_EMAIL"))
                                     (js "Acme <onboarding@resend.dev>"))
                          mockLlm in
            (inr config, Some config)
        end
    end.

Definition clearEnvCache : option Config.t -> unit * option Config.t :=
  fun _ => (tt, None).

End Env.

(* ===================================================================== *)
(** ** Vocabulary of the properties, and example worlds                  *)
(* ===================================================================== *)

Import OpenAI AffiliateCode ProcessOnce.

Unset Implicit Arguments.

(** *** Strings and registration numbers *)

(** The string begins, or ends, with white space. *)
Definition leadingWhiteSpace (s : jstring) : bool :=
  match s with c :: _ => isWhiteSpace c | [] => false end.

Definition trailingWhiteSpace (s : jstring) : bool := leadingWhiteSpace (rev s).

(** The whole string has the shape of a registration number: three digits,
    a hyphen, two digits, a hyphen, five digits. *)
Definition isRegNoFormat (s : jstring) : bool :=
  match s with
  | [a; b; c; h1; d; e; h2; f; g; h; i; j] =>
    forallb isDigit [a; b; c; d; e; f; g; h; i; j] && (h1 =? 45)%N && (h2 =? 45)%N
  | _ => false
  end.

(** *** Validation *)

(** What the loop does to one item. *)
Definition normalizeItem (item : ExtractionItem.t) : ExtractionItem.t :=
  if truthy (ExtractionItem.business_reg_no item)
  then withBusinessRegNo (normalizeBusinessRegNo (ExtractionItem.business_reg_no item))
                         item
  else item.

(** *** The retry loop *)

(** The model the loop falls back to. *)
Definition nextModel (model : jstring) : jstring :=
  if eqb model PRIMARY_MODEL then FALLBACK_MODEL else LEGACY_FALLBACK.

(** The world once [availableModel] has been set. *)
Definition cached (model : jstring) (w : world) : world :=
  {| openaiClient := openaiClient w; availableModel := Some model; trace := trace w |}.

(** The call that one iteration makes. *)
Definition callEvent (imageBase64 mimeType systemPrompt clientRequestId
                      modelToUse : jstring) : event :=
  EvResponsesCreate modelToUse systemPrompt
    (js "data:" ++ mimeType ++ js ";base64," ++ imageBase64) clientRequestId.

(** The number of calls of the Responses API in a history. *)
Definition apiCalls (h : list event) : nat :=
  List.length (filter (fun ev => match ev with
                                 | EvResponsesCreate _ _ _ _ => true
                                 | _ => false
                                 end) h).

(** *** Conversion of the response *)

(** A missing name read as the empty string. *)
Definition nameOrEmpty (name : option jstring) : jstring :=
  match name with Some s => s | None => [] end.

(** How an item of the response and the item made of it are related. *)
Definition coerced (src : ExtractedItem.t) (item : ExtractionItem.t) : Prop :=
  ExtractionItem.business_reg_no item = ExtractedItem.business_reg_no src
  /\ ExtractionItem.company_name item
     = Some (nameOrEmpty (ExtractedItem.company_name src)).

(** *** The process route *)

(** The world after the two things every request does first: a request id
    and the configuration. *)
Definition afterLoad (w : world) : world :=
  {| openaiClient := openaiClient w;
     availableModel := availableModel w;
     trace := (trace w ++ [EvUuid]) ++ [EvLoadEnvConfig] |}.

(** *** Further vocabulary *)

(** The character is neither white space, nor a hyphen, nor an underscore. *)
Definition isCodeChar (c : char16) : bool :=
  negb (isWhiteSpace c) && negb ((c =? 45)%N || (c =? 95)%N).

(** How an item stands to the same item after a successful validation. *)
Definition normalizedFrom (before after : ExtractionItem.t) : Prop :=
  ExtractionItem.product_code after = ExtractionItem.product_code before
  /\ ExtractionItem.company_name after = ExtractionItem.company_name before
  /\ ExtractionItem.row_index after = ExtractionItem.row_index before
  /\ ExtractionItem.raw_text after = ExtractionItem.raw_text before
  /\ filter isDigit (ExtractionItem.business_reg_no after)
     = filter isDigit (ExtractionItem.business_reg_no before)
  /\ (List.length (filter isDigit (ExtractionItem.business_reg_no before)) = 10 ->
      isRegNoFormat (ExtractionItem.business_reg_no after) = true).

(** The item that an element of the parsed [items] array stands for, when it
    is an object with a string product code and a string registration
    number. *)
Definition itemOf (v : value) : option ExtractedItem.t :=
  match v with
  | VObj props =>
    match asString (lookup (js "product_code") props),
          asString (lookup (js "business_reg_no") props) with
    | Some product_code, Some business_reg_no =>
      Some (ExtractedItem.mk product_code business_reg_no
              (asString (lookup (js "company_name") props))
              (asNumber (lookup (js "row_index") props))
              (asString (lookup (js "raw_text") props)))
    | _, _ => None
    end
  | _ => None
  end.

(** The string holds no backtick. *)
Definition noBacktick (s : jstring) : bool := forallb (fun c => negb (c =? 96)%N) s.

(** The text between a fence tagged [json] and a closing fence, each on a
    line of its own. *)
Definition fenced (body : jstring) : jstring :=
  fence ++ js "json" ++ [10%N] ++ body ++ [10%N] ++ fence.

(** The world with a chosen model and some more history. *)
Definition chose (m : jstring) (k : list event) (w : world) : world :=
  {| openaiClient := openaiClient w; availableModel := Some m;
     trace := trace w ++ k |}.

(** The number of delays in a history. *)
Definition sleeps (h : list event) : nat :=
  List.length (filter (fun ev => match ev with EvSleep _ => true | _ => false end) h).

(** What an iteration of the loop may do: draw a random number, wait, or
    call the API with the image, the prompt and the request id of the run. *)
Definition loopEvent (imageBase64 mimeType systemPrompt clientRequestId : jstring)
           (ev : event) : Prop :=
  ev = EvRandom
  \/ (exists delay, ev = EvSleep delay)
  \/ (exists model, ev = callEvent imageBase64 mimeType systemPrompt
                                   clientRequestId model).

(** The world in which the loop of a run starts: the client is there, the
    request id has been drawn, the model [m] is chosen and remembered. *)
Definition loopStart (config : EnvConfig) (m : jstring) (k0 : list event) (w : world)
  : world :=
  {| openaiClient := Some (match openaiClient w with
                           | Some c => c
                           | None => OPENAI_API_KEY config
                           end);
     availableModel := Some m;
     trace := (trace w ++ [EvUuid]) ++ k0 |}.

(** The request id of a run that starts in [w]. *)
Definition runId (env : environment) (w : world) : jstring :=
  uuidv4 env (trace w ++ [EvUuid]).

(** What a run of [extractWithOpenAI] may do. *)
Definition runEvent (env : environment) (imageBase64 mimeType systemPrompt : jstring)
           (w : world) (ev : event) : Prop :=
  ev = EvUuid \/ ev = EvModelsList
  \/ loopEvent imageBase64 mimeType systemPrompt (runId env w) ev.

(** The delay before the next attempt, for the random number drawn. *)
Definition backoffDelay (attempt : nat) (random : number) : number :=
  PrimFloat.add (PrimFloat.mul INITIAL_DELAY_MS (pow2 attempt))
                (PrimFloat.mul random 500%float).

(** The world after one more call. *)
Definition called (ev : event) (w : world) : world :=
  {| openaiClient := openaiClient w; availableModel := availableModel w;
     trace := trace w ++ [ev] |}.

(** The number of mails handed to the mailer in a history. *)
Definition mails (h : list event) : nat :=
  List.length (filter (fun ev => match ev with EvSendEmail => true | _ => false end) h).

(** What an extraction may do: draw an id, ask the catalogue, call the API,
    draw a random number, wait. *)
Definition extractionEvent (ev : event) : Prop :=
  match ev with
  | EvUuid | EvModelsList | EvResponsesCreate _ _ _ _ | EvRandom | EvSleep _ => True
  | _ => False
  end.

(** The answers of the handler, with what happened after the configuration
    was loaded: an input error and nothing; an extraction or validation
    failure and only the extraction; an internal error and no mail; a success
    and, after the extraction, two readings of the clock and one mail. *)
Inductive postShape : HttpResponse -> list event -> Prop :=
| ShapeInput resp e :
    status resp = 400%Z \/ status resp = 413%Z -> body resp = Failure e ->
    postShape resp []
| ShapeUnprocessable resp e k :
    status resp = 422%Z -> body resp = Failure e -> Forall extractionEvent k ->
    postShape resp k
| ShapeInternal resp e k :
    status resp = 500%Z -> body resp = Failure e -> mails k = 0 ->
    postShape resp k
| ShapeSuccess resp s k :
    status resp = 200%Z -> body resp = Success s -> Forall extractionEvent k ->
    postShape resp (k ++ [EvNow; EvNow; EvSendEmail]).

(** What a stage of the handler leaves behind: an answer of one of these
    shapes, or an exception thrown before any mail. *)
Definition stageShape (w : world) (out : (thrown + HttpResponse) * world) : Prop :=
  exists k, trace (snd out) = trace w ++ k
            /\ match fst out with
               | inr resp => postShape resp k
               | inl _ => mails k = 0
               end.

(** The request id of a request that arrives in [w]. *)
Definition requestIdOf (env : environment) (w : world) : jstring :=
  uuidv4 env (trace w ++ [EvUuid]).

(** The request gets as far as the product codes: the configuration loads,
    the content type is multipart, the form parses and the product-code
    field is the string [raw]. *)
Definition reachesCodes (col : collaborators) (request : Request) (w : world)
           (config : EnvConfig) (form : FormData) (raw : jstring) : Prop :=
  loadEnvConfig col ((trace w ++ [EvUuid]) ++ [EvLoadEnvConfig]) = inr config
  /\ (exists header, content_type request = Some header
                     /\ includes header (js "multipart/form-data") = true)
  /\ formData request = inr form
  /\ productCode form = FdString raw.

(** It gets as far as the file: there is a code, and every code is valid. *)
Definition reachesFile (col : collaborators) (request : Request) (w : world)
           (config : EnvConfig) (form : FormData) (raw : jstring) : Prop :=
  reachesCodes col request w config form raw
  /\ productCodesOf raw <> []
  /\ invalidCodesOf config (productCodesOf raw) = [].

(** It gets as far as the extraction: the image field is a file of an
    accepted type and size. *)
Definition reachesExtraction (col : collaborators) (request : Request) (w : world)
           (config : EnvConfig) (form : FormData) (raw : jstring) (file : File.t)
  : Prop :=
  reachesFile col request w config form raw
  /\ image form = FdFile file
  /\ (File.size file <= MAX_PAYLOAD_SIZE)%N
  /\ In (File.type file) allowedTypes.

(** The string holds no comma. *)
Definition noComma (s : jstring) : bool := forallb (fun c => negb (c =? 44)%N) s.

(** The world once the client has been built, if it was not there. *)
Definition withClient (config : EnvConfig) (w : world) : world :=
  {| openaiClient := Some (match openaiClient w with
                           | Some c => c
                           | None => OPENAI_API_KEY config
                           end);
     availableModel := availableModel w;
     trace := trace w |}.

(** The part of a loaded configuration that the handlers read. *)
Definition configOf (c : Env.Config.t) : EnvConfig :=
  {| OPENAI_API_KEY := Env.Config.OPENAI_API_KEY c;
     OPENAI_MODEL := Some (Env.Config.OPENAI_MODEL c);
     MOCK_LLM := Env.Config.MOCK_LLM c;
     MIN_CONFIDENCE := Env.Config.MIN_CONFIDENCE c;
     PRODUCT_CODE_REGEX := Env.Config.PRODUCT_CODE_REGEX c;
     SENDER_EMAIL := Env.Config.SENDER_EMAIL c;
     RECIPIENT_EMAIL := Env.Config.RECIPIENT_EMAIL c |}.

(** What a handler gets from [loadEnvConfig]. *)
Definition loaded (pf : Env.platform) (vars : Env.variables)
           (cachedConfig : option Env.Config.t) : thrown + EnvConfig :=
  match fst (Env.loadEnvConfig pf vars cachedConfig) with
  | inl e => inl e
  | inr c => inr (configOf c)
  end.

(** The message of the error for missing variables. *)
Definition missingMessage (vars : Env.variables) : jstring :=
  js "Missing required environment variables: "
  ++ join (js ", ") (Env.missingVarsOf vars).

(** *** Example worlds *)

Definition fiveDigits (s : jstring) : bool :=
  (List.length s =? 5)%nat && forallb isDigit s.

Definition exampleConfig (model : option jstring) (mockMode : bool) : EnvConfig :=
  {| OPENAI_API_KEY := js "sk-example";
     OPENAI_MODEL := model;
     MOCK_LLM := mockMode;
     MIN_CONFIDENCE := 0.6%float;
     PRODUCT_CODE_REGEX := fiveDigits;
     SENDER_EMAIL := js "sender@example.com";
     RECIPIENT_EMAIL := js "recipient@example.com" |}.

Definition freshWorld : world :=
  {| openaiClient := None; availableModel := None; trace := [] |}.

Definition exampleUuid : jstring := js "3f2b8c1e-0d4a-4e57-9a6b-1c2d3e4f5a6b".

Definition noParse (s : jstring) : thrown + value :=
  inl (PlainError (js "SyntaxError") (js "Unexpected end of JSON input")).

(** An outside world in which the catalogue has the three models of the
    priority list and the Responses API answers by [answer]. [toFixed] and
    [JSON.parse] are given on the arguments the examples reach. *)
Definition exampleEnv (answer : list event -> thrown + ApiResponse)
                      (parse : jstring -> thrown + value) : environment :=
  {| uuidv4 := fun _ => exampleUuid;
     models_list := fun _ => inr [js "gpt-4o"; PRIMARY_MODEL; FALLBACK_MODEL;
                                  LEGACY_FALLBACK];
     responses_create := answer;
     Math_random := fun _ => 0.25%float;
     JSON_parse := parse;
     toFixed := fun x _ =>
       if PrimFloat.eqb x 50%float then js "50.0"
       else if PrimFloat.eqb x 60%float then js "60.0"
       else js "0.0" |}.

(** Worlds for the retry loop: a request refused as malformed, a rate limit,
    a model that is not there. *)
Definition badRequest : thrown := APIError (Some 400%Z) (js "400 Invalid image data").

Definition rateLimited : thrown := APIError (Some 429%Z) (js "429 Rate limit reached").

Definition modelMissing : thrown :=
  APIError (Some 404%Z)
           (js "404 The model does not exist or you do not have access to it.").

Definition exampleCall (model : jstring) : event :=
  callEvent (js "aGk=") (js "image/png") (js "p") exampleUuid model.

Definition quietEnv : environment := exampleEnv (fun _ => inl badRequest) noParse.

Definition missingEnv : environment := exampleEnv (fun _ => inl modelMissing) noParse.

Definition afterFirstCall : world :=
  {| openaiClient := None; availableModel := None;
     trace := [exampleCall PRIMARY_MODEL] |}.

(** A result without items and with confidence 0, and a result with one
    item and confidence 0.5, below the minimum of the example configuration. *)
Definition emptyResult : ExtractionResult.t :=
  ExtractionResult.mk [] (VNum 0%float) 0%float openai exampleUuid
                      (Some exampleUuid) None.

Definition lowResult : ExtractionResult.t :=
  ExtractionResult.mk
    [ExtractionItem.mk (js "12345") (js "1234567890") (Some (js "ACME")) None None]
    (VNum 1%float) 0.5%float openai exampleUuid (Some exampleUuid) None.

(** A response whose [total_found] is a string. *)
Definition textWithStringTotal : jstring :=
  js "{" ++ q "items" ++ js ": [], " ++ q "total_found" ++ js ": " ++ q "3"
  ++ js ", " ++ q "confidence" ++ js ": 0.9}".

Definition parsedWithStringTotal : value :=
  VObj [(js "items", VArr []); (js "total_found", VStr (js "3"));
        (js "confidence", VNum 0.9%float)].

Definition parseStringTotal (s : jstring) : thrown + value :=
  if eqb s textWithStringTotal then inr parsedWithStringTotal else noParse s.

(** A response without [total_found]. *)
Definition textWithoutTotal : jstring :=
  js "{" ++ q "items" ++ js ": [], " ++ q "confidence" ++ js ": 0.9}".

Definition parsedWithoutTotal : value :=
  VObj [(js "items", VArr []); (js "confidence", VNum 0.9%float)].

Definition parseWithoutTotal (s : jstring) : thrown + value :=
  if eqb s textWithoutTotal then inr parsedWithoutTotal else noParse s.

Definition withoutTotalEnv : environment :=
  exampleEnv (fun _ => inl badRequest) parseWithoutTotal.

Definition resultWithoutTotal : OpenAIExtractionResult.t :=
  OpenAIExtractionResult.mk [] (VNum 0%float) 0.9%float None.

(** A response with one item that has an empty registration number and no
    name. *)
Definition textWithBareItem : jstring :=
  js "{" ++ q "items" ++ js ": [{" ++ q "product_code" ++ js ": " ++ q "12345"
  ++ js ", " ++ q "business_reg_no" ++ js ": " ++ dquote ++ dquote ++ js "}], "
  ++ q "confidence" ++ js ": 0.9}".

Definition parsedWithBareItem : value :=
  VObj [(js "items",
         VArr [VObj [(js "product_code", VStr (js "12345"));
                     (js "business_reg_no", VStr [])]]);
        (js "confidence", VNum 0.9%float)].

Definition bareItemEnv : environment :=
  exampleEnv
    (fun _ => inr {| output := Some [{| type := js "message";
                                        content := Some [{| text := Some textWithBareItem |}] |}] |})
    (fun s => if eqb s textWithBareItem then inr parsedWithBareItem else noParse s).

(** A request with one good and one bad code, and collaborators that load the
    example configuration. *)
Definition exampleCollaborators : collaborators :=
  {| loadEnvConfig := fun _ => inr (exampleConfig None false);
     toBase64 := fun _ => js "aGk=";
     toISOString := fun _ => js "2025-01-01T00:00:00.000Z";
     generateExcel := fun _ => inr [];
     excelToBase64 := fun _ => [];
     generateExcelFilename := fun _ => js "result.xlsx";
     sendResultEmail := fun _ _ _ _ _ _ =>
       inr {| success := true; messageId := Some (js "m1"); error := None |} |}.

Definition exampleForm : FormData :=
  {| productCode := FdString (js "12345, 12a45"); image := FdNull |}.

Definition exampleRequest : Request :=
  {| content_type := Some (js "multipart/form-data; boundary=x");
     formData := inr exampleForm |}.

(** Example variables and platform: a table of variables, patterns that
    always compile to the five-digit test, and a [parseFloat] that knows two
    strings. *)
Definition variablesOf (table : list (string * string)) : Env.variables :=
  fun key =>
    match find (fun p => eqb (js (fst p)) key) table with
    | Some p => Some (js (snd p))
    | None => None
    end.

Definition examplePlatform : Env.platform :=
  {| Env.RegExp_new := fun _ => inr fiveDigits;
     Env.parseFloat := fun s => if eqb s (js "0.6") then 0.6%float
                                else if eqb s (js "0.8") then 0.8%float
                                else PrimFloat.nan |}.

(** *** More example worlds *)

(** A result that passes validation with the example configuration, and the
    same result once validated. *)
Definition goodResult : ExtractionResult.t :=
  ExtractionResult.mk
    [ExtractionItem.mk (js "12345") (js "1234567890") (Some (js "ACME")) None None]
    (VNum 1%float) 0.9%float openai exampleUuid (Some exampleUuid) None.

Definition validResult : ExtractionResult.t :=
  ExtractionResult.mk
    [ExtractionItem.mk (js "12345") (js "123-45-67890") (Some (js "ACME")) None None]
    (VNum 1%float) 0.9%float openai exampleUuid (Some exampleUuid) None.


Definition emptyAnswerEnv : environment :=
  exampleEnv
    (fun _ => inr {| output := Some [{| type := js "message";
                                        content := Some [{| text := Some textWithoutTotal |}] |}] |})
    parseWithoutTotal.

(** A world in which the primary model is remembered. *)
Definition primaryWorld : world :=
  {| openaiClient := None; availableModel := Some PRIMARY_MODEL; trace := [] |}.

(** Requests: a small PNG, a file that is too large, a text file; a form
    with given codes and image field. *)
Definition pngFile : File.t :=
  File.mk (js "scan.png") 2 (js "image/png") [104; 105]%N.

Definition bigFile : File.t :=
  File.mk (js "scan.png") 4500001 (js "image/png") [104; 105]%N.

Definition formWith (codes : string) (img : FormDataEntryValue) : FormData :=
  {| productCode := FdString (js codes); image := img |}.

Definition requestWith (form : FormData) : Request :=
  {| content_type := Some (js "multipart/form-data; boundary=x");
     formData := inr form |}.

Definition goodForm : FormData := formWith "12345, 67-890" (FdFile pngFile).

(** Collaborators like the example ones, with a given way to load the
    configuration. *)
Definition collaboratorsLoading (load : thrown + EnvConfig) : collaborators :=
  {| loadEnvConfig := fun _ => load;
     toBase64 := fun _ => js "aGk=";
     toISOString := fun _ => js "2025-01-01T00:00:00.000Z";
     generateExcel := fun _ => inr [];
     excelToBase64 := fun _ => [];
     generateExcelFilename := fun _ => js "result.xlsx";
     sendResultEmail := fun _ _ _ _ _ _ =>
       inr {| success := true; messageId := Some (js "m1"); error := None |} |}.

Definition missingVariables : thrown :=
  newError (js "Missing required environment variables: OPENAI_API_KEY").

(* ===================================================================== *)
(** ** Properties                                                         *)
(* ===================================================================== *)

(** *** Strings *)

Lemma filter_all_true {A} (f : A -> bool) (l : list A) :
  forallb f l = true -> filter f l = l.
Proof.
  induction l as [|a l IH]; simpl; intros H; [reflexivity|].
  apply andb_true_iff in H as [Ha Hl]. rewrite Ha, IH by assumption. reflexivity.
Qed.

(** The comparison of strings decides their equality. *)
Lemma eqb_eq (a b : jstring) : eqb a b = true <-> a = b.
Proof.
  revert b. induction a as [|x a IH]; intros [|y b]; simpl;
    try (split; [discriminate | discriminate]); [tauto|].
  rewrite andb_true_iff, N.eqb_eq, IH. split.
  - intros [-> ->]. reflexivity.
  - intros H. injection H as -> ->. split; reflexivity.
Qed.

Lemma trimStart_id (s : jstring) :
  match s with c :: _ => isWhiteSpace c | [] => false end = false ->
  trimStart s = s.
Proof. destruct s as [|c r]; simpl; intros H; [reflexivity | now rewrite H]. Qed.

Lemma trim_id (s : jstring) :
  leadingWhiteSpace s = false -> trailingWhiteSpace s = false -> trim s = s.
Proof.
  intros Hl Ht. unfold trim, trimEnd.
  rewrite (trimStart_id s Hl), (trimStart_id (rev s) Ht). apply rev_involutive.
Qed.

(** *** normalizeBusinessRegNo *)

Lemma normalize_ten_digits (a b c d e f g h i j : char16) :
  forallb isDigit [a; b; c; d; e; f; g; h; i; j] = true ->
  normalizeBusinessRegNo [a; b; c; d; e; f; g; h; i; j]
  = [a; b; c; 45%N; d; e; 45%N; f; g; h; i; j].
Proof.
  intros H. unfold normalizeBusinessRegNo.
  rewrite (filter_all_true _ _ H). reflexivity.
Qed.

Lemma normalize_formatted (a b c d e f g h i j : char16) :
  forallb isDigit [a; b; c; d; e; f; g; h; i; j] = true ->
  normalizeBusinessRegNo [a; b; c; 45%N; d; e; 45%N; f; g; h; i; j]
  = [a; b; c; 45%N; d; e; 45%N; f; g; h; i; j].
Proof.
  intros H. unfold normalizeBusinessRegNo.
  assert (Hf : filter isDigit [a; b; c; 45%N; d; e; 45%N; f; g; h; i; j]
               = [a; b; c; d; e; f; g; h; i; j]).
  { simpl in H. repeat (apply andb_true_iff in H as [?Hd H]).
    simpl. rewrite Hd, Hd0, Hd1, Hd2, Hd3, Hd4, Hd5, Hd6, Hd7, Hd8.
    reflexivity. }
  rewrite Hf. reflexivity.
Qed.

(** C5. For every string of exactly ten digits, normalising the normalised
    string gives the normalised string again, and the normalised string has
    the shape ddd-dd-ddddd. *)
Theorem normalizeBusinessRegNo_idempotent_on_ten_digits (x : jstring) :
  List.length x = 10 -> forallb isDigit x = true ->
  normalizeBusinessRegNo (normalizeBusinessRegNo x) = normalizeBusinessRegNo x
  /\ isRegNoFormat (normalizeBusinessRegNo x) = true.
Proof.
  intros Hlen Hdig.
  do 10 (destruct x as [|? x]; [discriminate Hlen|]).
  destruct x; [|discriminate Hlen].
  rewrite (normalize_ten_digits _ _ _ _ _ _ _ _ _ _ Hdig).
  split.
  - apply normalize_formatted, Hdig.
  - unfold isRegNoFormat. rewrite Hdig. reflexivity.
Qed.

Lemma normalizeBusinessRegNo_idempotent_witness :
  normalizeBusinessRegNo (normalizeBusinessRegNo (js "1234567890"))
  = normalizeBusinessRegNo (js "1234567890")
  /\ isRegNoFormat (normalizeBusinessRegNo (js "1234567890")) = true.
Proof.
  apply (normalizeBusinessRegNo_idempotent_on_ten_digits (js "1234567890"));
    reflexivity.
Defined.

(** C6, as the claim states it, fails: a string with fewer than ten digits
    and a leading blank comes back without the blank. *)
Lemma normalizeBusinessRegNo_not_unmodified :
  List.length (filter isDigit (js " 1")) <> 10
  /\ normalizeBusinessRegNo (js " 1") = js "1"
  /\ normalizeBusinessRegNo (js " 1") <> js " 1".
Proof. repeat split; vm_compute; discriminate. Qed.

(** C6, amended. For every string whose digits are not exactly ten, the
    result is the string with the white space at both ends removed; it is
    the string itself when there is none. *)
Theorem normalizeBusinessRegNo_other_lengths (s : jstring) :
  List.length (filter isDigit s) <> 10 ->
  normalizeBusinessRegNo s = trim s
  /\ (leadingWhiteSpace s = false -> trailingWhiteSpace s = false ->
      normalizeBusinessRegNo s = s).
Proof.
  intros Hlen. unfold normalizeBusinessRegNo.
  destruct (Nat.eqb_spec (List.length (filter isDigit s)) 10) as [E|_];
    [contradiction|].
  split; [reflexivity | apply trim_id].
Qed.

Lemma normalizeBusinessRegNo_other_lengths_witness :
  List.length (filter isDigit (js "123-45")) <> 10
  /\ normalizeBusinessRegNo (js "123-45") = trim (js "123-45")
  /\ normalizeBusinessRegNo (js "123-45") = js "123-45".
Proof.
  assert (H : List.length (filter isDigit (js "123-45")) <> 10)
    by (vm_compute; discriminate).
  destruct (normalizeBusinessRegNo_other_lengths (js "123-45") H) as [H1 H2].
  split; [exact H | split; [exact H1 | apply H2; reflexivity]].
Defined.

(** *** validateExtractionResult *)

Lemma withItems_same (r : ExtractionResult.t) :
  withItems r (ExtractionResult.items r) = r.
Proof. destruct r; reflexivity. Qed.

Lemma withItems_twice (r : ExtractionResult.t) (a b : list ExtractionItem.t) :
  withItems (withItems r a) b = withItems r b.
Proof. reflexivity. Qed.

Lemma updateAt_middle (f : ExtractionItem.t -> ExtractionItem.t)
      (done : list ExtractionItem.t) (item : ExtractionItem.t)
      (rest : list ExtractionItem.t) :
  updateAt (List.length done) f (done ++ item :: rest) = done ++ f item :: rest.
Proof. induction done as [|d done IH]; simpl; [reflexivity | now rewrite IH]. Qed.

(** The loop never throws, and it leaves the items already visited alone
    while it normalises the others. *)
Lemma normalizeFrom_spec (todo done : list ExtractionItem.t) (r : ExtractionResult.t) :
  ExtractionResult.items r = done ++ todo ->
  normalizeFrom (List.length done) todo r
  = (inr tt, withItems r (done ++ map normalizeItem todo)).
Proof.
  revert done r. induction todo as [|item rest IH]; intros done r Hr.
  - simpl. unfold vret. rewrite app_nil_r, <- (app_nil_r done), <- Hr at 1.
    now rewrite withItems_same.
  - simpl. unfold vbind.
    assert (Hnext : forall r1, ExtractionResult.items r1
                               = (done ++ [normalizeItem item]) ++ rest ->
              normalizeFrom (S (List.length done)) rest r1
              = (inr tt, withItems r1 (done ++ normalizeItem item
                                             :: map normalizeItem rest))).
    { intros r1 H1. specialize (IH (done ++ [normalizeItem item]) r1 H1).
      rewrite length_app, Nat.add_1_r, <- app_assoc in IH. exact IH. }
    unfold normalizeItem in *.
    destruct (truthy (ExtractionItem.business_reg_no item)).
    + unfold setBusinessRegNo. rewrite Hr, updateAt_middle.
      rewrite Hnext by (simpl; now rewrite <- app_assoc).
      now rewrite withItems_twice.
    + unfold vret. apply Hnext. now rewrite Hr, <- app_assoc.
Qed.

Lemma validate_unfold (env : environment) (config : EnvConfig)
      (r : ExtractionResult.t) :
  validateExtractionResult env config r
  = match ExtractionResult.items r with
    | [] => (inl (errorFor (js "extraction_failed")
                    (js "이미지에서 해당 상품번호에 매핑된 사업자등록번호를 찾을 수 없습니다.")
                    r), r)
    | _ :: _ =>
      if PrimFloat.ltb (ExtractionResult.confidence r) (MIN_CONFIDENCE config)
      then (inl (errorFor (js "low_confidence")
                   (js "사업자등록번호 인식 신뢰도가 너무 낮습니다. ("
                    ++ toFixed env (PrimFloat.mul (ExtractionResult.confidence r)
                                                  100%float) 1
                    ++ js "% < "
                    ++ toFixed env (PrimFloat.mul (MIN_CONFIDENCE config) 100%float) 1
                    ++ js "%)")
                   r), r)
      else (inr tt, withItems r (map normalizeItem (ExtractionResult.items r)))
    end.
Proof.
  unfold validateExtractionResult, vbind, vread, vthrow.
  destruct (ExtractionResult.items r) as [|it its] eqn:E; [reflexivity|].
  destruct (PrimFloat.ltb _ _); [reflexivity|].
  rewrite <- E. apply (normalizeFrom_spec (ExtractionResult.items r) [] r). reflexivity.
Qed.

Lemma error_codes_differ : js "extraction_failed" <> js "low_confidence".
Proof. vm_compute. discriminate. Qed.

(** C2. Emptiness is checked before confidence: a result without items is
    rejected with [extraction_failed] whatever its confidence, and a result
    with items is rejected with [low_confidence] exactly when its confidence
    is strictly below the configured minimum. *)
Theorem validateExtractionResult_checks (env : environment) (config : EnvConfig)
        (r : ExtractionResult.t) :
  (ExtractionResult.items r = [] ->
   exists e, fst (validateExtractionResult env config r) = inl e
             /\ ExtractionError.error_code e = js "extraction_failed"
             /\ ExtractionError.error_code e <> js "low_confidence")
  /\ (ExtractionResult.items r <> [] ->
      ((exists e, fst (validateExtractionResult env config r) = inl e
                  /\ ExtractionError.error_code e = js "low_confidence")
       <-> PrimFloat.ltb (ExtractionResult.confidence r) (MIN_CONFIDENCE config) = true)
      /\ (forall e, fst (validateExtractionResult env config r) = inl e ->
                    ExtractionError.error_code e = js "low_confidence")).
Proof.
  rewrite validate_unfold. split.
  - intros E. rewrite E. eexists. split; [reflexivity|]. split; [reflexivity|].
    apply error_codes_differ.
  - intros NE. destruct (ExtractionResult.items r) as [|it its]; [contradiction|].
    destruct (PrimFloat.ltb _ _); simpl; split.
    + split; [reflexivity|]. intros _. eexists. split; reflexivity.
    + intros e H. injection H as <-. reflexivity.
    + split; [intros [e [H _]]; discriminate H | discriminate].
    + intros e H. discriminate H.
Qed.

(** C9. A failed validation leaves the result as it was, items included;
    a successful one normalises the items and nothing else. *)
Theorem validateExtractionResult_atomic (env : environment) (config : EnvConfig)
        (r : ExtractionResult.t) :
  (forall e r', validateExtractionResult env config r = (inl e, r') -> r' = r)
  /\ (forall r', validateExtractionResult env config r = (inr tt, r') ->
                 r' = withItems r (map normalizeItem (ExtractionResult.items r))).
Proof.
  rewrite validate_unfold.
  destruct (ExtractionResult.items r) as [|it its].
  - split; intros; [congruence | discriminate].
  - destruct (PrimFloat.ltb _ _); split; intros; try discriminate; congruence.
Qed.

(** *** Example worlds *)

Lemma validateExtractionResult_checks_witness :
  (exists e,
      fst (validateExtractionResult quietEnv (exampleConfig None false) emptyResult)
      = inl e
      /\ ExtractionError.error_code e = js "extraction_failed"
      /\ ExtractionError.error_code e <> js "low_confidence")
  /\ (exists e,
        fst (validateExtractionResult quietEnv (exampleConfig None false) lowResult)
        = inl e
        /\ ExtractionError.error_code e = js "low_confidence").
Proof.
  split.
  - apply (proj1 (validateExtractionResult_checks quietEnv (exampleConfig None false)
                    emptyResult)).
    reflexivity.
  - assert (Hne : ExtractionResult.items lowResult <> []) by discriminate.
    destruct (proj2 (validateExtractionResult_checks quietEnv
                       (exampleConfig None false) lowResult) Hne) as [[_ H] _].
    apply H. reflexivity.
Defined.

Lemma validateExtractionResult_atomic_witness :
  exists e,
    validateExtractionResult quietEnv (exampleConfig None false) lowResult
    = (inl e, lowResult).
Proof.
  destruct (validateExtractionResult quietEnv (exampleConfig None false) lowResult)
    as [[e|u] r'] eqn:E.
  - exists e.
    rewrite (proj1 (validateExtractionResult_atomic quietEnv
                      (exampleConfig None false) lowResult) e r' E).
    reflexivity.
  - vm_compute in E. discriminate E.
Defined.

(** *** The mock result *)

(** C8. In mock mode, with target code 12345, the result has exactly two
    items, confidence 0.95, provider [mock] and the registration numbers
    123-45-67890 and 987-65-43210 in this order, whatever the image; the
    only thing asked of the outside world is a request id. *)
Theorem extractBusinessRegNo_mock (env : environment) (imageBase64 mimeType : jstring)
        (config : EnvConfig) (w : world) :
  MOCK_LLM config = true ->
  exists r w',
    extractBusinessRegNo env imageBase64 mimeType (js "12345") config w = (inr r, w')
    /\ List.length (ExtractionResult.items r) = 2
    /\ ExtractionResult.confidence r = 0.95%float
    /\ ExtractionResult.provider r = mock
    /\ map ExtractionItem.business_reg_no (ExtractionResult.items r)
       = [js "123-45-67890"; js "987-65-43210"]
    /\ map ExtractionItem.product_code (ExtractionResult.items r)
       = [js "12345"; js "12345"]
    /\ trace w' = trace w ++ [EvUuid].
Proof.
  intros Hmock. unfold extractBusinessRegNo. rewrite Hmock.
  unfold getMockResult, bind, ask, ret. cbv zeta.
  eexists. eexists. split; [reflexivity|]. repeat split.
Qed.

Lemma extractBusinessRegNo_mock_witness :
  exists r w',
    extractBusinessRegNo (exampleEnv (fun _ => inl (NonError [])) noParse)
      (js "aGVsbG8=") (js "image/png") (js "12345")
      (exampleConfig None true) freshWorld = (inr r, w')
    /\ List.length (ExtractionResult.items r) = 2
    /\ ExtractionResult.confidence r = 0.95%float
    /\ ExtractionResult.provider r = mock
    /\ map ExtractionItem.business_reg_no (ExtractionResult.items r)
       = [js "123-45-67890"; js "987-65-43210"]
    /\ map ExtractionItem.product_code (ExtractionResult.items r)
       = [js "12345"; js "12345"]
    /\ trace w' = trace freshWorld ++ [EvUuid].
Proof.
  apply (extractBusinessRegNo_mock _ _ _ (exampleConfig None true)). reflexivity.
Defined.

(** *** The retry loop of extractWithOpenAI *)

Section RetryLoop.

Variable env : environment.
Variables imageBase64 mimeType systemPrompt clientRequestId : jstring.

Let once := attemptOnce env imageBase64 mimeType systemPrompt clientRequestId.
Let loop := attemptLoop env imageBase64 mimeType systemPrompt clientRequestId.
Let call := callEvent imageBase64 mimeType systemPrompt clientRequestId.

(** One iteration makes exactly one call, with the current model. *)
Lemma attemptOnce_trace (model : jstring) (w : world) :
  trace (snd (once model w)) = trace w ++ [call model].
Proof.
  unfold once, attemptOnce, bind, askOrThrow. cbv zeta. simpl.
  destruct (responses_create env _) as [e|response]; [reflexivity|].
  destruct (negb (truthy (outputTextOf response))); [reflexivity|].
  destruct (parseExtractionResult env _); reflexivity.
Qed.

Lemma loop_unfold_throw (remaining attempt : nat) (model : jstring)
      (lastError : option thrown) (w w1 : world) (e : thrown) :
  once model w = (inl e, w1) ->
  loop (S remaining) attempt model lastError w
  = if isModelNotFoundError e && negb (eqb model LEGACY_FALLBACK) then
      loop remaining (S attempt) (nextModel model) (Some (asError e))
           (cached (nextModel model) w1)
    else if isRetryableError e && (attempt <? MAX_RETRIES - 1)%nat then
      loop remaining (S attempt) model (Some (asError e))
           {| openaiClient := openaiClient w1;
              availableModel := availableModel w1;
              trace := (trace w1 ++ [EvRandom])
                       ++ [EvSleep (PrimFloat.add
                                      (PrimFloat.mul INITIAL_DELAY_MS (pow2 attempt))
                                      (PrimFloat.mul
                                         (Math_random env (trace w1 ++ [EvRandom]))
                                         500%float))] |}
    else
      loop remaining (S attempt) model (Some (asError e)) w1.
Proof.
  intros H. unfold loop. simpl. unfold tryCatch. fold once. rewrite H.
  change (MAX_RETRIES - 1)%nat with 2%nat.
  destruct (isModelNotFoundError e && negb (eqb model LEGACY_FALLBACK));
    [reflexivity|].
  destruct (isRetryableError e && (attempt <? 2)%nat); reflexivity.
Qed.

Lemma loop_unfold_return (remaining attempt : nat) (model : jstring)
      (lastError : option thrown) (w w1 : world) (r : OpenAIResponse.t) :
  once model w = (inr r, w1) ->
  loop (S remaining) attempt model lastError w = (inr r, w1).
Proof. intros H. unfold loop. simpl. unfold tryCatch. fold once. now rewrite H. Qed.

(** The history only grows. *)
Lemma loop_extends (remaining attempt : nat) (model : jstring)
      (lastError : option thrown) (w : world) :
  exists k, trace (snd (loop remaining attempt model lastError w)) = trace w ++ k.
Proof.
  revert attempt model lastError w.
  induction remaining as [|remaining IH]; intros attempt model lastError w.
  - exists []. unfold loop. simpl. now rewrite app_nil_r.
  - pose proof (attemptOnce_trace model w) as Ht.
    destruct (once model w) as [[e|r] w1] eqn:E; simpl in Ht.
    + rewrite (loop_unfold_throw _ _ _ _ _ _ _ E).
      destruct (isModelNotFoundError e && negb (eqb model LEGACY_FALLBACK)).
      { destruct (IH (S attempt) (nextModel model) (Some (asError e))
                     (cached (nextModel model) w1)) as [k Hk].
        exists (call model :: k). rewrite Hk. simpl. rewrite Ht.
        now rewrite <- app_assoc. }
      destruct (isRetryableError e && (attempt <? MAX_RETRIES - 1)%nat).
      { match goal with
        | |- context [loop _ _ _ _ ?w2] =>
          destruct (IH (S attempt) model (Some (asError e)) w2) as [k Hk]
        end.
        eexists. rewrite Hk. simpl. rewrite Ht.
        repeat rewrite <- app_assoc. reflexivity. }
      destruct (IH (S attempt) model (Some (asError e)) w1) as [k Hk].
      exists (call model :: k). rewrite Hk, Ht. now rewrite <- app_assoc.
    + rewrite (loop_unfold_return _ _ _ _ _ _ _ E). exists [call model]. exact Ht.
Qed.

(** An iteration begins with its call. *)
Lemma loop_first_call (remaining attempt : nat) (model : jstring)
      (lastError : option thrown) (w : world) :
  exists k, trace (snd (loop (S remaining) attempt model lastError w))
            = trace w ++ call model :: k.
Proof.
  pose proof (attemptOnce_trace model w) as Ht.
  destruct (once model w) as [[e|r] w1] eqn:E; simpl in Ht.
  - assert (Hany : forall a m l, exists k,
              trace (snd (loop remaining a m l w1)) = trace w ++ call model :: k).
    { intros a m l. destruct (loop_extends remaining a m l w1) as [k Hk].
      exists k. rewrite Hk, Ht. now rewrite <- app_assoc. }
    rewrite (loop_unfold_throw _ _ _ _ _ _ _ E).
    destruct (isModelNotFoundError e && negb (eqb model LEGACY_FALLBACK)).
    { destruct (loop_extends remaining (S attempt) (nextModel model)
                  (Some (asError e)) (cached (nextModel model) w1)) as [k Hk].
      exists k. rewrite Hk. simpl. rewrite Ht. now rewrite <- app_assoc. }
    destruct (isRetryableError e && (attempt <? MAX_RETRIES - 1)%nat);
      [|apply Hany].
    match goal with
    | |- context [loop _ _ _ _ ?w2] =>
      destruct (loop_extends remaining (S attempt) model (Some (asError e)) w2)
        as [k Hk]
    end.
    eexists. rewrite Hk. simpl. rewrite Ht. repeat rewrite <- app_assoc. reflexivity.
  - rewrite (loop_unfold_return _ _ _ _ _ _ _ E). exists []. exact Ht.
Qed.

(** C4, amended. When an iteration fails with a model-not-found error and
    the current model is not the legacy model, the loop records the next
    model (the secondary model after the primary one, the legacy model after
    any other) as the available model. If an iteration is left, it starts at
    once: the next thing that happens is the call with the next model, with
    no delay in between. If the failed iteration was the last one, there is
    no further call and the error is thrown. *)
Theorem extractWithOpenAI_model_fallback (remaining attempt : nat) (model : jstring)
        (lastError : option thrown) (w w1 : world) (e : thrown) :
  once model w = (inl e, w1) ->
  isModelNotFoundError e = true ->
  eqb model LEGACY_FALLBACK = false ->
  In (nextModel model) modelPriority
  /\ loop (S (S remaining)) attempt model lastError w
     = loop (S remaining) (S attempt) (nextModel model) (Some (asError e))
            (cached (nextModel model) w1)
  /\ (exists k,
        trace (snd (loop (S (S remaining)) attempt model lastError w))
        = trace w ++ call model :: call (nextModel model) :: k)
  /\ loop 1 attempt model lastError w
     = (inl (asError e), cached (nextModel model) w1).
Proof.
  intros Honce Hnf Hmodel.
  assert (Hstep : forall n, loop (S n) attempt model lastError w
                            = loop n (S attempt) (nextModel model) (Some (asError e))
                                   (cached (nextModel model) w1)).
  { intros n. rewrite (loop_unfold_throw _ _ _ _ _ _ _ Honce), Hnf, Hmodel. reflexivity. }
  repeat split.
  - unfold nextModel, modelPriority. destruct (eqb model PRIMARY_MODEL); simpl; auto.
  - apply Hstep.
  - rewrite Hstep.
    destruct (loop_first_call remaining (S attempt) (nextModel model)
                (Some (asError e)) (cached (nextModel model) w1)) as [k Hk].
    exists k. rewrite Hk. simpl.
    pose proof (attemptOnce_trace model w) as Ht. rewrite Honce in Ht. simpl in Ht.
    rewrite Ht, <- app_assoc. reflexivity.
  - rewrite Hstep. reflexivity.
Qed.

(** An error of any other class at an iteration that is not the last is
    followed by the same call again, with no delay. *)
Lemma loop_other_error_retries (remaining attempt : nat) (model : jstring)
      (lastError : option thrown) (w w1 : world) (e : thrown) :
  once model w = (inl e, w1) ->
  isModelNotFoundError e = false ->
  isRetryableError e = false ->
  exists k,
    trace (snd (loop (S (S remaining)) attempt model lastError w))
    = trace w ++ call model :: call model :: k.
Proof.
  intros Honce Hnf Hre.
  rewrite (loop_unfold_throw _ _ _ _ _ _ _ Honce), Hnf, Hre. simpl.
  destruct (loop_first_call remaining (S attempt) model (Some (asError e)) w1)
    as [k Hk].
  exists k. rewrite Hk.
  pose proof (attemptOnce_trace model w) as Ht. rewrite Honce in Ht. simpl in Ht.
  rewrite Ht, <- app_assoc. reflexivity.
Qed.

End RetryLoop.

(** After the key check, the client, the request id and the choice of the
    model, [extractWithOpenAI] is the loop with all its iterations left. *)
Lemma extractWithOpenAI_runs_loop (env : environment)
      (imageBase64 mimeType systemPrompt : jstring) (config : EnvConfig) (w : world) :
  truthy (OPENAI_API_KEY config) = true ->
  extractWithOpenAI env imageBase64 mimeType config systemPrompt w
  = bind (getOpenAIClient (OPENAI_API_KEY config)) (fun _ =>
    bind (ask EvUuid (uuidv4 env)) (fun clientRequestId =>
    bind (getAvailableModel env (OPENAI_MODEL config)) (fun modelToUse =>
    attemptLoop env imageBase64 mimeType systemPrompt clientRequestId
                MAX_RETRIES 0 modelToUse None))) w.
Proof. intros H. unfold extractWithOpenAI. now rewrite H. Qed.

(** C1. The code does not stop at an error that is neither model-not-found
    nor retryable: when every call is refused with status 400, the call is
    made three times, with no delay, before the error is thrown. *)
Theorem extractWithOpenAI_retries_other_errors :
  isModelNotFoundError badRequest = false
  /\ isRetryableError badRequest = false
  /\ exists w',
      extractWithOpenAI (exampleEnv (fun _ => inl badRequest) noParse)
        (js "aGk=") (js "image/png") (exampleConfig (Some (js "gpt-4o")) false)
        (js "p") freshWorld
      = (inl badRequest, w')
      /\ trace w' = [EvUuid; exampleCall (js "gpt-4o"); exampleCall (js "gpt-4o");
                     exampleCall (js "gpt-4o")]
      /\ apiCalls (trace w') = 3.
Proof.
  split; [reflexivity|]. split; [reflexivity|].
  eexists. split; [vm_compute; reflexivity|]. split; reflexivity.
Qed.

(** C4, as the claim states it, fails on the last iteration: after two rate
    limits, the third call fails because the primary model is not there; the
    secondary model is recorded, but no call with it follows and the error is
    thrown. *)
Lemma extractWithOpenAI_fallback_on_last_attempt :
  isModelNotFoundError modelMissing = true
  /\ eqb PRIMARY_MODEL LEGACY_FALLBACK = false
  /\ exists w',
      extractWithOpenAI
        (exampleEnv (fun h => if (apiCalls h <? 3)%nat then inl rateLimited
                              else inl modelMissing) noParse)
        (js "aGk=") (js "image/png") (exampleConfig None false) (js "p") freshWorld
      = (inl modelMissing, w')
      /\ trace w' = [EvUuid; EvModelsList;
                     exampleCall PRIMARY_MODEL; EvRandom; EvSleep 1125%float;
                     exampleCall PRIMARY_MODEL; EvRandom; EvSleep 2125%float;
                     exampleCall PRIMARY_MODEL]
      /\ availableModel w' = Some FALLBACK_MODEL
      /\ ~ In (exampleCall FALLBACK_MODEL) (trace w').
Proof.
  split; [reflexivity|]. split; [reflexivity|].
  eexists. split; [vm_compute; reflexivity|].
  split; [reflexivity|]. split; [reflexivity|].
  cbn [trace]. intros Hin.
  repeat (destruct Hin as [Hin|Hin]; [vm_compute in Hin; discriminate Hin|]).
  exact Hin.
Qed.

Lemma extractWithOpenAI_model_fallback_witness :
  In FALLBACK_MODEL modelPriority
  /\ attemptLoop missingEnv (js "aGk=") (js "image/png") (js "p") exampleUuid
                 2 0 PRIMARY_MODEL None freshWorld
     = attemptLoop missingEnv (js "aGk=") (js "image/png") (js "p") exampleUuid
                   1 1 FALLBACK_MODEL (Some modelMissing)
                   (cached FALLBACK_MODEL afterFirstCall)
  /\ (exists k,
        trace (snd (attemptLoop missingEnv (js "aGk=") (js "image/png") (js "p")
                                exampleUuid 2 0 PRIMARY_MODEL None freshWorld))
        = trace freshWorld ++ exampleCall PRIMARY_MODEL
                           :: exampleCall FALLBACK_MODEL :: k)
  /\ attemptLoop missingEnv (js "aGk=") (js "image/png") (js "p") exampleUuid
                 1 0 PRIMARY_MODEL None freshWorld
     = (inl modelMissing, cached FALLBACK_MODEL afterFirstCall).
Proof.
  exact (extractWithOpenAI_model_fallback missingEnv
           (js "aGk=") (js "image/png") (js "p") exampleUuid
           0 0 PRIMARY_MODEL None freshWorld afterFirstCall
           modelMissing eq_refl eq_refl eq_refl).
Defined.

(** *** parseExtractionResult *)

(** What a successful check read and what it returns. *)
Lemma checkParsed_total_found (parsed : value) (r : OpenAIExtractionResult.t) :
  checkParsed parsed = inr r ->
  exists tf,
    getProp parsed (js "total_found") = inr tf
    /\ OpenAIExtractionResult.total_found r
       = nullish tf (VNum (of_nat (List.length (OpenAIExtractionResult.items r)))).
Proof.
  unfold checkParsed, ebind. intros H.
  destruct (getProp parsed (js "items")) as [e|its]; [discriminate|].
  destruct its as [[| | | |elems|]|]; try discriminate.
  destruct (getProp parsed (js "confidence")) as [e|c]; [discriminate|].
  destruct (asNumber c) as [confidence|]; [|discriminate].
  destruct (parseItems 0 elems) as [e|items]; [discriminate|].
  destruct (getProp parsed (js "total_found")) as [e|tf]; [discriminate|].
  destruct (getProp parsed (js "raw_text")) as [e|raw]; [discriminate|].
  injection H as <-. exists tf. split; reflexivity.
Qed.

Lemma parseExtractionResult_inv (env : environment) (text : jstring)
      (r : OpenAIExtractionResult.t) :
  parseExtractionResult env text = inr r ->
  exists parsed, JSON_parse env (jsonBlock text) = inr parsed
                 /\ checkParsed parsed = inr r.
Proof.
  unfold parseExtractionResult, ebind. intros H.
  destruct (JSON_parse env (jsonBlock text)) as [e|parsed]; [discriminate|].
  exists parsed. split; [reflexivity|].
  destruct (checkParsed parsed); [discriminate | exact H].
Qed.

(** C3, as the claim states it, fails: a [total_found] that is a string is
    not a number, and it is returned as it is, not replaced by the count. *)
Lemma parseExtractionResult_keeps_string_total :
  asNumber (lookup (js "total_found")
              [(js "items", VArr []); (js "total_found", VStr (js "3"));
               (js "confidence", VNum 0.9%float)]) = None
  /\ parseExtractionResult (exampleEnv (fun _ => inl badRequest) parseStringTotal)
       textWithStringTotal
     = inr (OpenAIExtractionResult.mk [] (VStr (js "3")) 0.9%float None)
  /\ VStr (js "3") <> VNum (of_nat 0).
Proof.
  split; [reflexivity|]. split; [vm_compute; reflexivity|].
  vm_compute. discriminate.
Qed.

(** C3, amended. When the parsed response has no [total_found] or has
    [null] there, the returned [total_found] is the number of parsed items;
    a number there is returned as it is. *)
Theorem parseExtractionResult_total_found_default (env : environment)
        (text : jstring) (parsed : value) (r : OpenAIExtractionResult.t) :
  JSON_parse env (jsonBlock text) = inr parsed ->
  parseExtractionResult env text = inr r ->
  (getProp parsed (js "total_found") = inr None
   \/ getProp parsed (js "total_found") = inr (Some VNull) ->
   OpenAIExtractionResult.total_found r
   = VNum (of_nat (List.length (OpenAIExtractionResult.items r))))
  /\ (forall x, getProp parsed (js "total_found") = inr (Some (VNum x)) ->
                OpenAIExtractionResult.total_found r = VNum x).
Proof.
  intros Hparse Hres.
  destruct (parseExtractionResult_inv _ _ _ Hres) as [parsed' [Hp Hc]].
  rewrite Hparse in Hp. injection Hp as <-.
  destruct (checkParsed_total_found _ _ Hc) as [tf [Htf ->]].
  split.
  - intros [H|H]; rewrite H in Htf; injection Htf as <-; reflexivity.
  - intros x H. rewrite H in Htf. injection Htf as <-. reflexivity.
Qed.

Lemma parseExtractionResult_total_found_default_witness :
  JSON_parse withoutTotalEnv (jsonBlock textWithoutTotal) = inr parsedWithoutTotal
  /\ parseExtractionResult withoutTotalEnv textWithoutTotal = inr resultWithoutTotal
  /\ getProp parsedWithoutTotal (js "total_found") = inr None
  /\ OpenAIExtractionResult.total_found resultWithoutTotal
     = VNum (of_nat (List.length (OpenAIExtractionResult.items resultWithoutTotal))).
Proof.
  assert (Hp : JSON_parse withoutTotalEnv (jsonBlock textWithoutTotal)
               = inr parsedWithoutTotal) by (vm_compute; reflexivity).
  assert (Hr : parseExtractionResult withoutTotalEnv textWithoutTotal
               = inr resultWithoutTotal) by (vm_compute; reflexivity).
  assert (Ht : getProp parsedWithoutTotal (js "total_found") = inr None)
    by reflexivity.
  repeat (split; [assumption|]).
  exact (proj1 (parseExtractionResult_total_found_default
                  withoutTotalEnv textWithoutTotal parsedWithoutTotal
                  resultWithoutTotal Hp Hr) (or_introl Ht)).
Defined.

(** *** extractBusinessRegNo without the mock *)

Lemma orEmpty_string (s : jstring) : orEmpty (Some s) = s.
Proof. destruct s; reflexivity. Qed.

Lemma orEmpty_name (name : option jstring) : orEmpty name = nameOrEmpty name.
Proof. destruct name as [s|]; [apply orEmpty_string | reflexivity]. Qed.

Lemma convertItem_coerced (l : list ExtractedItem.t) :
  Forall2 coerced l (map convertItem l).
Proof.
  induction l as [|src l IH]; simpl; constructor; [|exact IH].
  split; simpl; [apply orEmpty_string | now rewrite orEmpty_name].
Qed.

Lemma extractBusinessRegNo_openai_inv (env : environment)
      (imageBase64 mimeType targetCode : jstring) (config : EnvConfig)
      (w w' : world) (r : ExtractionResult.t) :
  MOCK_LLM config = false ->
  extractBusinessRegNo env imageBase64 mimeType targetCode config w = (inr r, w') ->
  exists response,
    extractWithOpenAI env imageBase64 mimeType config
                      (createExtractionPrompt targetCode) w = (inr response, w')
    /\ ExtractionResult.items r
       = map convertItem
             (OpenAIExtractionResult.items (OpenAIResponse.result response)).
Proof.
  intros Hmock. unfold extractBusinessRegNo. rewrite Hmock. unfold bind.
  destruct (extractWithOpenAI _ _ _ _ _ _) as [[e|response] w1]; [discriminate|].
  unfold ret. intros H. injection H as <- <-.
  exists response. split; reflexivity.
Qed.

Lemma normalizeItem_empty (item : ExtractionItem.t) :
  ExtractionItem.business_reg_no item = [] -> normalizeItem item = item.
Proof. intros H. unfold normalizeItem. now rewrite H. Qed.

Lemma validate_keeps_empty (env : environment) (config : EnvConfig)
      (r r' : ExtractionResult.t) (outcome : ExtractionError.t + unit)
      (i : nat) (item : ExtractionItem.t) :
  validateExtractionResult env config r = (outcome, r') ->
  nth_error (ExtractionResult.items r) i = Some item ->
  ExtractionItem.business_reg_no item = [] ->
  nth_error (ExtractionResult.items r') i = Some item.
Proof.
  rewrite validate_unfold. intros H Hi Hempty.
  destruct (ExtractionResult.items r) as [|it its] eqn:E.
  - injection H as _ <-. now rewrite E.
  - destruct (PrimFloat.ltb _ _); injection H as _ <-.
    + now rewrite E.
    + unfold withItems. cbn [ExtractionResult.items].
      change (nth_error (map normalizeItem (it :: its)) i = Some item).
      rewrite nth_error_map, Hi. simpl. now rewrite normalizeItem_empty.
Qed.

(** C10. After a successful call without the mock, the items are those of
    the response with the registration number as it was read (a string) and
    the name a string in every case, the empty string where the response had
    none; and validation, whether it fails or succeeds, leaves an item with
    an empty registration number as it is. *)
Theorem extractBusinessRegNo_items_are_strings (env : environment)
        (imageBase64 mimeType targetCode : jstring) (config : EnvConfig)
        (w w' : world) (r : ExtractionResult.t) :
  MOCK_LLM config = false ->
  extractBusinessRegNo env imageBase64 mimeType targetCode config w = (inr r, w') ->
  (exists response,
      extractWithOpenAI env imageBase64 mimeType config
                        (createExtractionPrompt targetCode) w = (inr response, w')
      /\ Forall2 coerced
           (OpenAIExtractionResult.items (OpenAIResponse.result response))
           (ExtractionResult.items r))
  /\ Forall (fun item => exists name, ExtractionItem.company_name item = Some name)
            (ExtractionResult.items r)
  /\ (forall config' outcome r' i item,
         validateExtractionResult env config' r = (outcome, r') ->
         nth_error (ExtractionResult.items r) i = Some item ->
         ExtractionItem.business_reg_no item = [] ->
         nth_error (ExtractionResult.items r') i = Some item).
Proof.
  intros Hmock Hrun.
  destruct (extractBusinessRegNo_openai_inv _ _ _ _ _ _ _ _ Hmock Hrun)
    as [response [Hcall Hitems]].
  split; [|split].
  - exists response. split; [exact Hcall|]. rewrite Hitems. apply convertItem_coerced.
  - rewrite Hitems. apply Forall_forall. intros item Hin.
    apply in_map_iff in Hin as [src [<- _]]. eexists. reflexivity.
  - intros config' outcome r' i item. apply validate_keeps_empty.
Qed.

Lemma extractBusinessRegNo_items_are_strings_witness :
  exists r w',
    extractBusinessRegNo bareItemEnv (js "aGk=") (js "image/png") (js "12345")
                         (exampleConfig None false) freshWorld = (inr r, w')
    /\ Forall (fun item => exists name, ExtractionItem.company_name item = Some name)
              (ExtractionResult.items r)
    /\ (forall config' outcome r' i item,
           validateExtractionResult bareItemEnv config' r = (outcome, r') ->
           nth_error (ExtractionResult.items r) i = Some item ->
           ExtractionItem.business_reg_no item = [] ->
           nth_error (ExtractionResult.items r') i = Some item).
Proof.
  assert (H : { p : ExtractionResult.t * world
              | extractBusinessRegNo bareItemEnv (js "aGk=") (js "image/png")
                  (js "12345") (exampleConfig None false) freshWorld
                = (inr (fst p), snd p) }).
  { eexists (_, _). vm_compute. reflexivity. }
  destruct H as [[r w'] H]. simpl in H.
  exists r, w'. split; [exact H|].
  exact (proj2 (extractBusinessRegNo_items_are_strings bareItemEnv
                  (js "aGk=") (js "image/png") (js "12345")
                  (exampleConfig None false) freshWorld w' r eq_refl H)).
Defined.

(** *** The process route *)

Lemma productCodes_In (targetCodeRaw code : jstring) :
  In code (split 44%N targetCodeRaw) ->
  normalizeProductCode code <> [] ->
  In (normalizeProductCode code) (productCodesOf targetCodeRaw).
Proof.
  intros Hin Hne. unfold productCodesOf. apply filter_In. split.
  - apply in_map, Hin.
  - destruct (normalizeProductCode code); [contradiction | reflexivity].
Qed.

Lemma length_pos_of_In {A} (x : A) (l : list A) :
  In x l -> (0 <? List.length l)%nat = true /\ (List.length l =? 0)%nat = false.
Proof. destruct l; simpl; [contradiction | auto]. Qed.

(** C7. When the request carries a product-code field in which some code,
    once normalised, is not empty and fails the configured pattern, the
    answer is 400 [invalid_product_code], whatever the other codes and the
    file are, and nothing is asked of the model provider: the history has
    the request id and the loading of the configuration, and no more. *)
Theorem POST_rejects_invalid_product_code (env : environment) (col : collaborators)
        (request : Request) (w : world) (config : EnvConfig) (header : jstring)
        (form : FormData) (targetCodeRaw code : jstring) :
  loadEnvConfig col ((trace w ++ [EvUuid]) ++ [EvLoadEnvConfig]) = inr config ->
  content_type request = Some header ->
  includes header (js "multipart/form-data") = true ->
  formData request = inr form ->
  productCode form = FdString targetCodeRaw ->
  In code (split 44%N targetCodeRaw) ->
  normalizeProductCode code <> [] ->
  validateProductCode (normalizeProductCode code) (PRODUCT_CODE_REGEX config) = false ->
  exists message,
    POST env col request w
    = (inr (fail 400 (js "invalid_product_code") message
              (uuidv4 env (trace w ++ [EvUuid]))),
       afterLoad w)
    /\ trace (afterLoad w) = trace w ++ [EvUuid; EvLoadEnvConfig]
    /\ apiCalls (trace (afterLoad w)) = apiCalls (trace w).
Proof.
  intros Hload Hct Hinc Hform Hpc Hin Hne Hbad.
  assert (Htruthy : truthy targetCodeRaw = true).
  { destruct targetCodeRaw; [|reflexivity].
    simpl in Hin. destruct Hin as [<-|[]]. now contradiction Hne. }
  pose proof (productCodes_In _ _ Hin Hne) as Hcodes.
  assert (Hinvalid : In (normalizeProductCode code)
                        (invalidCodesOf config (productCodesOf targetCodeRaw))).
  { apply filter_In. split; [exact Hcodes | now rewrite Hbad]. }
  destruct (length_pos_of_In _ _ Hcodes) as [_ Hlen].
  destruct (length_pos_of_In _ _ Hinvalid) as [Hpos _].
  eexists. split; [|split].
  - unfold POST, bind, ask, tryCatch, handle, bind, askOrThrow. cbv zeta.
    cbn [trace]. rewrite Hload, Hct, orEmpty_string, Hinc. cbn [negb].
    rewrite Hform. unfold checkProductCodes. rewrite Hpc, Htruthy. cbn [negb].
    cbv zeta. rewrite Hlen, Hpos. unfold ret, afterLoad. reflexivity.
  - unfold afterLoad. cbn [trace]. now rewrite <- app_assoc.
  - unfold afterLoad, apiCalls. cbn [trace].
    rewrite !filter_app, !length_app. simpl. lia.
Qed.

Lemma POST_rejects_invalid_product_code_witness :
  exists message,
    POST quietEnv exampleCollaborators exampleRequest freshWorld
    = (inr (fail 400 (js "invalid_product_code") message
              (uuidv4 quietEnv (trace freshWorld ++ [EvUuid]))),
       afterLoad freshWorld)
    /\ trace (afterLoad freshWorld) = trace freshWorld ++ [EvUuid; EvLoadEnvConfig]
    /\ apiCalls (trace (afterLoad freshWorld)) = apiCalls (trace freshWorld).
Proof.
  apply (POST_rejects_invalid_product_code quietEnv exampleCollaborators
           exampleRequest freshWorld (exampleConfig None false)
           (js "multipart/form-data; boundary=x") exampleForm
           (js "12345, 12a45") (js " 12a45")).
  - reflexivity.
  - reflexivity.
  - reflexivity.
  - reflexivity.
  - reflexivity.
  - vm_compute. right. left. reflexivity.
  - vm_compute. discriminate.
  - reflexivity.
Defined.

(* ===================================================================== *)
(** ** Further properties                                                 *)
(* ===================================================================== *)

(** *** Strings and normalisation *)

Lemma digit_not_space (c : char16) : isDigit c = true -> isWhiteSpace c = false.
Proof.
  unfold isDigit, isWhiteSpace. intros H.
  apply andb_true_iff in H as [H1 H2].
  apply N.leb_le in H1. apply N.leb_le in H2.
  rewrite (proj2 (N.leb_gt c 13)) by lia.
  rewrite (proj2 (N.leb_gt 8192 c)) by lia.
  repeat match goal with
         | |- context [(c =? ?k)%N] =>
           rewrite (proj2 (N.eqb_neq c k)) by lia
         end.
  rewrite andb_false_r. reflexivity.
Qed.

Lemma trimStart_split (s : jstring) :
  exists p, s = p ++ trimStart s /\ forallb isWhiteSpace p = true.
Proof.
  induction s as [|c r [p [Hp Hw]]]; simpl.
  - exists []. split; reflexivity.
  - destruct (isWhiteSpace c) eqn:E.
    + exists (c :: p). simpl. rewrite E, Hw. split; [now rewrite <- Hp | reflexivity].
    + exists []. split; reflexivity.
Qed.

Lemma trimEnd_split (s : jstring) :
  exists p, s = trimEnd s ++ p /\ forallb isWhiteSpace p = true.
Proof.
  destruct (trimStart_split (rev s)) as [p [Hp Hw]].
  exists (rev p). split.
  - unfold trimEnd. rewrite <- rev_app_distr, <- Hp. symmetry. apply rev_involutive.
  - rewrite forallb_forall in *. intros x Hx. apply Hw. now apply in_rev.
Qed.

Lemma filter_spaces_digits (p : jstring) :
  forallb isWhiteSpace p = true -> filter isDigit p = [].
Proof.
  induction p as [|c p IH]; simpl; intros H; [reflexivity|].
  apply andb_true_iff in H as [Hc Hp].
  destruct (isDigit c) eqn:E; [|now apply IH].
  rewrite (digit_not_space c E) in Hc. discriminate.
Qed.

Lemma trimStart_digits (s : jstring) :
  filter isDigit (trimStart s) = filter isDigit s.
Proof.
  destruct (trimStart_split s) as [p [Hp Hw]].
  rewrite Hp at 2. rewrite filter_app, (filter_spaces_digits p Hw). reflexivity.
Qed.

Lemma trimEnd_digits (s : jstring) :
  filter isDigit (trimEnd s) = filter isDigit s.
Proof.
  destruct (trimEnd_split s) as [p [Hp Hw]].
  rewrite Hp at 2. rewrite filter_app, (filter_spaces_digits p Hw), app_nil_r.
  reflexivity.
Qed.

Lemma trim_digits (s : jstring) : filter isDigit (trim s) = filter isDigit s.
Proof. unfold trim. now rewrite trimEnd_digits, trimStart_digits. Qed.

Lemma leading_trimStart (s : jstring) : leadingWhiteSpace (trimStart s) = false.
Proof.
  induction s as [|c r IH]; simpl; [reflexivity|].
  destruct (isWhiteSpace c) eqn:E; [exact IH | simpl; exact E].
Qed.

Lemma leading_trimEnd (s : jstring) :
  leadingWhiteSpace s = false -> leadingWhiteSpace (trimEnd s) = false.
Proof.
  intros H. destruct (trimEnd_split s) as [p [Hp _]].
  destruct (trimEnd s) as [|c r]; [reflexivity|].
  rewrite Hp in H. exact H.
Qed.

Lemma trailing_trimEnd (s : jstring) : trailingWhiteSpace (trimEnd s) = false.
Proof.
  unfold trailingWhiteSpace, trimEnd. rewrite rev_involutive. apply leading_trimStart.
Qed.

Lemma trim_ends (s : jstring) :
  leadingWhiteSpace (trim s) = false /\ trailingWhiteSpace (trim s) = false.
Proof.
  unfold trim. split; [apply leading_trimEnd, leading_trimStart | apply trailing_trimEnd].
Qed.

Lemma trim_idempotent (s : jstring) : trim (trim s) = trim s.
Proof. destruct (trim_ends s) as [Hl Ht]. now apply trim_id. Qed.

Lemma ten_digits_formatted (ds : jstring) :
  List.length ds = 10 -> forallb isDigit ds = true ->
  slice 0 3 ds ++ js "-" ++ slice 3 5 ds ++ js "-" ++ sliceFrom 5 ds
  = match ds with
    | [a; b; c; d; e; f; g; h; i; j] => [a; b; c; 45%N; d; e; 45%N; f; g; h; i; j]
    | _ => []
    end.
Proof.
  intros Hlen _.
  do 10 (destruct ds as [|? ds]; [discriminate Hlen|]).
  destruct ds; [reflexivity | discriminate Hlen].
Qed.

Lemma normalize_ten (s : jstring) :
  List.length (filter isDigit s) = 10 ->
  normalizeBusinessRegNo s
  = match filter isDigit s with
    | [a; b; c; d; e; f; g; h; i; j] => [a; b; c; 45%N; d; e; 45%N; f; g; h; i; j]
    | _ => []
    end.
Proof.
  intros E. unfold normalizeBusinessRegNo.
  rewrite (proj2 (Nat.eqb_eq _ _) E).
  apply (ten_digits_formatted _ E (forallb_filter isDigit s)).
Qed.

Lemma normalize_other (s : jstring) :
  List.length (filter isDigit s) <> 10 -> normalizeBusinessRegNo s = trim s.
Proof.
  intros NE. unfold normalizeBusinessRegNo. now rewrite (proj2 (Nat.eqb_neq _ _) NE).
Qed.

Lemma normalize_ten_format (s : jstring) :
  List.length (filter isDigit s) = 10 ->
  isRegNoFormat (normalizeBusinessRegNo s) = true.
Proof.
  intros E. rewrite (normalize_ten s E).
  pose proof (forallb_filter isDigit s) as Hd.
  destruct (filter isDigit s) as [|a ds]; [discriminate E|].
  do 9 (destruct ds as [|? ds]; [discriminate E|]).
  destruct ds; [|discriminate E].
  unfold isRegNoFormat. rewrite Hd. reflexivity.
Qed.

Lemma normalize_digits (s : jstring) :
  filter isDigit (normalizeBusinessRegNo s) = filter isDigit s.
Proof.
  destruct (Nat.eq_dec (List.length (filter isDigit s)) 10) as [E|NE].
  - rewrite (normalize_ten s E).
    pose proof (forallb_filter isDigit s) as Hd.
    destruct (filter isDigit s) as [|a ds]; [discriminate E|].
    do 9 (destruct ds as [|? ds]; [discriminate E|]).
    destruct ds; [|discriminate E].
    simpl in Hd. repeat (apply andb_true_iff in Hd as [?Hx Hd]).
    simpl. rewrite Hx, Hx0, Hx1, Hx2, Hx3, Hx4, Hx5, Hx6, Hx7, Hx8. reflexivity.
  - rewrite (normalize_other s NE). apply trim_digits.
Qed.

Lemma normalize_idem (s : jstring) :
  normalizeBusinessRegNo (normalizeBusinessRegNo s) = normalizeBusinessRegNo s.
Proof.
  destruct (Nat.eq_dec (List.length (filter isDigit s)) 10) as [E|NE].
  - pose proof (forallb_filter isDigit s) as Hd.
    rewrite (normalize_ten s E).
    destruct (filter isDigit s) as [|a ds]; [discriminate E|].
    do 9 (destruct ds as [|? ds]; [discriminate E|]).
    destruct ds; [|discriminate E].
    apply normalize_formatted, Hd.
  - rewrite (normalize_other s NE).
    rewrite normalize_other by (now rewrite trim_digits).
    apply trim_idempotent.
Qed.

(** X1. Normalisation never adds, drops or reorders a digit; and a string
    with exactly ten digits, whatever stands between them, becomes
    ddd-dd-ddddd. *)
Theorem normalizeBusinessRegNo_keeps_digits (s : jstring) :
  filter isDigit (normalizeBusinessRegNo s) = filter isDigit s
  /\ (List.length (filter isDigit s) = 10 ->
      isRegNoFormat (normalizeBusinessRegNo s) = true).
Proof. split; [apply normalize_digits | apply normalize_ten_format]. Qed.

Lemma normalizeBusinessRegNo_keeps_digits_witness :
  filter isDigit (normalizeBusinessRegNo (js " 123 45-67890 (a)")) = js "1234567890"
  /\ normalizeBusinessRegNo (js " 123 45-67890 (a)") = js "123-45-67890"
  /\ isRegNoFormat (normalizeBusinessRegNo (js " 123 45-67890 (a)")) = true.
Proof.
  destruct (normalizeBusinessRegNo_keeps_digits (js " 123 45-67890 (a)")) as [H1 H2].
  split; [exact H1|]. split; [reflexivity|]. apply H2. reflexivity.
Defined.

(** X2. Normalising twice is normalising once, for every string. *)
Theorem normalizeBusinessRegNo_twice (s : jstring) :
  normalizeBusinessRegNo (normalizeBusinessRegNo s) = normalizeBusinessRegNo s.
Proof. apply normalize_idem. Qed.

Lemma filter_filter_same {A} (f : A -> bool) (l : list A) :
  filter f (filter f l) = filter f l.
Proof. apply filter_all_true, forallb_filter. Qed.

Lemma normalizeProductCode_chars (code : jstring) :
  forallb isCodeChar (normalizeProductCode code) = true.
Proof.
  unfold normalizeProductCode. apply forallb_forall. intros c Hc.
  apply filter_In in Hc as [Hc H2]. apply filter_In in Hc as [_ H1].
  unfold isCodeChar. now rewrite H1, H2.
Qed.

Lemma codeChars_no_space_ends (s : jstring) :
  forallb isCodeChar s = true ->
  leadingWhiteSpace s = false /\ trailingWhiteSpace s = false.
Proof.
  intros H. rewrite forallb_forall in H.
  assert (Hns : forall c, In c s -> isWhiteSpace c = false).
  { intros c Hc. specialize (H c Hc). unfold isCodeChar in H.
    apply andb_true_iff in H as [H _]. now apply negb_true_iff in H. }
  split.
  - destruct s as [|c r]; [reflexivity|]. simpl. apply Hns. now left.
  - unfold trailingWhiteSpace. destruct (rev s) as [|c r] eqn:E; [reflexivity|].
    simpl. apply Hns. apply in_rev. rewrite E. now left.
Qed.

(** X3. A normalised product code holds no white space, hyphen or underscore,
    and normalising it again changes nothing. *)
Theorem normalizeProductCode_clean (code : jstring) :
  forallb isCodeChar (normalizeProductCode code) = true
  /\ normalizeProductCode (normalizeProductCode code) = normalizeProductCode code.
Proof.
  pose proof (normalizeProductCode_chars code) as H.
  split; [exact H|].
  destruct (codeChars_no_space_ends _ H) as [Hl Ht].
  unfold normalizeProductCode at 1. rewrite (trim_id _ Hl Ht).
  assert (H1 : filter (fun c => negb (isWhiteSpace c)) (normalizeProductCode code)
               = normalizeProductCode code).
  { apply filter_all_true. rewrite forallb_forall in *. intros c Hc.
    specialize (H c Hc). unfold isCodeChar in H. now apply andb_true_iff in H as [H _]. }
  rewrite H1. apply filter_all_true. rewrite forallb_forall in *. intros c Hc.
  specialize (H c Hc). unfold isCodeChar in H. now apply andb_true_iff in H as [_ H].
Qed.

(** *** Validation *)

Lemma normalizeItem_normalizedFrom (item : ExtractionItem.t) :
  normalizedFrom item (normalizeItem item).
Proof.
  unfold normalizedFrom, normalizeItem.
  destruct (truthy (ExtractionItem.business_reg_no item)) eqn:T.
  - cbn [withBusinessRegNo ExtractionItem.product_code ExtractionItem.company_name
         ExtractionItem.row_index ExtractionItem.raw_text
         ExtractionItem.business_reg_no].
    repeat split; [apply normalize_digits | apply normalize_ten_format].
  - repeat split. destruct (ExtractionItem.business_reg_no item); discriminate.
Qed.

Lemma normalizeItem_idem (item : ExtractionItem.t) :
  normalizeItem (normalizeItem item) = normalizeItem item.
Proof.
  destruct (truthy (ExtractionItem.business_reg_no item)) eqn:T.
  - assert (H : normalizeItem item
                = withBusinessRegNo
                    (normalizeBusinessRegNo (ExtractionItem.business_reg_no item))
                    item)
      by (unfold normalizeItem; now rewrite T).
    rewrite H. unfold normalizeItem.
    cbn [withBusinessRegNo ExtractionItem.business_reg_no].
    destruct (truthy (normalizeBusinessRegNo _)); [|reflexivity].
    rewrite normalize_idem. reflexivity.
  - assert (H : normalizeItem item = item)
      by (unfold normalizeItem; now rewrite T).
    now rewrite !H.
Qed.

Lemma Forall2_map_self {A B} (R : A -> B -> Prop) (f : A -> B) (l : list A) :
  (forall x, R x (f x)) -> Forall2 R l (map f l).
Proof. intros H. induction l; simpl; constructor; auto. Qed.

(** X4. After a successful validation the items are the same rows in the
    same order: product code, name, row index and raw text untouched, the
    digits of the registration number untouched, and every registration
    number with exactly ten digits in the form ddd-dd-ddddd. *)
Theorem validateExtractionResult_success (env : environment) (config : EnvConfig)
        (r r' : ExtractionResult.t) :
  validateExtractionResult env config r = (inr tt, r') ->
  Forall2 normalizedFrom (ExtractionResult.items r) (ExtractionResult.items r')
  /\ ExtractionResult.items r <> []
  /\ PrimFloat.ltb (ExtractionResult.confidence r) (MIN_CONFIDENCE config) = false
  /\ ExtractionResult.total_found r' = ExtractionResult.total_found r
  /\ ExtractionResult.confidence r' = ExtractionResult.confidence r.
Proof.
  rewrite validate_unfold.
  destruct (ExtractionResult.items r) as [|it its] eqn:E; [discriminate|].
  destruct (PrimFloat.ltb _ _) eqn:L; [discriminate|].
  intros H. injection H as <-. cbn [withItems ExtractionResult.items
    ExtractionResult.total_found ExtractionResult.confidence].
  split; [|repeat split; discriminate].
  apply (Forall2_map_self normalizedFrom normalizeItem (it :: its)).
  apply normalizeItem_normalizedFrom.
Qed.

Lemma validateExtractionResult_success_witness :
  Forall2 normalizedFrom (ExtractionResult.items goodResult)
          (ExtractionResult.items validResult)
  /\ ExtractionResult.items goodResult <> []
  /\ PrimFloat.ltb (ExtractionResult.confidence goodResult)
                   (MIN_CONFIDENCE (exampleConfig None false)) = false
  /\ ExtractionResult.total_found validResult = ExtractionResult.total_found goodResult
  /\ ExtractionResult.confidence validResult = ExtractionResult.confidence goodResult.
Proof.
  apply (validateExtractionResult_success quietEnv (exampleConfig None false)
           goodResult validResult).
  vm_compute. reflexivity.
Defined.

(** X5. Validation is idempotent: a result that passed validation passes it
    again and is not changed by the second pass. *)
Theorem validateExtractionResult_idempotent (env : environment) (config : EnvConfig)
        (r r' : ExtractionResult.t) :
  validateExtractionResult env config r = (inr tt, r') ->
  validateExtractionResult env config r' = (inr tt, r').
Proof.
  rewrite !validate_unfold.
  destruct (ExtractionResult.items r) as [|it its] eqn:E; [discriminate|].
  destruct (PrimFloat.ltb _ _) eqn:L; [discriminate|].
  intros H. injection H as <-.
  cbn [withItems ExtractionResult.items ExtractionResult.confidence map].
  rewrite L. unfold withItems. cbn. rewrite normalizeItem_idem.
  rewrite map_map. f_equal. f_equal. f_equal.
  apply map_ext. intros a. apply normalizeItem_idem.
Qed.

Lemma validateExtractionResult_idempotent_witness :
  validateExtractionResult quietEnv (exampleConfig None false) validResult
  = (inr tt, validResult).
Proof.
  apply (validateExtractionResult_idempotent quietEnv (exampleConfig None false)
           goodResult validResult).
  vm_compute. reflexivity.
Defined.

(** *** The parser *)

Lemma parseItem_itemOf (index : nat) (v : value) (item : ExtractedItem.t) :
  parseItem index v = inr item <-> itemOf v = Some item.
Proof.
  unfold parseItem, itemOf, ebind.
  destruct v as [| | | | |props]; simpl; try (split; discriminate).
  destruct (asString (lookup (js "product_code") props)); [|split; discriminate].
  destruct (asString (lookup (js "business_reg_no") props)); [|split; discriminate].
  split; intros H; injection H as <-; reflexivity.
Qed.

Lemma parseItem_error (index : nat) (v : value) (e : thrown) :
  parseItem index v = inl e -> itemOf v = None.
Proof.
  intros H. destruct (itemOf v) as [item|] eqn:E; [|reflexivity].
  apply (parseItem_itemOf index) in E. rewrite E in H. discriminate.
Qed.

Lemma parseItems_itemOf (elems : list value) (index : nat)
      (items : list ExtractedItem.t) :
  parseItems index elems = inr items <-> map itemOf elems = map Some items.
Proof.
  revert index items. induction elems as [|v elems IH]; intros index items; simpl.
  - split; intros H.
    + injection H as <-. reflexivity.
    + destruct items; [reflexivity | discriminate].
  - unfold ebind. destruct (parseItem index v) as [e|item] eqn:E.
    + rewrite (parseItem_error _ _ _ E). split; [discriminate|].
      destruct items; discriminate.
    + rewrite (proj1 (parseItem_itemOf _ _ _) E).
      destruct (parseItems (S index) elems) as [e|rest] eqn:R.
      * split; [discriminate|]. destruct items as [|i0 items]; [discriminate|].
        simpl. intros H. injection H as _ H.
        apply (IH (S index)) in H. rewrite H in R. discriminate.
      * pose proof (proj1 (IH (S index) rest) R) as Hrest.
        split; intros H.
        -- injection H as <-. simpl. now rewrite Hrest.
        -- destruct items as [|i0 items]; [discriminate|].
           simpl in H. injection H as <- H.
           apply (IH (S index)) in H. rewrite H in R. now injection R as <-.
Qed.

(** X6. The structural check succeeds exactly on an object whose [items] is
    an array of objects with string product code and registration number
    and whose [confidence] is a number. The result then holds one item per
    element, in order, the confidence read, [total_found] as read (the item
    count when it is absent or null) and [raw_text] as read. *)
Theorem checkParsed_succeeds_iff (parsed : value) (r : OpenAIExtractionResult.t) :
  checkParsed parsed = inr r
  <-> exists props elems,
        parsed = VObj props
        /\ lookup (js "items") props = Some (VArr elems)
        /\ lookup (js "confidence") props
           = Some (VNum (OpenAIExtractionResult.confidence r))
        /\ map itemOf elems = map Some (OpenAIExtractionResult.items r)
        /\ OpenAIExtractionResult.total_found r
           = nullish (lookup (js "total_found") props)
                     (VNum (of_nat (List.length elems)))
        /\ OpenAIExtractionResult.raw_text r = lookup (js "raw_text") props.
Proof.
  split.
  - unfold checkParsed, ebind. intros H.
    destruct parsed as [| | | | |props]; simpl in H; try discriminate.
    destruct (lookup (js "items") props) as [[| | | |elems|]|] eqn:Ei; try discriminate.
    destruct (lookup (js "confidence") props) as [[| |c| | |]|] eqn:Ec;
      simpl in H; try discriminate.
    destruct (parseItems 0 elems) as [e|items] eqn:Ep; [discriminate|].
    injection H as <-. exists props, elems. cbn.
    pose proof (proj1 (parseItems_itemOf _ _ _) Ep) as Hm.
    repeat split; try assumption.
    f_equal. f_equal. f_equal.
    rewrite <- (length_map itemOf), Hm, length_map. reflexivity.
  - intros [props [elems [-> [Hi [Hc [Hm [Ht Hr]]]]]]].
    unfold checkParsed, ebind. simpl. rewrite Hi, Hc. simpl.
    rewrite (proj2 (parseItems_itemOf _ _ _) Hm).
    destruct r as [items tf conf raw]. simpl in *. subst.
    f_equal. f_equal.
    rewrite <- (length_map Some items), <- Hm, length_map. reflexivity.
Qed.

Lemma fence_chars : fence = [96; 96; 96]%N.
Proof. reflexivity. Qed.

Lemma find_sub_cons (p : jstring) (c : char16) (r : jstring) :
  find_sub p (c :: r)
  = if startsWith (c :: r) p then Some ([], skipn (List.length p) (c :: r))
    else match find_sub p r with
         | Some (before, after) => Some (c :: before, after)
         | None => None
         end.
Proof. reflexivity. Qed.

Lemma startsWith_other (x c : char16) (p r : jstring) :
  (c =? x)%N = false -> startsWith (c :: r) (x :: p) = false.
Proof. intros H. simpl. rewrite N.eqb_sym in H. now rewrite H. Qed.

Lemma find_sub_none (s : jstring) : noBacktick s = true -> find_sub fence s = None.
Proof.
  rewrite fence_chars. induction s as [|c r IH]; intros H; [reflexivity|].
  unfold noBacktick in H. cbn [forallb] in H. apply andb_true_iff in H as [Hc Hr].
  apply negb_true_iff in Hc.
  rewrite find_sub_cons, (startsWith_other _ _ _ _ Hc), (IH Hr). reflexivity.
Qed.

Lemma find_sub_first (a r : jstring) :
  noBacktick a = true -> find_sub fence (a ++ fence ++ r) = Some (a, r).
Proof.
  rewrite fence_chars. induction a as [|c a IH]; intros H.
  { destruct r; reflexivity. }
  unfold noBacktick in H. cbn [forallb] in H. apply andb_true_iff in H as [Hc Ha].
  apply negb_true_iff in Hc.
  rewrite <- app_comm_cons, find_sub_cons, (startsWith_other _ _ _ _ Hc), (IH Ha).
  reflexivity.
Qed.

Lemma noBacktick_app (a b : jstring) :
  noBacktick (a ++ b) = noBacktick a && noBacktick b.
Proof. apply forallb_app. Qed.

Lemma find_sub_line (a : jstring) :
  noBacktick a = true ->
  find_sub fence (a ++ [10%N] ++ fence) = Some (a ++ [10%N], []).
Proof.
  intros H. pose proof (find_sub_first (a ++ [10%N]) []) as Hf.
  rewrite noBacktick_app, H, <- app_assoc, app_nil_r in Hf. now apply Hf.
Qed.

Lemma trimStart_spaces (p x : jstring) :
  forallb isWhiteSpace p = true -> trimStart (p ++ x) = trimStart x.
Proof.
  induction p as [|c p IH]; simpl; intros H; [reflexivity|].
  apply andb_true_iff in H as [Hc Hp]. now rewrite Hc, IH.
Qed.

Lemma trimStart_app (t x : jstring) :
  t <> [] -> leadingWhiteSpace t = false -> trimStart (t ++ x) = t ++ x.
Proof.
  destruct t as [|c t]; [contradiction|]. simpl. intros _ H. now rewrite H.
Qed.

Lemma trimStart_app_nonempty (s x : jstring) :
  trimStart s <> [] -> trimStart (s ++ x) = trimStart s ++ x.
Proof.
  induction s as [|c s IH]; simpl; [contradiction|].
  destruct (isWhiteSpace c); [exact IH | reflexivity].
Qed.

Lemma trimEnd_spaces (s p : jstring) :
  forallb isWhiteSpace p = true -> trimEnd (s ++ p) = trimEnd s.
Proof.
  intros H. unfold trimEnd. rewrite rev_app_distr, trimStart_spaces; [reflexivity|].
  rewrite forallb_forall in *. intros x Hx. apply H. now apply in_rev.
Qed.

Lemma noBacktick_trimStart (s : jstring) :
  noBacktick s = true -> noBacktick (trimStart s) = true.
Proof.
  intros H. destruct (trimStart_split s) as [p [Hp _]].
  rewrite Hp, noBacktick_app in H. now apply andb_true_iff in H as [_ H].
Qed.

Lemma noBacktick_trimEnd (s : jstring) :
  noBacktick s = true -> noBacktick (trimEnd s) = true.
Proof.
  intros H. destruct (trimEnd_split s) as [p [Hp _]].
  rewrite Hp, noBacktick_app in H. now apply andb_true_iff in H as [H _].
Qed.

Lemma trim_fenced (body : jstring) : trim (fenced body) = fenced body.
Proof.
  apply trim_id; [reflexivity|].
  unfold trailingWhiteSpace, fenced.
  rewrite !rev_app_distr. reflexivity.
Qed.

Lemma match_fence_fenced (body : jstring) :
  noBacktick body = true ->
  exists inner, match_fence (fenced body) = Some inner /\ trim inner = trim body.
Proof.
  intros Hb. unfold match_fence.
  assert (H1 : find_sub fence (fenced body)
               = Some ([], js "json" ++ [10%N] ++ body ++ [10%N] ++ fence))
    by (apply (find_sub_first []); reflexivity).
  rewrite H1.
  assert (H2 : (if startsWith (js "json" ++ [10%N] ++ body ++ [10%N] ++ fence)
                              (js "json")
                then skipn 4 (js "json" ++ [10%N] ++ body ++ [10%N] ++ fence)
                else js "json" ++ [10%N] ++ body ++ [10%N] ++ fence)
               = [10%N] ++ body ++ [10%N] ++ fence) by reflexivity.
  rewrite H2.
  rewrite (trimStart_spaces [10%N]) by reflexivity.
  destruct (trimStart_split body) as [p [Hp Hw]].
  destruct (trimStart body) as [|c t] eqn:Et.
  - rewrite app_nil_r in Hp. subst p.
    rewrite (trimStart_spaces body) by exact Hw.
    rewrite (trimStart_spaces [10%N]) by reflexivity.
    assert (Hf : find_sub fence (trimStart fence) = Some ([], [])) by reflexivity.
    rewrite Hf.
    exists []. split; [reflexivity|].
    unfold trim. rewrite Et. reflexivity.
  - assert (Hlead : leadingWhiteSpace (c :: t) = false)
      by (rewrite <- Et; apply leading_trimStart).
    assert (Hnb : noBacktick (c :: t) = true)
      by (rewrite <- Et; now apply noBacktick_trimStart).
    rewrite trimStart_app_nonempty by (rewrite Et; discriminate).
    rewrite Et.
    match goal with
    | |- context [find_sub ?a ?b] =>
      replace (find_sub a b) with (Some ((c :: t) ++ [10%N], @nil char16))
        by (symmetry; exact (find_sub_line (c :: t) Hnb))
    end.
    exists ((c :: t) ++ [10%N]). split; [reflexivity|].
    unfold trim at 1.
    rewrite (trimStart_app (c :: t)) by (discriminate || exact Hlead).
    rewrite trimEnd_spaces by reflexivity.
    unfold trim. now rewrite Et.
Qed.

Lemma jsonBlock_fenced (body : jstring) :
  noBacktick body = true -> jsonBlock (fenced body) = jsonBlock body.
Proof.
  intros Hb. unfold jsonBlock. rewrite trim_fenced.
  destruct (match_fence_fenced body Hb) as [inner [Hm Ht]].
  rewrite Hm, Ht.
  assert (Hn : match_fence (trim body) = None).
  { unfold match_fence. rewrite find_sub_none; [reflexivity|].
    unfold trim. now apply noBacktick_trimEnd, noBacktick_trimStart. }
  now rewrite Hn.
Qed.

(** X7. A response wrapped in a fenced block tagged [json] parses exactly as
    the text inside the block, provided that text holds no backtick. *)
Theorem parseExtractionResult_fenced (env : environment) (body : jstring) :
  noBacktick body = true ->
  parseExtractionResult env (fenced body) = parseExtractionResult env body.
Proof.
  intros Hb. unfold parseExtractionResult. now rewrite (jsonBlock_fenced body Hb).
Qed.

Lemma parseExtractionResult_fenced_witness :
  parseExtractionResult withoutTotalEnv (fenced textWithoutTotal)
  = parseExtractionResult withoutTotalEnv textWithoutTotal
  /\ parseExtractionResult withoutTotalEnv textWithoutTotal = inr resultWithoutTotal.
Proof.
  split; [|reflexivity].
  exact (parseExtractionResult_fenced withoutTotalEnv textWithoutTotal eq_refl).
Defined.

(** *** Model selection *)

Lemma array_includes_In (ids : list jstring) (m : jstring) :
  array_includes ids m = true <-> In m ids.
Proof.
  unfold array_includes. rewrite existsb_exists. split.
  - intros [x [Hx He]]. apply eqb_eq in He. now subst.
  - intros H. exists m. split; [exact H | now apply eqb_eq].
Qed.

Lemma priority_truthy (m : jstring) : In m modelPriority -> truthy m = true.
Proof.
  intros [<-|[<-|[<-|[]]]]; reflexivity.
Qed.

Lemma selectFromCatalog_spec (env : environment) (w : world) :
  exists m, selectFromCatalog env w = (inr m, chose m [EvModelsList] w)
            /\ In m modelPriority
            /\ match models_list env (trace w ++ [EvModelsList]) with
               | inl _ => m = LEGACY_FALLBACK
               | inr ids =>
                 (In PRIMARY_MODEL ids -> m = PRIMARY_MODEL)
                 /\ (~ In PRIMARY_MODEL ids -> In FALLBACK_MODEL ids ->
                     m = FALLBACK_MODEL)
                 /\ (~ In PRIMARY_MODEL ids -> ~ In FALLBACK_MODEL ids ->
                     m = LEGACY_FALLBACK)
               end.
Proof.
  unfold selectFromCatalog, tryCatch, bind, askOrThrow. cbn [trace].
  destruct (models_list env (trace w ++ [EvModelsList])) as [e|ids].
  - exists LEGACY_FALLBACK. split; [reflexivity|]. split; [|reflexivity].
    simpl. auto.
  - unfold modelPriority. cbn [find].
    destruct (array_includes ids PRIMARY_MODEL) eqn:E1.
    { exists PRIMARY_MODEL. split; [reflexivity|]. split; [simpl; auto|].
      apply array_includes_In in E1. repeat split; intros; tauto. }
    destruct (array_includes ids FALLBACK_MODEL) eqn:E2.
    { exists FALLBACK_MODEL. split; [reflexivity|]. split; [simpl; auto|].
      apply array_includes_In in E2.
      assert (Hn1 : ~ In PRIMARY_MODEL ids)
        by (intros Hx; apply array_includes_In in Hx; congruence).
      repeat split; intros; tauto. }
    assert (Hn1 : ~ In PRIMARY_MODEL ids)
      by (intros Hx; apply array_includes_In in Hx; congruence).
    assert (Hn2 : ~ In FALLBACK_MODEL ids)
      by (intros Hx; apply array_includes_In in Hx; congruence).
    destruct (array_includes ids LEGACY_FALLBACK);
      (exists LEGACY_FALLBACK; split; [reflexivity|]; split; [simpl; auto|];
       repeat split; intros; tauto).
Qed.

Lemma chose_nil (m : jstring) (w : world) :
  availableModel w = Some m -> chose m [] w = w.
Proof. destruct w as [c a t]. simpl. intros ->. unfold chose. simpl. now rewrite app_nil_r. Qed.

(** [getAvailableModel] never throws; it leaves a usable model behind, and
    asks the catalogue at most once. *)
Lemma getAvailableModel_result (env : environment) (configured : option jstring)
      (w : world) :
  exists m k, getAvailableModel env configured w = (inr m, chose m k w)
              /\ truthy m = true
              /\ (k = [] \/ k = [EvModelsList]).
Proof.
  assert (Hcat : exists m k, selectFromCatalog env w = (inr m, chose m k w)
                             /\ truthy m = true /\ (k = [] \/ k = [EvModelsList])).
  { destruct (selectFromCatalog_spec env w) as [m [H [Hin _]]].
    exists m, [EvModelsList]. split; [exact H|]. split; [now apply priority_truthy | now right]. }
  assert (Hconf : exists m k, useConfigured env configured w = (inr m, chose m k w)
                              /\ truthy m = true /\ (k = [] \/ k = [EvModelsList])).
  { unfold useConfigured. destruct configured as [c|]; [|exact Hcat].
    destruct (truthy c && negb (eqb c PRIMARY_MODEL)) eqn:E; [|exact Hcat].
    apply andb_true_iff in E as [E _].
    exists c, []. split; [|split; [exact E | now left]].
    unfold bind, setAvailable, ret, chose. simpl. now rewrite app_nil_r. }
  unfold getAvailableModel, bind, getAvailable.
  destruct (availableModel w) as [m|] eqn:Ea; [|exact Hconf].
  destruct (truthy m) eqn:T; [|exact Hconf].
  exists m, []. split; [|split; [exact T | now left]].
  unfold ret. now rewrite chose_nil.
Qed.


(** X9. With nothing remembered and no model configured other than the
    primary one, the catalogue is asked once and decides: the primary model
    if the catalogue has it, else the secondary one if it has that, else the
    legacy model; and the legacy model when the catalogue cannot be read. *)
Theorem getAvailableModel_from_catalog (env : environment)
        (configured : option jstring) (w : world) :
  availableModel w = None ->
  configured = None \/ configured = Some PRIMARY_MODEL ->
  exists m,
    getAvailableModel env configured w = (inr m, chose m [EvModelsList] w)
    /\ In m modelPriority
    /\ match models_list env (trace w ++ [EvModelsList]) with
       | inl _ => m = LEGACY_FALLBACK
       | inr ids =>
         (In PRIMARY_MODEL ids -> m = PRIMARY_MODEL)
         /\ (~ In PRIMARY_MODEL ids -> In FALLBACK_MODEL ids -> m = FALLBACK_MODEL)
         /\ (~ In PRIMARY_MODEL ids -> ~ In FALLBACK_MODEL ids -> m = LEGACY_FALLBACK)
       end.
Proof.
  intros Ha Hc. unfold getAvailableModel, bind, getAvailable. rewrite Ha.
  unfold useConfigured.
  destruct Hc as [->| ->]; [apply selectFromCatalog_spec|].
  assert (E : truthy PRIMARY_MODEL && negb (eqb PRIMARY_MODEL PRIMARY_MODEL) = false)
    by reflexivity.
  rewrite E. apply selectFromCatalog_spec.
Qed.

Lemma getAvailableModel_from_catalog_witness :
  getAvailableModel quietEnv None freshWorld
  = (inr PRIMARY_MODEL, chose PRIMARY_MODEL [EvModelsList] freshWorld).
Proof.
  destruct (getAvailableModel_from_catalog quietEnv None freshWorld eq_refl
              (or_introl eq_refl)) as [m [H [_ Hm]]].
  cbn in Hm. destruct Hm as [Hm _].
  rewrite H, (Hm (or_intror (or_introl eq_refl))). reflexivity.
Defined.

(** A configured model other than the primary one is taken as it is,
    without asking the catalogue, when nothing is remembered yet. *)
Lemma getAvailableModel_configured (env : environment) (m : jstring) (w : world) :
  availableModel w = None ->
  m <> [] -> m <> PRIMARY_MODEL ->
  getAvailableModel env (Some m) w = (inr m, chose m [] w).
Proof.
  intros Ha Hne Hnp. unfold getAvailableModel, bind, getAvailable. rewrite Ha.
  unfold useConfigured.
  assert (T : truthy m = true) by (destruct m; [contradiction | reflexivity]).
  assert (E : eqb m PRIMARY_MODEL = false).
  { destruct (eqb m PRIMARY_MODEL) eqn:E; [|reflexivity].
    apply eqb_eq in E. contradiction. }
  rewrite T, E. cbn [andb negb]. unfold bind, setAvailable, ret, chose.
  cbn [trace]. now rewrite app_nil_r.
Qed.

(** *** The retry loop, as a whole *)

Lemma apiCalls_app (a b : list event) : apiCalls (a ++ b) = apiCalls a + apiCalls b.
Proof. unfold apiCalls. now rewrite filter_app, length_app. Qed.

Lemma sleeps_app (a b : list event) : sleeps (a ++ b) = sleeps a + sleeps b.
Proof. unfold sleeps. now rewrite filter_app, length_app. Qed.

Section WholeLoop.

Variable env : environment.
Variables imageBase64 mimeType systemPrompt clientRequestId : jstring.

Let once := attemptOnce env imageBase64 mimeType systemPrompt clientRequestId.
Let loop := attemptLoop env imageBase64 mimeType systemPrompt clientRequestId.
Let call := callEvent imageBase64 mimeType systemPrompt clientRequestId.
Let allowed := loopEvent imageBase64 mimeType systemPrompt clientRequestId.

Lemma attemptOnce_world (model : jstring) (w : world) :
  snd (once model w)
  = {| openaiClient := openaiClient w; availableModel := availableModel w;
       trace := trace w ++ [call model] |}.
Proof.
  unfold once, attemptOnce, bind, askOrThrow. cbv zeta. simpl.
  destruct (responses_create env _) as [e|response]; [reflexivity|].
  destruct (negb (truthy (outputTextOf response))); [reflexivity|].
  destruct (parseExtractionResult env _); reflexivity.
Qed.

Lemma attemptOnce_metadata (model : jstring) (w w1 : world) (r : OpenAIResponse.t) :
  once model w = (inr r, w1) ->
  OpenAIResponse.metadata r = OpenAICallMetadata.mk clientRequestId None model.
Proof.
  unfold once, attemptOnce, bind, askOrThrow. cbv zeta.
  destruct (responses_create env _) as [e|response]; [discriminate|].
  destruct (negb (truthy (outputTextOf response))); [discriminate|].
  destruct (parseExtractionResult env _); [discriminate|].
  unfold ret. intros H. injection H as <- _. reflexivity.
Qed.

Lemma allowed_call (model : jstring) : allowed (call model).
Proof. right. right. now exists model. Qed.

(** Everything the loop does from iteration [attempt] on. *)
Lemma loop_events (remaining attempt : nat) (model : jstring)
      (lastError : option thrown) (w : world) :
  exists k,
    trace (snd (loop remaining attempt model lastError w)) = trace w ++ k
    /\ Forall allowed k
    /\ apiCalls k <= remaining
    /\ sleeps k <= 2 - attempt
    /\ (0 < remaining -> 1 <= apiCalls k).
Proof.
  revert attempt model lastError w.
  induction remaining as [|remaining IH]; intros attempt model lastError w.
  - exists []. unfold loop. simpl. rewrite app_nil_r.
    split; [reflexivity|]. split; [constructor|].
    change (apiCalls []) with 0. change (sleeps []) with 0.
    repeat split; lia.
  - pose proof (attemptOnce_world model w) as Hw.
    destruct (once model w) as [[e|r] w1] eqn:E; simpl in Hw; subst w1.
    + assert (Hgo : forall a m l w2 pre,
                 trace w2 = trace w ++ call model :: pre ->
                 Forall allowed pre -> apiCalls pre = 0 ->
                 sleeps pre + (2 - a) <= 2 - attempt ->
                 exists k,
                   trace (snd (loop remaining a m l w2)) = trace w ++ k
                   /\ Forall allowed k /\ apiCalls k <= S remaining
                   /\ sleeps k <= 2 - attempt
                   /\ (0 < S remaining -> 1 <= apiCalls k)).
      { intros a m l w2 pre Ht Hpre Hc Hs.
        destruct (IH a m l w2) as [k [Hk [Hall [Hn [Hsl _]]]]].
        exists (call model :: pre ++ k). rewrite Hk, Ht, <- app_assoc. cbn [app].
        split; [reflexivity|].
        split; [constructor; [apply allowed_call | apply Forall_app; split; assumption]|].
        change (call model :: pre ++ k) with ([call model] ++ pre ++ k).
        rewrite !apiCalls_app, !sleeps_app, Hc.
        change (apiCalls [call model]) with 1. change (sleeps [call model]) with 0.
        repeat split; lia. }
      unfold loop.
      rewrite (loop_unfold_throw env imageBase64 mimeType systemPrompt clientRequestId
                 remaining attempt model lastError w _ e E).
      destruct (isModelNotFoundError e && negb (eqb model LEGACY_FALLBACK)).
      { apply (Hgo _ _ _ _ []);
          [reflexivity | constructor | reflexivity | change (sleeps []) with 0; lia]. }
      destruct (isRetryableError e && (attempt <? MAX_RETRIES - 1)%nat) eqn:R.
      { apply andb_true_iff in R as [_ R]. apply Nat.ltb_lt in R.
        change (MAX_RETRIES - 1) with 2 in R.
        eapply (Hgo _ _ _ _ [EvRandom; EvSleep _]).
        - cbn [trace]. rewrite <- !app_assoc. reflexivity.
        - constructor; [left; reflexivity|].
          constructor; [right; left; eexists; reflexivity | constructor].
        - reflexivity.
        - change (sleeps [EvRandom; EvSleep _]) with 1. lia. }
      apply (Hgo _ _ _ _ []);
        [reflexivity | constructor | reflexivity | change (sleeps []) with 0; lia].
    + unfold loop.
      rewrite (loop_unfold_return env imageBase64 mimeType systemPrompt clientRequestId
                 remaining attempt model lastError w _ r E).
      exists [call model]. cbn [snd trace].
      split; [reflexivity|].
      split; [constructor; [apply allowed_call | constructor]|].
      change (apiCalls [call model]) with 1. change (sleeps [call model]) with 0.
      repeat split; lia.
Qed.

(** When the loop returns, the answer names the model of the last call, and
    that model is the one remembered. *)
Lemma loop_success (remaining attempt : nat) (model : jstring)
      (lastError : option thrown) (w w' : world) (r : OpenAIResponse.t) :
  availableModel w = Some model ->
  loop remaining attempt model lastError w = (inr r, w') ->
  exists used pre,
    OpenAIResponse.metadata r = OpenAICallMetadata.mk clientRequestId None used
    /\ availableModel w' = Some used
    /\ openaiClient w' = openaiClient w
    /\ trace w' = trace w ++ pre ++ [call used].
Proof.
  revert attempt model lastError w.
  induction remaining as [|remaining IH]; intros attempt model lastError w Hav.
  - unfold loop. simpl. discriminate.
  - pose proof (attemptOnce_world model w) as Hw.
    destruct (once model w) as [[e|r1] w1] eqn:E; simpl in Hw; subst w1.
    + assert (Hgo : forall a m l w2 pre,
                 availableModel w2 = Some m -> openaiClient w2 = openaiClient w ->
                 trace w2 = trace w ++ call model :: pre ->
                 loop remaining a m l w2 = (inr r, w') ->
                 exists used pre',
                   OpenAIResponse.metadata r
                   = OpenAICallMetadata.mk clientRequestId None used
                   /\ availableModel w' = Some used
                   /\ openaiClient w' = openaiClient w
                   /\ trace w' = trace w ++ pre' ++ [call used]).
      { intros a m l w2 pre Ha Hc Ht H.
        destruct (IH a m l w2 Ha H) as [used [pre' [Hm [Hav' [Hc' Ht']]]]].
        exists used, (call model :: pre ++ pre').
        split; [exact Hm|]. split; [exact Hav'|]. split; [congruence|].
        rewrite Ht', Ht, <- !app_assoc. cbn [app]. rewrite <- !app_assoc.
        reflexivity. }
      unfold loop.
      rewrite (loop_unfold_throw env imageBase64 mimeType systemPrompt clientRequestId
                 remaining attempt model lastError w _ e E).
      destruct (isModelNotFoundError e && negb (eqb model LEGACY_FALLBACK)).
      { apply (Hgo _ _ _ _ []); reflexivity. }
      destruct (isRetryableError e && (attempt <? MAX_RETRIES - 1)%nat).
      { eapply (Hgo _ _ _ _ [EvRandom; EvSleep _]); try reflexivity; [exact Hav|].
        cbn [trace]. rewrite <- !app_assoc. reflexivity. }
      apply (Hgo _ _ _ _ []); try reflexivity. exact Hav.
    + unfold loop.
      rewrite (loop_unfold_return env imageBase64 mimeType systemPrompt clientRequestId
                 remaining attempt model lastError w _ r1 E).
      intros H. injection H as <- <-.
      exists model, []. split; [exact (attemptOnce_metadata _ _ _ _ E)|].
      repeat split. exact Hav.
Qed.

(** What the loop throws is an [Error]. *)
Lemma loop_failure (remaining attempt : nat) (model : jstring)
      (lastError : option thrown) (w w' : world) (e : thrown) :
  (forall e0, lastError = Some e0 -> isError e0 = true) ->
  loop remaining attempt model lastError w = (inl e, w') ->
  isError e = true.
Proof.
  revert attempt model lastError w.
  induction remaining as [|remaining IH]; intros attempt model lastError w Hl.
  - unfold loop. simpl. unfold throw. intros H. injection H as <- _.
    destruct lastError as [e0|]; [now apply Hl | reflexivity].
  - assert (Has : forall x, forall e0, Some (asError x) = Some e0 -> isError e0 = true).
    { intros x e0 H. injection H as <-. unfold asError.
      destruct (isError x) eqn:Ex; [exact Ex | reflexivity]. }
    destruct (once model w) as [[e1|r1] w1] eqn:E.
    + unfold loop.
      rewrite (loop_unfold_throw env imageBase64 mimeType systemPrompt clientRequestId
                 remaining attempt model lastError w _ e1 E).
      destruct (isModelNotFoundError e1 && negb (eqb model LEGACY_FALLBACK));
        [apply IH, Has|].
      destruct (isRetryableError e1 && (attempt <? MAX_RETRIES - 1)%nat);
        apply IH, Has.
    + unfold loop.
      rewrite (loop_unfold_return env imageBase64 mimeType systemPrompt clientRequestId
                 remaining attempt model lastError w _ r1 E).
      discriminate.
Qed.

End WholeLoop.

(** *** extractWithOpenAI, as a whole *)

Lemma extractWithOpenAI_prelude (env : environment)
      (imageBase64 mimeType systemPrompt : jstring) (config : EnvConfig) (w : world) :
  truthy (OPENAI_API_KEY config) = true ->
  exists m k0,
    (k0 = [] \/ k0 = [EvModelsList])
    /\ truthy m = true
    /\ (availableModel w = Some m -> k0 = [])
    /\ (forall c, availableModel w = Some c -> truthy c = true -> m = c)
    /\ extractWithOpenAI env imageBase64 mimeType config systemPrompt w
       = attemptLoop env imageBase64 mimeType systemPrompt (runId env w)
                     MAX_RETRIES 0 m None (loopStart config m k0 w).
Proof.
  intros Hkey. unfold extractWithOpenAI. rewrite Hkey. cbn [negb].
  unfold bind at 1. unfold getOpenAIClient.
  set (w1 := {| openaiClient := Some (match openaiClient w with
                                      | Some c => c
                                      | None => OPENAI_API_KEY config
                                      end);
                availableModel := availableModel w; trace := trace w |}).
  assert (H1 : (match openaiClient w with
                | Some c => (@inr thrown jstring c, w)
                | None => (inr (OPENAI_API_KEY config),
                           {| openaiClient := Some (OPENAI_API_KEY config);
                              availableModel := availableModel w;
                              trace := trace w |})
                end)
               = (inr (match openaiClient w with
                       | Some c => c
                       | None => OPENAI_API_KEY config
                       end), w1)).
  { unfold w1. destruct w as [[c|] a t]; reflexivity. }
  rewrite H1. unfold bind at 1. unfold ask. cbn [trace w1].
  set (w2 := {| openaiClient := openaiClient w1; availableModel := availableModel w1;
                trace := trace w ++ [EvUuid] |}).
  unfold bind.
  destruct (getAvailableModel_result env (OPENAI_MODEL config) w2)
    as [m [k0 [Hg [T Hk]]]].
  exists m, k0. change (trace w1) with (trace w). fold w2. rewrite Hg.
  split; [exact Hk|]. split; [exact T|].
  assert (Hcache : forall c, availableModel w = Some c -> truthy c = true ->
                             m = c /\ k0 = []).
  { intros c Hc Tc. revert Hg. unfold getAvailableModel, bind, getAvailable.
    change (availableModel w2) with (availableModel w). rewrite Hc, Tc.
    unfold ret. intros Hg.
    pose proof (f_equal fst Hg) as Hf. cbn [fst] in Hf. injection Hf as <-.
    split; [reflexivity|].
    pose proof (f_equal (fun p => List.length (trace (snd p))) Hg) as Hl.
    cbn [snd chose trace] in Hl. rewrite length_app in Hl.
    apply length_zero_iff_nil. lia. }
  split; [|split].
  - intros Hm. now apply (Hcache m Hm T).
  - intros c Hc Tc. now apply (Hcache c Hc Tc).
  - reflexivity.
Qed.

Lemma loopEvent_runEvent env imageBase64 mimeType systemPrompt w (k : list event) :
  Forall (loopEvent imageBase64 mimeType systemPrompt (runId env w)) k ->
  Forall (runEvent env imageBase64 mimeType systemPrompt w) k.
Proof. apply Forall_impl. intros ev H. right. right. exact H. Qed.

Lemma extractWithOpenAI_events (env : environment)
      (imageBase64 mimeType systemPrompt : jstring) (config : EnvConfig) (w : world) :
  exists k,
    trace (snd (extractWithOpenAI env imageBase64 mimeType config systemPrompt w))
    = trace w ++ k
    /\ Forall (runEvent env imageBase64 mimeType systemPrompt w) k
    /\ apiCalls k <= MAX_RETRIES
    /\ sleeps k <= 2
    /\ (truthy (OPENAI_API_KEY config) = true -> 1 <= apiCalls k)
    /\ (truthy (OPENAI_API_KEY config) = false -> k = []).
Proof.
  destruct (truthy (OPENAI_API_KEY config)) eqn:Hkey.
  - destruct (extractWithOpenAI_prelude env imageBase64 mimeType systemPrompt
                config w Hkey) as [m [k0 [Hk0 [_ [_ [_ Hrun]]]]]].
    rewrite Hrun.
    destruct (loop_events env imageBase64 mimeType systemPrompt (runId env w)
                MAX_RETRIES 0 m None (loopStart config m k0 w))
      as [k [Hk [Hall [Hn [Hs Hpos]]]]].
    exists (EvUuid :: k0 ++ k). rewrite Hk. cbn [loopStart trace].
    rewrite <- !app_assoc. split; [reflexivity|].
    assert (Hpre : Forall (runEvent env imageBase64 mimeType systemPrompt w) k0
                   /\ apiCalls k0 = 0 /\ sleeps k0 = 0).
    { destruct Hk0 as [->| ->].
      - split; [constructor | split; reflexivity].
      - split; [|split; reflexivity].
        constructor; [right; now left | constructor]. }
    destruct Hpre as [Hp0 [Hc0 Hs0]].
    split.
    { constructor; [now left|]. apply Forall_app. split; [exact Hp0|].
      now apply loopEvent_runEvent. }
    change (EvUuid :: k0 ++ k) with ([EvUuid] ++ k0 ++ k).
    rewrite !apiCalls_app, !sleeps_app, Hc0, Hs0.
    change (apiCalls [EvUuid]) with 0. change (sleeps [EvUuid]) with 0.
    change (2 - 0) with 2 in Hs.
    repeat split; try lia. intros _. apply Nat.le_trans with (apiCalls k); [|lia].
    apply Hpos. unfold MAX_RETRIES. lia.
  - exists []. unfold extractWithOpenAI. rewrite Hkey. cbn [negb]. unfold throw.
    cbn [snd]. rewrite app_nil_r. split; [reflexivity|]. split; [constructor|].
    change (apiCalls []) with 0. change (sleeps []) with 0.
    repeat split; try lia; try discriminate.
Qed.

(** X10. A run of [extractWithOpenAI] calls the API at most three times and
    waits at most twice; with a key it calls at least once, without a key it
    does nothing at all. *)
Theorem extractWithOpenAI_bounded (env : environment)
        (imageBase64 mimeType systemPrompt : jstring) (config : EnvConfig) (w : world) :
  exists k,
    trace (snd (extractWithOpenAI env imageBase64 mimeType config systemPrompt w))
    = trace w ++ k
    /\ apiCalls k <= 3
    /\ sleeps k <= 2
    /\ (OPENAI_API_KEY config <> [] -> 1 <= apiCalls k)
    /\ (OPENAI_API_KEY config = [] -> k = []).
Proof.
  destruct (extractWithOpenAI_events env imageBase64 mimeType systemPrompt config w)
    as [k [Hk [_ [Hn [Hs [Hpos Hnone]]]]]].
  exists k. repeat split; try assumption.
  - intros Hne. apply Hpos. destruct (OPENAI_API_KEY config); [contradiction|reflexivity].
  - intros He. apply Hnone. now rewrite He.
Qed.

(** X11. Whatever a run does is one of: drawing the request id, asking the
    catalogue, drawing a random number, waiting, or calling the API; and
    every call of the run carries the same prompt, the same image as a data
    URL of the given media type, and the request id of the run. *)
Theorem extractWithOpenAI_same_request (env : environment)
        (imageBase64 mimeType systemPrompt : jstring) (config : EnvConfig) (w : world) :
  exists k,
    trace (snd (extractWithOpenAI env imageBase64 mimeType config systemPrompt w))
    = trace w ++ k
    /\ Forall (runEvent env imageBase64 mimeType systemPrompt w) k.
Proof.
  destruct (extractWithOpenAI_events env imageBase64 mimeType systemPrompt config w)
    as [k [Hk [Hall _]]].
  exists k. split; assumption.
Qed.

Lemma extractWithOpenAI_returns (env : environment)
      (imageBase64 mimeType systemPrompt : jstring) (config : EnvConfig)
      (w w' : world) (r : OpenAIResponse.t) :
  extractWithOpenAI env imageBase64 mimeType config systemPrompt w = (inr r, w') ->
  exists used pre,
    OpenAIResponse.metadata r = OpenAICallMetadata.mk (runId env w) None used
    /\ availableModel w' = Some used
    /\ trace w' = trace w ++ pre
                  ++ [callEvent imageBase64 mimeType systemPrompt (runId env w) used].
Proof.
  intros H.
  destruct (truthy (OPENAI_API_KEY config)) eqn:Hkey.
  - destruct (extractWithOpenAI_prelude env imageBase64 mimeType systemPrompt
                config w Hkey) as [m [k0 [_ [_ [_ [_ Hrun]]]]]].
    rewrite Hrun in H.
    destruct (loop_success env imageBase64 mimeType systemPrompt (runId env w)
                MAX_RETRIES 0 m None (loopStart config m k0 w) w' r eq_refl H)
      as [used [pre [Hm [Ha [_ Ht]]]]].
    exists used, (EvUuid :: k0 ++ pre). split; [exact Hm|]. split; [exact Ha|].
    rewrite Ht. cbn [loopStart trace]. rewrite <- !app_assoc. cbn [app].
    rewrite <- !app_assoc. reflexivity.
  - unfold extractWithOpenAI in H. rewrite Hkey in H. discriminate.
Qed.

(** X12. When a run returns, the answer names the model of the last call of
    the run, that model is the one remembered for the next run, the request
    id of the answer is the one every call carried, and no provider request
    id is reported. *)
Theorem extractWithOpenAI_answer (env : environment)
        (imageBase64 mimeType systemPrompt : jstring) (config : EnvConfig)
        (w w' : world) (r : OpenAIResponse.t) :
  extractWithOpenAI env imageBase64 mimeType config systemPrompt w = (inr r, w') ->
  exists used pre,
    OpenAIResponse.metadata r = OpenAICallMetadata.mk (runId env w) None used
    /\ availableModel w' = Some used
    /\ trace w' = trace w ++ pre
                  ++ [callEvent imageBase64 mimeType systemPrompt (runId env w) used].
Proof. apply extractWithOpenAI_returns. Qed.

Lemma extractWithOpenAI_answer_witness :
  exists r w' used pre,
    extractWithOpenAI bareItemEnv (js "aGk=") (js "image/png")
                      (exampleConfig None false) (js "p") freshWorld = (inr r, w')
    /\ OpenAIResponse.metadata r
       = OpenAICallMetadata.mk (runId bareItemEnv freshWorld) None used
    /\ availableModel w' = Some used
    /\ trace w' = trace freshWorld ++ pre
                  ++ [callEvent (js "aGk=") (js "image/png") (js "p")
                                (runId bareItemEnv freshWorld) used].
Proof.
  assert (H : { p : OpenAIResponse.t * world
              | extractWithOpenAI bareItemEnv (js "aGk=") (js "image/png")
                  (exampleConfig None false) (js "p") freshWorld
                = (inr (fst p), snd p) }).
  { eexists (_, _). vm_compute. reflexivity. }
  destruct H as [[r w'] H]. simpl in H.
  destruct (extractWithOpenAI_answer bareItemEnv (js "aGk=") (js "image/png")
              (js "p") (exampleConfig None false) freshWorld w' r H)
    as [used [pre H']].
  exists r, w', used, pre. split; [exact H | exact H'].
Defined.

Lemma extractWithOpenAI_throws_error (env : environment)
      (imageBase64 mimeType systemPrompt : jstring) (config : EnvConfig)
      (w w' : world) (e : thrown) :
  extractWithOpenAI env imageBase64 mimeType config systemPrompt w = (inl e, w') ->
  isError e = true.
Proof.
  intros H.
  destruct (truthy (OPENAI_API_KEY config)) eqn:Hkey.
  - destruct (extractWithOpenAI_prelude env imageBase64 mimeType systemPrompt
                config w Hkey) as [m [k0 [_ [_ [_ [_ Hrun]]]]]].
    rewrite Hrun in H.
    apply (loop_failure env imageBase64 mimeType systemPrompt (runId env w)
             MAX_RETRIES 0 m None (loopStart config m k0 w) w' e); [|exact H].
    discriminate.
  - unfold extractWithOpenAI in H. rewrite Hkey in H. cbn [negb] in H.
    unfold throw in H. injection H as <- _. reflexivity.
Qed.

Lemma attemptOnce_api_error (env : environment)
      (imageBase64 mimeType systemPrompt clientRequestId model : jstring)
      (e : thrown) (w : world) :
  (forall h, responses_create env h = inl e) ->
  attemptOnce env imageBase64 mimeType systemPrompt clientRequestId model w
  = (inl e, called (callEvent imageBase64 mimeType systemPrompt clientRequestId model) w).
Proof.
  intros H. unfold attemptOnce, bind, askOrThrow. cbv zeta. rewrite H. reflexivity.
Qed.


Lemma notFound_isError (e : thrown) : isModelNotFoundError e = true -> isError e = true.
Proof. destruct e; [reflexivity | discriminate | discriminate]. Qed.

Lemma asError_id (e : thrown) : isError e = true -> asError e = e.
Proof. intros H. unfold asError. now rewrite H. Qed.

Section Persistent.

Variable env : environment.
Variables imageBase64 mimeType systemPrompt clientRequestId : jstring.
Variable e : thrown.
Hypothesis always : forall h, responses_create env h = inl e.

Let loop := attemptLoop env imageBase64 mimeType systemPrompt clientRequestId.
Let call := callEvent imageBase64 mimeType systemPrompt clientRequestId.

Lemma loop_step (remaining attempt : nat) (model : jstring)
      (lastError : option thrown) (w : world) :
  loop (S remaining) attempt model lastError w
  = if isModelNotFoundError e && negb (eqb model LEGACY_FALLBACK) then
      loop remaining (S attempt) (nextModel model) (Some (asError e))
           (cached (nextModel model) (called (call model) w))
    else if isRetryableError e && (attempt <? MAX_RETRIES - 1)%nat then
      loop remaining (S attempt) model (Some (asError e))
           (called (EvSleep (backoffDelay attempt
                               (Math_random env ((trace w ++ [call model])
                                                 ++ [EvRandom]))))
                   (called EvRandom (called (call model) w)))
    else
      loop remaining (S attempt) model (Some (asError e)) (called (call model) w).
Proof.
  unfold loop.
  rewrite (loop_unfold_throw env imageBase64 mimeType systemPrompt clientRequestId
             remaining attempt model lastError w _ e
             (attemptOnce_api_error env imageBase64 mimeType systemPrompt
                clientRequestId model e w always)).
  reflexivity.
Qed.


(** Every model of the list missing, starting from the primary one. *)
Lemma loop_all_missing (w : world) :
  isModelNotFoundError e = true ->
  exists w',
    loop 3 0 PRIMARY_MODEL None w = (inl e, w')
    /\ trace w' = trace w ++ [call PRIMARY_MODEL; call FALLBACK_MODEL;
                              call LEGACY_FALLBACK]
    /\ availableModel w' = Some LEGACY_FALLBACK.
Proof.
  intros Hnf.
  rewrite loop_step, Hnf.
  assert (E1 : negb (eqb PRIMARY_MODEL LEGACY_FALLBACK) = true) by reflexivity.
  rewrite E1. cbn [andb].
  assert (N1 : nextModel PRIMARY_MODEL = FALLBACK_MODEL) by reflexivity.
  rewrite N1, loop_step, Hnf.
  assert (E2 : negb (eqb FALLBACK_MODEL LEGACY_FALLBACK) = true) by reflexivity.
  rewrite E2. cbn [andb].
  assert (N2 : nextModel FALLBACK_MODEL = LEGACY_FALLBACK) by reflexivity.
  rewrite N2, loop_step, Hnf.
  assert (E3 : negb (eqb LEGACY_FALLBACK LEGACY_FALLBACK) = false) by reflexivity.
  rewrite E3. cbn [andb].
  assert (L : (2 <? MAX_RETRIES - 1)%nat = false) by reflexivity.
  rewrite L, andb_false_r.
  unfold loop. cbn [attemptLoop]. unfold throw.
  rewrite (asError_id e (notFound_isError e Hnf)).
  eexists. split; [reflexivity|].
  cbn [called cached trace availableModel]. rewrite <- !app_assoc.
  split; reflexivity.
Qed.

End Persistent.



(** X14. When the primary model is the remembered one and every call fails
    because the model is not there, a run tries the primary, the secondary
    and the legacy model once each, in this order and without waiting, then
    throws; the legacy model is the one remembered afterwards. *)
Theorem extractWithOpenAI_all_models_missing (env : environment)
        (imageBase64 mimeType systemPrompt : jstring) (config : EnvConfig)
        (w : world) (e : thrown) :
  OPENAI_API_KEY config <> [] ->
  availableModel w = Some PRIMARY_MODEL ->
  (forall h, responses_create env h = inl e) ->
  isModelNotFoundError e = true ->
  exists w',
    extractWithOpenAI env imageBase64 mimeType config systemPrompt w = (inl e, w')
    /\ trace w'
       = trace w
         ++ [EvUuid;
             callEvent imageBase64 mimeType systemPrompt (runId env w) PRIMARY_MODEL;
             callEvent imageBase64 mimeType systemPrompt (runId env w) FALLBACK_MODEL;
             callEvent imageBase64 mimeType systemPrompt (runId env w) LEGACY_FALLBACK]
    /\ availableModel w' = Some LEGACY_FALLBACK.
Proof.
  intros Hkey Hav Hall Hnf.
  assert (T : truthy (OPENAI_API_KEY config) = true)
    by (destruct (OPENAI_API_KEY config); [contradiction | reflexivity]).
  destruct (extractWithOpenAI_prelude env imageBase64 mimeType systemPrompt
              config w T) as [m [k0 [_ [_ [Hn [Hc Hrun]]]]]].
  assert (Hm : m = PRIMARY_MODEL) by (apply (Hc _ Hav); reflexivity).
  subst m. specialize (Hn Hav).
  subst k0.
  destruct (loop_all_missing env imageBase64 mimeType systemPrompt (runId env w) e
              Hall (loopStart config PRIMARY_MODEL [] w) Hnf) as [w' [Hl [Ht Ha]]].
  exists w'. rewrite Hrun. split; [exact Hl|]. split; [|exact Ha].
  rewrite Ht. cbn [loopStart trace]. rewrite app_nil_r, <- app_assoc. reflexivity.
Qed.

Lemma extractWithOpenAI_all_models_missing_witness :
  exists w',
    extractWithOpenAI missingEnv (js "aGk=") (js "image/png")
                      (exampleConfig None false) (js "p") primaryWorld
    = (inl modelMissing, w')
    /\ trace w'
       = trace primaryWorld
         ++ [EvUuid;
             callEvent (js "aGk=") (js "image/png") (js "p")
                       (runId missingEnv primaryWorld) PRIMARY_MODEL;
             callEvent (js "aGk=") (js "image/png") (js "p")
                       (runId missingEnv primaryWorld) FALLBACK_MODEL;
             callEvent (js "aGk=") (js "image/png") (js "p")
                       (runId missingEnv primaryWorld) LEGACY_FALLBACK]
    /\ availableModel w' = Some LEGACY_FALLBACK.
Proof.
  apply (extractWithOpenAI_all_models_missing missingEnv (js "aGk=")
           (js "image/png") (js "p") (exampleConfig None false) primaryWorld
           modelMissing).
  - vm_compute. discriminate.
  - reflexivity.
  - intros h. reflexivity.
  - reflexivity.
Defined.

(** *** The process route, as a whole *)

Lemma mails_app (a b : list event) : mails (a ++ b) = mails a + mails b.
Proof. unfold mails. now rewrite filter_app, length_app. Qed.

Lemma extraction_no_mail (k : list event) : Forall extractionEvent k -> mails k = 0.
Proof.
  induction 1 as [|ev k Hev _ IH]; [reflexivity|].
  change (ev :: k) with ([ev] ++ k). rewrite mails_app, IH.
  destruct ev; try contradiction; reflexivity.
Qed.

Lemma runEvent_extractionEvent env imageBase64 mimeType systemPrompt w (k : list event) :
  Forall (runEvent env imageBase64 mimeType systemPrompt w) k ->
  Forall extractionEvent k.
Proof.
  apply Forall_impl. intros ev [->|[->|[->|[[d ->]|[m ->]]]]]; exact I.
Qed.

Lemma extractBusinessRegNo_events (env : environment)
      (imageBase64 mimeType targetCode : jstring) (config : EnvConfig) (w : world) :
  exists k,
    trace (snd (extractBusinessRegNo env imageBase64 mimeType targetCode config w))
    = trace w ++ k
    /\ Forall extractionEvent k
    /\ (MOCK_LLM config = true -> k = [EvUuid]).
Proof.
  unfold extractBusinessRegNo. destruct (MOCK_LLM config).
  - exists [EvUuid]. split; [reflexivity|]. split; [repeat constructor | reflexivity].
  - destruct (extractWithOpenAI_events env imageBase64 mimeType
                (createExtractionPrompt targetCode) config w) as [k [Hk [Hall _]]].
    exists k. split; [|split; [now apply runEvent_extractionEvent in Hall | discriminate]].
    unfold bind.
    destruct (extractWithOpenAI env imageBase64 mimeType config
                (createExtractionPrompt targetCode) w) as [[e|r] w1]; exact Hk.
Qed.

Lemma extractBusinessRegNo_throws_error (env : environment)
      (imageBase64 mimeType targetCode : jstring) (config : EnvConfig)
      (w w' : world) (e : thrown) :
  extractBusinessRegNo env imageBase64 mimeType targetCode config w = (inl e, w') ->
  isError e = true.
Proof.
  unfold extractBusinessRegNo. destruct (MOCK_LLM config); [discriminate|].
  unfold bind.
  destruct (extractWithOpenAI env imageBase64 mimeType config
              (createExtractionPrompt targetCode) w) as [[e1|r] w1] eqn:E;
    [|discriminate].
  intros H. injection H as <- _.
  exact (extractWithOpenAI_throws_error _ _ _ _ _ _ _ _ E).
Qed.

(** The mail is handed over once, and a failure of the mailer is caught. *)
Lemma sendEmail_spec (col : collaborators) (config : EnvConfig)
      (productCodes : list jstring) (items : list ExtractionItem.t)
      (excelBase64 excelFilename : jstring) (w : world) :
  exists sent debug,
    sendEmail col config productCodes items excelBase64 excelFilename w
    = (inr (sent, debug), called EvSendEmail w)
    /\ EmailDebugInfo.attempted debug = true
    /\ EmailDebugInfo.success debug = sent
    /\ sent = match sendResultEmail col (trace w ++ [EvSendEmail])
                      (join (js ",") productCodes) items excelBase64
                      excelFilename config with
              | inr result => success result
              | inl _ => false
              end.
Proof.
  unfold sendEmail, tryCatch, bind, askOrThrow. cbn [trace].
  destruct (sendResultEmail col _ _ _ _ _ _) as [e|result];
    eexists; eexists; (split; [reflexivity|]); repeat split.
Qed.

Lemma respond_spec (env : environment) (col : collaborators) (config : EnvConfig)
      (requestId : jstring) (productCodes : list jstring)
      (r : ExtractionResult.t) (w : world) :
  let processedAt := toISOString col (trace w ++ [EvNow]) in
  match generateExcel col (map (toExcelItem processedAt) (ExtractionResult.items r)) with
  | inl e => respond env col config requestId productCodes r w = (inl e, called EvNow w)
  | inr buffer =>
    exists s,
      respond env col config requestId productCodes r w
      = (inr {| status := 200; body := Success s |},
         called EvSendEmail (called EvNow (called EvNow w)))
      /\ SuccessResponse.items s = map toResponseItem (ExtractionResult.items r)
      /\ SuccessResponse.product_code s = join (js ",") productCodes
      /\ SuccessResponse.total_found s = ExtractionResult.total_found r
      /\ SuccessResponse.confidence s = ExtractionResult.confidence r
      /\ SuccessResponse.provider s = ExtractionResult.provider r
      /\ SuccessResponse.request_id s = requestId
      /\ SuccessResponse.client_request_id s = ExtractionResult.client_request_id r
      /\ SuccessResponse.emailed s
         = match sendResultEmail col
                   (((trace w ++ [EvNow]) ++ [EvNow]) ++ [EvSendEmail])
                   (join (js ",") productCodes) (ExtractionResult.items r)
                   (excelToBase64 col buffer)
                   (generateExcelFilename col ((trace w ++ [EvNow]) ++ [EvNow]))
                   config with
           | inr result => success result
           | inl _ => false
           end
  end.
Proof.
  cbv zeta. unfold respond, bind, ask, liftE. cbn [trace].
  destruct (generateExcel col _) as [e|buffer]; [reflexivity|].
  match goal with
  | |- context [sendEmail ?c ?cf ?p ?i ?b ?f ?w0] =>
    destruct (sendEmail_spec c cf p i b f w0) as [sent [debug [Hs [_ [_ Hsent]]]]];
    rewrite Hs
  end.
  eexists. split; [reflexivity|]. cbn. repeat split. exact Hsent.
Qed.

Lemma stage_input (w : world) (st : Z) (code message requestId : jstring) :
  st = 400%Z \/ st = 413%Z ->
  stageShape w (ret (fail st code message requestId) w).
Proof.
  intros H. exists []. cbn. rewrite app_nil_r. split; [reflexivity|].
  eapply ShapeInput; [exact H | reflexivity].
Qed.

Lemma respond_shape (env : environment) (col : collaborators) (config : EnvConfig)
      (requestId : jstring) (productCodes : list jstring)
      (r : ExtractionResult.t) (w : world) :
  exists k, trace (snd (respond env col config requestId productCodes r w))
            = trace w ++ k
            /\ match fst (respond env col config requestId productCodes r w) with
               | inr resp => status resp = 200%Z
                             /\ (exists s, body resp = Success s)
                             /\ k = [EvNow; EvNow; EvSendEmail]
               | inl _ => k = [EvNow]
               end.
Proof.
  pose proof (respond_spec env col config requestId productCodes r w) as H.
  cbv zeta in H. destruct (generateExcel col _) as [e|buffer].
  - rewrite H. exists [EvNow]. split; reflexivity.
  - destruct H as [s [H _]]. rewrite H. exists [EvNow; EvNow; EvSendEmail].
    cbn [snd fst called trace]. rewrite <- !app_assoc. split; [reflexivity|].
    split; [reflexivity|]. split; [now exists s | reflexivity].
Qed.

Lemma extractAndValidate_shape (env : environment) (col : collaborators)
      (config : EnvConfig) (requestId : jstring) (productCodes : list jstring)
      (file : File.t) (w : world) :
  stageShape w (extractAndValidate env col config requestId productCodes file w).
Proof.
  unfold extractAndValidate, bind, tryCatch. cbv zeta.
  destruct (extractBusinessRegNo_events env (toBase64 col (File.bytes file))
              (File.type file) (join (js ",") productCodes) config w)
    as [k1 [Hk1 [Hall _]]].
  destruct (extractBusinessRegNo env (toBase64 col (File.bytes file))
              (File.type file) (join (js ",") productCodes) config w)
    as [[e|r] w1]; cbn [snd] in Hk1.
  - exists k1. cbn. split; [exact Hk1|].
    eapply ShapeUnprocessable; [reflexivity | reflexivity | exact Hall].
  - cbn [ret].
    destruct (validateExtractionResult env config r) as [[err|u] validated].
    + exists k1. cbn. split; [exact Hk1|].
      eapply ShapeUnprocessable; [reflexivity | reflexivity | exact Hall].
    + destruct (respond_shape env col config requestId productCodes validated w1)
        as [k2 [Hk2 Hs]].
      exists (k1 ++ k2). rewrite Hk2, Hk1, <- app_assoc. split; [reflexivity|].
      destruct (fst (respond env col config requestId productCodes validated w1))
        as [e|resp].
      * subst k2. rewrite mails_app, (extraction_no_mail k1 Hall). reflexivity.
      * destruct Hs as [Hst [[s Hb] ->]].
        eapply ShapeSuccess; eassumption.
Qed.

Lemma checkFile_shape (env : environment) (col : collaborators)
      (config : EnvConfig) (requestId : jstring) (productCodes : list jstring)
      (form : FormData) (w : world) :
  stageShape w (checkFile env col config requestId productCodes form w).
Proof.
  unfold checkFile.
  destruct (image form) as [|s|file]; try (apply stage_input; now left).
  destruct (MAX_PAYLOAD_SIZE <? File.size file)%N; [apply stage_input; now right|].
  destruct (negb (array_includes allowedTypes (File.type file)));
    [apply stage_input; now left|].
  apply extractAndValidate_shape.
Qed.

Lemma checkProductCodes_shape (env : environment) (col : collaborators)
      (config : EnvConfig) (requestId : jstring) (form : FormData) (w : world) :
  stageShape w (checkProductCodes env col config requestId form w).
Proof.
  unfold checkProductCodes.
  destruct (productCode form) as [|raw|file]; try (apply stage_input; now left).
  destruct (negb (truthy raw)); [apply stage_input; now left|]. cbv zeta.
  destruct (List.length (productCodesOf raw) =? 0)%nat; [apply stage_input; now left|].
  destruct (0 <? List.length (invalidCodesOf config (productCodesOf raw)))%nat;
    [apply stage_input; now left|].
  apply checkFile_shape.
Qed.

Lemma stage_after (ev : event) (w : world) (out : (thrown + HttpResponse) * world) :
  stageShape (called ev w) out ->
  exists k, trace (snd out) = trace w ++ ev :: k
            /\ match fst out with
               | inr resp => postShape resp k
               | inl _ => mails k = 0
               end.
Proof.
  intros [k [Hk H]]. exists k. split; [|exact H].
  rewrite Hk. cbn [called trace]. now rewrite <- app_assoc.
Qed.

Lemma handle_shape (env : environment) (col : collaborators) (request : Request)
      (requestId : jstring) (w : world) :
  exists k, trace (snd (handle env col request requestId w))
            = trace w ++ EvLoadEnvConfig :: k
            /\ match fst (handle env col request requestId w) with
               | inr resp => postShape resp k
               | inl _ => mails k = 0
               end.
Proof.
  unfold handle, bind, askOrThrow. cbn [trace].
  destruct (loadEnvConfig col (trace w ++ [EvLoadEnvConfig])) as [e|config].
  - exists []. split; reflexivity.
  - apply (stage_after EvLoadEnvConfig w).
    destruct (negb (includes _ _)); [apply stage_input; now left|].
    destruct (formData request) as [e|form]; [apply stage_input; now left|].
    apply checkProductCodes_shape.
Qed.

(** Every request is answered, and the answer and what was done for it are
    of one of the four shapes. *)
Lemma POST_cases (env : environment) (col : collaborators) (request : Request)
      (w : world) :
  exists resp w' k,
    POST env col request w = (inr resp, w')
    /\ trace w' = trace w ++ EvUuid :: EvLoadEnvConfig :: k
    /\ postShape resp k.
Proof.
  unfold POST, bind, ask, tryCatch. cbn [trace].
  match goal with
  | |- context [handle env col request ?rid ?w1] =>
    destruct (handle_shape env col request rid w1) as [k [Hk Hs]];
    destruct (handle env col request rid w1) as [[e|resp] w'] eqn:E
  end; cbn [snd fst trace] in Hk, Hs.
  - destruct (isError e && includes (messageOf e) _);
      (eexists; exists w', k; split; [reflexivity|];
       split; [rewrite Hk, <- app_assoc; reflexivity|];
       eapply ShapeInternal; [reflexivity | reflexivity | exact Hs]).
  - exists resp, w', k. split; [reflexivity|].
    split; [rewrite Hk, <- app_assoc; reflexivity | exact Hs].
Qed.

Lemma postShape_status (resp : HttpResponse) (k : list event) :
  postShape resp k ->
  (status resp = 200%Z /\ exists s, body resp = Success s)
  \/ (In (status resp) [400; 413; 422; 500]%Z /\ exists e, body resp = Failure e).
Proof.
  intros [resp' e [H|H] Hb|resp' e k' H Hb _|resp' e k' H Hb _|resp' s k' H Hb _].
  - right. split; [rewrite H; simpl; auto | now exists e].
  - right. split; [rewrite H; simpl; auto | now exists e].
  - right. split; [rewrite H; simpl; auto | now exists e].
  - right. split; [rewrite H; simpl; auto | now exists e].
  - left. split; [exact H | now exists s].
Qed.

(** X15. The handler answers every request: it never throws, the status is
    200 with a success body, or 400, 413, 422 or 500 with an error body. *)
Theorem POST_always_answers (env : environment) (col : collaborators)
        (request : Request) (w : world) :
  exists resp w',
    POST env col request w = (inr resp, w')
    /\ ((status resp = 200%Z /\ exists s, body resp = Success s)
        \/ (In (status resp) [400; 413; 422; 500]%Z
            /\ exists e, body resp = Failure e)).
Proof.
  destruct (POST_cases env col request w) as [resp [w' [k [H [_ Hs]]]]].
  exists resp, w'. split; [exact H | exact (postShape_status resp k Hs)].
Qed.

(** X16. An answer 400 or 413 means that nothing was done beyond drawing the
    request id and loading the configuration: no call of the provider, no
    export, no mail. *)
Theorem POST_input_error_is_silent (env : environment) (col : collaborators)
        (request : Request) (w w' : world) (resp : HttpResponse) :
  POST env col request w = (inr resp, w') ->
  status resp = 400%Z \/ status resp = 413%Z ->
  trace w' = trace w ++ [EvUuid; EvLoadEnvConfig].
Proof.
  intros H Hst.
  destruct (POST_cases env col request w) as [resp0 [w0 [k [H0 [Ht Hs]]]]].
  rewrite H in H0. injection H0 as <- <-. rewrite Ht.
  destruct Hs as [resp' e _ _|resp' e k' H1 _ _|resp' e k' H1 _ _|resp' s k' H1 _ _];
    [reflexivity | | |]; destruct Hst as [H2|H2]; rewrite H1 in H2; discriminate H2.
Qed.

Lemma POST_input_error_is_silent_witness :
  exists resp w',
    POST quietEnv exampleCollaborators exampleRequest freshWorld = (inr resp, w')
    /\ status resp = 400%Z
    /\ trace w' = trace freshWorld ++ [EvUuid; EvLoadEnvConfig].
Proof.
  assert (H : { p : HttpResponse * world
              | POST quietEnv exampleCollaborators exampleRequest freshWorld
                = (inr (fst p), snd p) /\ status (fst p) = 400%Z }).
  { eexists (_, _). vm_compute. split; reflexivity. }
  destruct H as [[resp w'] [H Hs]]. simpl in H, Hs.
  exists resp, w'. split; [exact H|]. split; [exact Hs|].
  exact (POST_input_error_is_silent quietEnv exampleCollaborators exampleRequest
           freshWorld w' resp H (or_introl Hs)).
Defined.

(** X17. The result is mailed exactly once when the answer is 200, as the
    last thing done, and never otherwise. *)
Theorem POST_mails_on_success_only (env : environment) (col : collaborators)
        (request : Request) (w w' : world) (resp : HttpResponse) :
  POST env col request w = (inr resp, w') ->
  exists k,
    trace w' = trace w ++ k
    /\ mails k = (if (status resp =? 200)%Z then 1 else 0)
    /\ (status resp = 200%Z -> exists k', k = k' ++ [EvSendEmail] /\ mails k' = 0).
Proof.
  intros H.
  destruct (POST_cases env col request w) as [resp0 [w0 [k [H0 [Ht Hs]]]]].
  rewrite H in H0. injection H0 as <- <-.
  exists (EvUuid :: EvLoadEnvConfig :: k). split; [exact Ht|].
  change (EvUuid :: EvLoadEnvConfig :: k) with ([EvUuid; EvLoadEnvConfig] ++ k).
  rewrite mails_app. change (mails [EvUuid; EvLoadEnvConfig]) with 0.
  destruct Hs as [resp' e [H1|H1] _|resp' e k' H1 _ Hk|resp' e k' H1 _ Hk
                  |resp' s k' H1 _ Hk]; rewrite H1; cbn [Z.eqb Pos.eqb].
  - split; [reflexivity | discriminate].
  - split; [reflexivity | discriminate].
  - split; [now rewrite (extraction_no_mail k' Hk) | discriminate].
  - split; [now rewrite Hk | discriminate].
  - rewrite mails_app, (extraction_no_mail k' Hk). split; [reflexivity|].
    intros _. exists ([EvUuid; EvLoadEnvConfig] ++ k' ++ [EvNow; EvNow]).
    split.
    + rewrite <- !app_assoc. reflexivity.
    + rewrite !mails_app, (extraction_no_mail k' Hk). reflexivity.
Qed.

Lemma POST_mails_on_success_only_witness :
  exists resp w' k,
    POST bareItemEnv exampleCollaborators (requestWith goodForm) freshWorld
    = (inr resp, w')
    /\ status resp = 200%Z
    /\ trace w' = trace freshWorld ++ k
    /\ mails k = 1
    /\ exists k', k = k' ++ [EvSendEmail] /\ mails k' = 0.
Proof.
  assert (H : { p : HttpResponse * world
              | POST bareItemEnv exampleCollaborators (requestWith goodForm) freshWorld
                = (inr (fst p), snd p) /\ status (fst p) = 200%Z }).
  { eexists (_, _). vm_compute. split; reflexivity. }
  destruct H as [[resp w'] [H Hs]]. simpl in H, Hs.
  destruct (POST_mails_on_success_only bareItemEnv exampleCollaborators
              (requestWith goodForm) freshWorld w' resp H) as [k [Ht [Hm Hlast]]].
  exists resp, w', k. split; [exact H|]. split; [exact Hs|]. split; [exact Ht|].
  rewrite Hs in Hm. split; [exact Hm | exact (Hlast Hs)].
Defined.

(** *** The process route, case by case *)

Lemma POST_to_codes (env : environment) (col : collaborators) (request : Request)
      (w w' : world) (config : EnvConfig) (form : FormData) (raw : jstring)
      (resp : HttpResponse) :
  reachesCodes col request w config form raw ->
  checkProductCodes env col config (requestIdOf env w) form (afterLoad w)
  = (inr resp, w') ->
  POST env col request w = (inr resp, w').
Proof.
  intros [Hload [[header [Hct Hinc]] [Hform _]]] H.
  unfold POST, bind, ask, tryCatch, handle, bind, askOrThrow. cbv zeta.
  cbn [trace]. rewrite Hload, Hct, orEmpty_string, Hinc. cbn [negb].
  rewrite Hform.
  match goal with
  | |- context [checkProductCodes ?a ?b ?c ?d ?e ?f] =>
    change (checkProductCodes a b c d e f)
      with (checkProductCodes env col config (requestIdOf env w) form (afterLoad w))
  end.
  rewrite H. reflexivity.
Qed.

Lemma productCodes_truthy (raw : jstring) : productCodesOf raw <> [] -> truthy raw = true.
Proof. destruct raw; [intros H; now contradiction H | reflexivity]. Qed.

Lemma codes_to_file (env : environment) (col : collaborators) (config : EnvConfig)
      (requestId : jstring) (form : FormData) (raw : jstring) (w : world) :
  productCode form = FdString raw ->
  productCodesOf raw <> [] ->
  invalidCodesOf config (productCodesOf raw) = [] ->
  checkProductCodes env col config requestId form w
  = checkFile env col config requestId (productCodesOf raw) form w.
Proof.
  intros Hpc Hne Hvalid. unfold checkProductCodes.
  rewrite Hpc, (productCodes_truthy raw Hne). cbn [negb]. cbv zeta.
  rewrite Hvalid. destruct (productCodesOf raw); [contradiction|]. reflexivity.
Qed.

Lemma file_to_extraction (env : environment) (col : collaborators)
      (config : EnvConfig) (requestId : jstring) (productCodes : list jstring)
      (form : FormData) (file : File.t) (w : world) :
  image form = FdFile file ->
  (File.size file <= MAX_PAYLOAD_SIZE)%N ->
  In (File.type file) allowedTypes ->
  checkFile env col config requestId productCodes form w
  = extractAndValidate env col config requestId productCodes file w.
Proof.
  intros Him Hsize Htype. unfold checkFile. rewrite Him.
  rewrite (proj2 (N.ltb_ge _ _) Hsize).
  rewrite (proj2 (array_includes_In _ _) Htype). reflexivity.
Qed.

Lemma POST_to_extraction (env : environment) (col : collaborators)
      (request : Request) (w w' : world) (config : EnvConfig) (form : FormData)
      (raw : jstring) (file : File.t) (resp : HttpResponse) :
  reachesExtraction col request w config form raw file ->
  extractAndValidate env col config (requestIdOf env w) (productCodesOf raw) file
                     (afterLoad w) = (inr resp, w') ->
  POST env col request w = (inr resp, w').
Proof.
  intros [[Hc [Hne Hvalid]] [Him [Hsize Htype]]] H.
  apply (POST_to_codes env col request w w' config form raw resp Hc).
  destruct Hc as [_ [_ [_ Hpc]]].
  rewrite (codes_to_file env col config _ form raw _ Hpc Hne Hvalid).
  rewrite (file_to_extraction env col config _ _ form file _ Him Hsize Htype).
  exact H.
Qed.

(** X18. A product-code field in which no code is left after normalisation
    (only separators, blanks, hyphens, underscores) is refused with 400
    [invalid_product_code], and nothing else is done. *)
Theorem POST_no_valid_codes (env : environment) (col : collaborators)
        (request : Request) (w : world) (config : EnvConfig) (form : FormData)
        (raw : jstring) :
  reachesCodes col request w config form raw ->
  raw <> [] ->
  productCodesOf raw = [] ->
  POST env col request w
  = (inr (fail 400 (js "invalid_product_code") (js "유효한 상품번호가 없습니다.")
            (requestIdOf env w)),
     afterLoad w).
Proof.
  intros Hc Hraw Hnone.
  apply (POST_to_codes env col request w _ config form raw _ Hc).
  destruct Hc as [_ [_ [_ Hpc]]]. unfold checkProductCodes. rewrite Hpc.
  assert (T : truthy raw = true) by (destruct raw; [contradiction | reflexivity]).
  rewrite T. cbn [negb]. cbv zeta. rewrite Hnone. reflexivity.
Qed.

Lemma reaches_example (env : environment) (codes : string)
      (img : FormDataEntryValue) (load : EnvConfig) :
  reachesCodes (collaboratorsLoading (inr load)) (requestWith (formWith codes img))
               freshWorld load (formWith codes img) (js codes).
Proof.
  split; [reflexivity|]. split; [|split; reflexivity].
  eexists. split; reflexivity.
Qed.

Lemma POST_no_valid_codes_witness :
  POST quietEnv (collaboratorsLoading (inr (exampleConfig None false)))
       (requestWith (formWith " , -_ ," FdNull)) freshWorld
  = (inr (fail 400 (js "invalid_product_code") (js "유효한 상품번호가 없습니다.")
            (requestIdOf quietEnv freshWorld)),
     afterLoad freshWorld).
Proof.
  apply (POST_no_valid_codes quietEnv
           (collaboratorsLoading (inr (exampleConfig None false)))
           (requestWith (formWith " , -_ ," FdNull)) freshWorld
           (exampleConfig None false) (formWith " , -_ ," FdNull) (js " , -_ ,")).
  - apply (reaches_example quietEnv).
  - vm_compute. discriminate.
  - reflexivity.
Defined.

(** X19. With valid codes, the file decides: no file in the image field gives
    400 [missing_file]; a file of more than 4,500,000 bytes gives 413
    [payload_too_large] whatever its type and content; a smaller file of a
    type other than JPEG, PNG, WebP or GIF gives 400 [invalid_file_type].
    Nothing else is done in any of these cases. *)
Theorem POST_file_checks (env : environment) (col : collaborators)
        (request : Request) (w : world) (config : EnvConfig) (form : FormData)
        (raw : jstring) :
  reachesFile col request w config form raw ->
  ((forall file, image form <> FdFile file) ->
   exists message,
     POST env col request w
     = (inr (fail 400 (js "missing_file") message (requestIdOf env w)), afterLoad w))
  /\ (forall file, image form = FdFile file ->
       (MAX_PAYLOAD_SIZE < File.size file)%N ->
       exists message,
         POST env col request w
         = (inr (fail 413 (js "payload_too_large") message (requestIdOf env w)),
            afterLoad w))
  /\ (forall file, image form = FdFile file ->
       (File.size file <= MAX_PAYLOAD_SIZE)%N ->
       ~ In (File.type file) allowedTypes ->
       exists message,
         POST env col request w
         = (inr (fail 400 (js "invalid_file_type") message (requestIdOf env w)),
            afterLoad w)).
Proof.
  intros [Hc [Hne Hvalid]].
  assert (Hgo : forall resp,
             checkFile env col config (requestIdOf env w) (productCodesOf raw) form
                       (afterLoad w) = (inr resp, afterLoad w) ->
             POST env col request w = (inr resp, afterLoad w)).
  { intros resp H.
    apply (POST_to_codes env col request w _ config form raw _ Hc).
    destruct Hc as [_ [_ [_ Hpc]]].
    now rewrite (codes_to_file env col config _ form raw _ Hpc Hne Hvalid). }
  split; [|split].
  - intros Hnofile. eexists. apply Hgo. unfold checkFile.
    destruct (image form) as [|s|file]; [reflexivity | reflexivity |].
    now contradiction (Hnofile file).
  - intros file Him Hbig. eexists. apply Hgo. unfold checkFile. rewrite Him.
    rewrite (proj2 (N.ltb_lt _ _) Hbig). reflexivity.
  - intros file Him Hsize Htype. eexists. apply Hgo. unfold checkFile. rewrite Him.
    rewrite (proj2 (N.ltb_ge _ _) Hsize).
    assert (E : array_includes allowedTypes (File.type file) = false).
    { destruct (array_includes allowedTypes (File.type file)) eqn:E; [|reflexivity].
      apply array_includes_In in E. contradiction. }
    rewrite E. reflexivity.
Qed.

Lemma reachesFile_example (env : environment) (img : FormDataEntryValue)
      (mockMode : bool) :
  reachesFile (collaboratorsLoading (inr (exampleConfig None mockMode)))
              (requestWith (formWith "12345, 67-890" img))
              freshWorld (exampleConfig None mockMode)
              (formWith "12345, 67-890" img) (js "12345, 67-890").
Proof.
  split; [apply (reaches_example env)|].
  split; [vm_compute; discriminate | reflexivity].
Qed.

Lemma POST_file_checks_witness :
  exists message,
    POST quietEnv (collaboratorsLoading (inr (exampleConfig None false)))
         (requestWith (formWith "12345, 67-890" (FdFile bigFile))) freshWorld
    = (inr (fail 413 (js "payload_too_large") message
              (requestIdOf quietEnv freshWorld)),
       afterLoad freshWorld).
Proof.
  apply (proj1 (proj2 (POST_file_checks quietEnv
                         (collaboratorsLoading (inr (exampleConfig None false)))
                         (requestWith (formWith "12345, 67-890" (FdFile bigFile)))
                         freshWorld (exampleConfig None false)
                         (formWith "12345, 67-890" (FdFile bigFile))
                         (js "12345, 67-890")
                         (reachesFile_example quietEnv (FdFile bigFile) false)))
               bigFile).
  - reflexivity.
  - reflexivity.
Defined.

(** X20. When the extraction throws, the answer is 422 [extraction_error]
    with the message of what was thrown, and the request ends there. *)
Theorem POST_extraction_error (env : environment) (col : collaborators)
        (request : Request) (w w1 : world) (config : EnvConfig) (form : FormData)
        (raw : jstring) (file : File.t) (e : thrown) :
  reachesExtraction col request w config form raw file ->
  extractBusinessRegNo env (toBase64 col (File.bytes file)) (File.type file)
                       (join (js ",") (productCodesOf raw)) config (afterLoad w)
  = (inl e, w1) ->
  POST env col request w
  = (inr (fail 422 (js "extraction_error") (messageOf e) (requestIdOf env w)), w1).
Proof.
  intros Hr He.
  apply (POST_to_extraction env col request w _ config form raw file _ Hr).
  unfold extractAndValidate, bind, tryCatch. cbv zeta. rewrite He.
  rewrite (extractBusinessRegNo_throws_error _ _ _ _ _ _ _ _ He). reflexivity.
Qed.

Lemma reachesExtraction_example (env : environment) (mockMode : bool) :
  reachesExtraction (collaboratorsLoading (inr (exampleConfig None mockMode)))
                    (requestWith goodForm) freshWorld (exampleConfig None mockMode)
                    goodForm (js "12345, 67-890") pngFile.
Proof.
  split; [apply (reachesFile_example env)|].
  split; [reflexivity|]. split; [vm_compute; discriminate|].
  right. left. reflexivity.
Qed.

Lemma POST_extraction_error_witness :
  exists w1,
    POST quietEnv (collaboratorsLoading (inr (exampleConfig None false)))
         (requestWith goodForm) freshWorld
    = (inr (fail 422 (js "extraction_error") (messageOf badRequest)
              (requestIdOf quietEnv freshWorld)), w1).
Proof.
  assert (H : { w1 : world
              | extractBusinessRegNo quietEnv
                  (toBase64 (collaboratorsLoading (inr (exampleConfig None false)))
                            (File.bytes pngFile))
                  (File.type pngFile) (join (js ",") (productCodesOf (js "12345, 67-890")))
                  (exampleConfig None false) (afterLoad freshWorld)
                = (inl badRequest, w1) }).
  { eexists. vm_compute. reflexivity. }
  destruct H as [w1 H]. exists w1.
  exact (POST_extraction_error quietEnv
           (collaboratorsLoading (inr (exampleConfig None false)))
           (requestWith goodForm) freshWorld w1 (exampleConfig None false)
           goodForm (js "12345, 67-890") pngFile badRequest
           (reachesExtraction_example quietEnv false) H).
Defined.

(** X21. When the extraction returns a result that fails validation, the
    answer is 422 with the code of the failure ([extraction_failed] for no
    items, else [low_confidence] for a confidence below the minimum), the
    provider and the request ids of the extraction; no export is made and
    no mail is sent. *)
Theorem POST_validation_failure (env : environment) (col : collaborators)
        (request : Request) (w w1 : world) (config : EnvConfig) (form : FormData)
        (raw : jstring) (file : File.t) (r : ExtractionResult.t) :
  reachesExtraction col request w config form raw file ->
  extractBusinessRegNo env (toBase64 col (File.bytes file)) (File.type file)
                       (join (js ",") (productCodesOf raw)) config (afterLoad w)
  = (inr r, w1) ->
  ExtractionResult.items r = []
  \/ PrimFloat.ltb (ExtractionResult.confidence r) (MIN_CONFIDENCE config) = true ->
  exists message,
    POST env col request w
    = (inr {| status := 422;
              body := Failure
                (ErrorResponse.mk
                   (match ExtractionResult.items r with
                    | [] => js "extraction_failed"
                    | _ :: _ => js "low_confidence"
                    end)
                   message (requestIdOf env w)
                   (Some (ExtractionResult.provider r))
                   (ExtractionResult.client_request_id r)
                   (ExtractionResult.x_request_id r)) |},
       w1).
Proof.
  intros Hr He Hbad.
  assert (Hgo : forall resp,
             extractAndValidate env col config (requestIdOf env w) (productCodesOf raw)
                                file (afterLoad w) = (inr resp, w1) ->
             POST env col request w = (inr resp, w1))
    by (intros resp;
        apply (POST_to_extraction env col request w _ config form raw file _ Hr)).
  assert (Hev : extractAndValidate env col config (requestIdOf env w)
                  (productCodesOf raw) file (afterLoad w)
                = match validateExtractionResult env config r with
                  | (inl err, _) =>
                    (inr {| status := 422;
                            body := Failure
                              (ErrorResponse.mk (ExtractionError.error_code err)
                                 (ExtractionError.message err) (requestIdOf env w)
                                 (ExtractionError.provider err)
                                 (ExtractionError.client_request_id err)
                                 (ExtractionError.x_request_id err)) |}, w1)
                  | (inr _, validated) =>
                    respond env col config (requestIdOf env w) (productCodesOf raw)
                            validated w1
                  end).
  { unfold extractAndValidate, bind, tryCatch. cbv zeta. rewrite He. cbn [ret].
    destruct (validateExtractionResult env config r) as [[err|u] validated];
      reflexivity. }
  rewrite validate_unfold in Hev.
  destruct (ExtractionResult.items r) as [|it its].
  - eexists. apply Hgo. rewrite Hev. reflexivity.
  - destruct Hbad as [Hbad|Hbad]; [discriminate|]. rewrite Hbad in Hev.
    eexists. apply Hgo. rewrite Hev. reflexivity.
Qed.

Lemma POST_validation_failure_witness :
  exists message r w1,
    POST emptyAnswerEnv (collaboratorsLoading (inr (exampleConfig None false)))
         (requestWith goodForm) freshWorld
    = (inr {| status := 422;
              body := Failure
                (ErrorResponse.mk (js "extraction_failed") message
                   (requestIdOf emptyAnswerEnv freshWorld)
                   (Some (ExtractionResult.provider r))
                   (ExtractionResult.client_request_id r)
                   (ExtractionResult.x_request_id r)) |},
       w1)
    /\ apiCalls (trace w1) = 1 /\ mails (trace w1) = 0.
Proof.
  assert (H : { p : ExtractionResult.t * world
              | (extractBusinessRegNo emptyAnswerEnv
                   (toBase64 (collaboratorsLoading (inr (exampleConfig None false)))
                             (File.bytes pngFile))
                   (File.type pngFile)
                   (join (js ",") (productCodesOf (js "12345, 67-890")))
                   (exampleConfig None false) (afterLoad freshWorld)
                 = (inr (fst p), snd p)
                 /\ ExtractionResult.items (fst p) = [])
                /\ apiCalls (trace (snd p)) = 1 /\ mails (trace (snd p)) = 0 }).
  { eexists (_, _). vm_compute. repeat split. }
  destruct H as [[r w1] [[H Hi] Ht]]. simpl in H, Hi, Ht.
  destruct (POST_validation_failure emptyAnswerEnv
              (collaboratorsLoading (inr (exampleConfig None false)))
              (requestWith goodForm) freshWorld w1 (exampleConfig None false)
              goodForm (js "12345, 67-890") pngFile r
              (reachesExtraction_example emptyAnswerEnv false) H (or_introl Hi))
    as [message Hp].
  rewrite Hi in Hp. exists message, r, w1. split; [exact Hp | exact Ht].
Defined.

Lemma validate_passes (env : environment) (config : EnvConfig)
      (r : ExtractionResult.t) :
  ExtractionResult.items r <> [] ->
  PrimFloat.ltb (ExtractionResult.confidence r) (MIN_CONFIDENCE config) = false ->
  validateExtractionResult env config r
  = (inr tt, withItems r (map normalizeItem (ExtractionResult.items r))).
Proof.
  intros Hne Hconf. rewrite validate_unfold, Hconf.
  destruct (ExtractionResult.items r); [contradiction | reflexivity].
Qed.

Lemma POST_passes (env : environment) (col : collaborators)
        (request : Request) (w w1 : world) (config : EnvConfig) (form : FormData)
        (raw : jstring) (file : File.t) (r : ExtractionResult.t) :
  reachesExtraction col request w config form raw file ->
  extractBusinessRegNo env (toBase64 col (File.bytes file)) (File.type file)
                       (join (js ",") (productCodesOf raw)) config (afterLoad w)
  = (inr r, w1) ->
  ExtractionResult.items r <> [] ->
  PrimFloat.ltb (ExtractionResult.confidence r) (MIN_CONFIDENCE config) = false ->
  (forall rows, exists buffer, generateExcel col rows = inr buffer) ->
  exists s,
    POST env col request w
    = (inr {| status := 200; body := Success s |},
       called EvSendEmail (called EvNow (called EvNow w1)))
    /\ SuccessResponse.items s
       = map toResponseItem (map normalizeItem (ExtractionResult.items r))
    /\ SuccessResponse.product_code s = join (js ",") (productCodesOf raw)
    /\ SuccessResponse.total_found s = ExtractionResult.total_found r
    /\ SuccessResponse.confidence s = ExtractionResult.confidence r
    /\ SuccessResponse.provider s = ExtractionResult.provider r
    /\ SuccessResponse.request_id s = requestIdOf env w
    /\ SuccessResponse.client_request_id s = ExtractionResult.client_request_id r
    /\ (exists history attachment filename,
          SuccessResponse.emailed s
          = match sendResultEmail col history (join (js ",") (productCodesOf raw))
                    (map normalizeItem (ExtractionResult.items r))
                    attachment filename config with
            | inr result => success result
            | inl _ => false
            end).
Proof.
  intros Hr He Hne Hconf Hexcel.
  set (validated := withItems r (map normalizeItem (ExtractionResult.items r))).
  pose proof (respond_spec env col config (requestIdOf env w) (productCodesOf raw)
                validated w1) as Hresp.
  cbv zeta in Hresp.
  destruct (Hexcel (map (toExcelItem (toISOString col (trace w1 ++ [EvNow])))
                        (ExtractionResult.items validated))) as [buffer Hb].
  rewrite Hb in Hresp.
  destruct Hresp as [s [Hs [H1 [H2 [H3 [H4 [H5 [H6 [H7 H8]]]]]]]]].
  exists s. split; [|repeat split; try assumption].
  - apply (POST_to_extraction env col request w _ config form raw file _ Hr).
    unfold extractAndValidate, bind, tryCatch. cbv zeta. rewrite He. cbn [ret].
    rewrite (validate_passes env config r Hne Hconf). exact Hs.
  - eexists. eexists. eexists. exact H8.
Qed.



(** *** The codes, from the form to the prompt *)

Lemma split_noComma (p : jstring) : noComma p = true -> split 44%N p = [p].
Proof.
  induction p as [|c p IH]; [reflexivity|].
  unfold noComma. cbn [forallb]. intros H. apply andb_true_iff in H as [Hc Hp].
  apply negb_true_iff in Hc. cbn [split]. rewrite Hc, (IH Hp). reflexivity.
Qed.

Lemma split_app_comma (p s : jstring) :
  noComma p = true -> split 44%N (p ++ 44%N :: s) = p :: split 44%N s.
Proof.
  induction p as [|c p IH]; [reflexivity|].
  unfold noComma. cbn [forallb]. intros H. apply andb_true_iff in H as [Hc Hp].
  apply negb_true_iff in Hc. cbn [split app]. rewrite Hc, (IH Hp). reflexivity.
Qed.

Lemma split_parts_noComma (s : jstring) : Forall (fun p => noComma p = true) (split 44%N s).
Proof.
  induction s as [|c s IH]; [repeat constructor|].
  cbn [split]. destruct (c =? 44)%N eqn:E.
  - constructor; [reflexivity | exact IH].
  - destruct (split 44%N s) as [|h t]; [repeat constructor; cbn; now rewrite E|].
    inversion IH as [|? ? Hh Ht]; subst. constructor; [|exact Ht].
    unfold noComma. cbn [forallb]. now rewrite E.
Qed.

Lemma split_join (codes : list jstring) :
  codes <> [] -> Forall (fun p => noComma p = true) codes ->
  split 44%N (join (js ",") codes) = codes.
Proof.
  induction codes as [|p rest IH]; [contradiction|].
  intros _ H. inversion H as [|? ? Hp Hrest]; subst.
  destruct rest as [|p2 rest].
  - cbn [join]. now apply split_noComma.
  - change (join (js ",") (p :: p2 :: rest))
      with (p ++ 44%N :: join (js ",") (p2 :: rest)).
    rewrite (split_app_comma p _ Hp), IH; [reflexivity | discriminate | exact Hrest].
Qed.

Lemma noComma_sub (s t : jstring) :
  (forall c, In c t -> In c s) -> noComma s = true -> noComma t = true.
Proof.
  unfold noComma. rewrite !forallb_forall. intros Hsub H c Hc. apply H, Hsub, Hc.
Qed.

Lemma trim_sub (s : jstring) (c : char16) : In c (trim s) -> In c s.
Proof.
  intros H. destruct (trimStart_split s) as [p [Hp _]].
  destruct (trimEnd_split (trimStart s)) as [q [Hq _]].
  rewrite Hp, Hq. apply in_or_app. right. apply in_or_app. left. exact H.
Qed.

Lemma normalizeProductCode_sub (s : jstring) (c : char16) :
  In c (normalizeProductCode s) -> In c s.
Proof.
  unfold normalizeProductCode. intros H.
  apply filter_In in H as [H _]. apply filter_In in H as [H _]. now apply trim_sub.
Qed.

Lemma productCodes_noComma (raw : jstring) :
  Forall (fun p => noComma p = true) (productCodesOf raw).
Proof.
  unfold productCodesOf. apply Forall_forall. intros p Hp.
  apply filter_In in Hp as [Hp _]. apply in_map_iff in Hp as [seg [<- Hseg]].
  pose proof (split_parts_noComma raw) as Hall. rewrite Forall_forall in Hall.
  apply (noComma_sub seg); [apply normalizeProductCode_sub | now apply Hall].
Qed.

Lemma productCodes_fixed (raw : jstring) :
  Forall (fun p => trim p = p /\ truthy p = true) (productCodesOf raw).
Proof.
  unfold productCodesOf. apply Forall_forall. intros p Hp.
  apply filter_In in Hp as [Hp Hlen]. apply in_map_iff in Hp as [seg [<- _]].
  split.
  - destruct (codeChars_no_space_ends _ (normalizeProductCode_chars seg)) as [Hl Ht].
    now apply trim_id.
  - destruct (normalizeProductCode seg); [discriminate | reflexivity].
Qed.




Lemma startsWith_app (t b : jstring) : startsWith (t ++ b) t = true.
Proof.
  induction t as [|c t IH]; [destruct b; reflexivity|].
  cbn [app startsWith]. now rewrite N.eqb_refl, IH.
Qed.

Lemma includes_cons (c : char16) (s sub : jstring) :
  includes (c :: s) sub = startsWith (c :: s) sub || includes s sub.
Proof. reflexivity. Qed.

Lemma includes_self (t b : jstring) : includes (t ++ b) t = true.
Proof.
  destruct (t ++ b) as [|c r] eqn:E.
  - destruct t; [reflexivity | discriminate].
  - rewrite includes_cons, <- E, startsWith_app. reflexivity.
Qed.

Lemma includes_app_r (a b t : jstring) :
  includes b t = true -> includes (a ++ b) t = true.
Proof.
  intros H. induction a as [|c a IH]; [exact H|].
  rewrite <- app_comm_cons, includes_cons, IH. apply orb_true_r.
Qed.

Lemma includes_middle (a t b : jstring) : includes (a ++ t ++ b) t = true.
Proof. apply includes_app_r, includes_self. Qed.

Lemma includes_join (sep t : jstring) (parts : list jstring) :
  In t parts -> includes (join sep parts) t = true.
Proof.
  induction parts as [|p rest IH]; [contradiction|].
  intros [->|Hin].
  - destruct rest as [|p2 rest].
    + cbn [join]. rewrite <- (app_nil_r t) at 1. apply includes_self.
    + change (join sep (t :: p2 :: rest)) with (t ++ sep ++ join sep (p2 :: rest)).
      apply includes_self.
  - destruct rest as [|p2 rest]; [contradiction|].
    change (join sep (p :: p2 :: rest)) with (p ++ sep ++ join sep (p2 :: rest)).
    apply includes_app_r, includes_app_r, IH, Hin.
Qed.

Lemma startsWith_app_l (a b t : jstring) :
  startsWith a t = true -> startsWith (a ++ b) t = true.
Proof.
  revert t. induction a as [|c a IH]; intros [|x t] H; try reflexivity.
  - destruct b; reflexivity.
  - discriminate.
  - cbn [app startsWith] in *. apply andb_true_iff in H as [H1 H2].
    now rewrite H1, (IH t H2).
Qed.

Lemma includes_app_l (a b t : jstring) :
  includes a t = true -> includes (a ++ b) t = true.
Proof.
  induction a as [|c a IH]; intros H.
  - destruct t; [destruct b; reflexivity | discriminate].
  - rewrite includes_cons in H. rewrite <- app_comm_cons, includes_cons.
    apply orb_true_iff in H as [H|H].
    + change (c :: a ++ b) with ((c :: a) ++ b).
      now rewrite (startsWith_app_l _ b _ H).
    + rewrite (IH H). apply orb_true_r.
Qed.

(** X24. The prompt names every target: each code that the prompt builder
    reads out of its argument stands in the prompt it builds. *)
Theorem createExtractionPrompt_names_targets (targetCode code : jstring) :
  In code (filter truthy (map trim (split 44%N targetCode))) ->
  includes (createExtractionPrompt targetCode) code = true.
Proof.
  intros Hin. unfold createExtractionPrompt. cbv zeta.
  set (targets := filter truthy (map trim (split 44%N targetCode))) in *.
  cbn [List.concat]. apply includes_app_r, includes_app_l.
  destruct (1 <? List.length targets)%nat eqn:E.
  - apply includes_app_r, includes_app_l, includes_join, Hin.
  - apply Nat.ltb_ge in E.
    destruct targets as [|t [|t2 rest]]; [contradiction | | simpl in E; lia].
    destruct Hin as [->|[]]. apply includes_app_r, includes_app_r, includes_self.
Qed.

Lemma createExtractionPrompt_names_targets_witness :
  includes (createExtractionPrompt (js "12345,67890")) (js "67890") = true.
Proof.
  apply (createExtractionPrompt_names_targets (js "12345,67890") (js "67890")).
  vm_compute. right. left. reflexivity.
Defined.

(** *** The mock, end to end *)

Lemma mock_first_target (raw code : jstring) (rest : list jstring) :
  productCodesOf raw = code :: rest ->
  trim (hd [] (split 44%N (join (js ",") (productCodesOf raw)))) = code.
Proof.
  intros H.
  assert (Hne : productCodesOf raw <> []) by (rewrite H; discriminate).
  rewrite (split_join (productCodesOf raw) Hne (productCodes_noComma raw)).
  pose proof (productCodes_fixed raw) as Hf. rewrite H in *.
  inversion Hf as [|? ? [Ht _] _]; subst. exact Ht.
Qed.

(** X25. In mock mode a well-formed request is answered 200 with the two
    mock rows, both under the first of the requested codes, provided the
    configured minimum confidence does not exceed 0.95 and the export can be
    built; the provider is never called: apart from the request id and the
    configuration, there are one more id, two readings of the clock and one
    mail. *)
Theorem POST_mock (env : environment) (col : collaborators)
        (request : Request) (w : world) (config : EnvConfig) (form : FormData)
        (raw : jstring) (file : File.t) (code : jstring) (rest : list jstring) :
  reachesExtraction col request w config form raw file ->
  productCodesOf raw = code :: rest ->
  MOCK_LLM config = true ->
  PrimFloat.ltb 0.95%float (MIN_CONFIDENCE config) = false ->
  (forall rows, exists buffer, generateExcel col rows = inr buffer) ->
  exists s w',
    POST env col request w = (inr {| status := 200; body := Success s |}, w')
    /\ trace w' = trace w ++ [EvUuid; EvLoadEnvConfig; EvUuid; EvNow; EvNow;
                              EvSendEmail]
    /\ map ResponseItem.business_reg_no (SuccessResponse.items s)
       = [js "123-45-67890"; js "987-65-43210"]
    /\ map ResponseItem.product_code (SuccessResponse.items s) = [code; code]
    /\ SuccessResponse.provider s = mock
    /\ SuccessResponse.confidence s = 0.95%float
    /\ SuccessResponse.total_found s = VNum 2%float.
Proof.
  intros Hr Hcodes Hmock Hconf Hexcel.
  assert (He : exists r,
             extractBusinessRegNo env (toBase64 col (File.bytes file)) (File.type file)
               (join (js ",") (productCodesOf raw)) config (afterLoad w)
             = (inr r, called EvUuid (afterLoad w))
             /\ map ExtractionItem.business_reg_no (ExtractionResult.items r)
                = [js "123-45-67890"; js "987-65-43210"]
             /\ map ExtractionItem.product_code (ExtractionResult.items r)
                = [code; code]
             /\ ExtractionResult.provider r = mock
             /\ ExtractionResult.confidence r = 0.95%float
             /\ ExtractionResult.total_found r = VNum 2%float).
  { unfold extractBusinessRegNo. rewrite Hmock.
    unfold getMockResult, bind, ask, ret. cbv zeta.
    rewrite (mock_first_target raw code rest Hcodes).
    eexists. split; [reflexivity|]. repeat split. }
  destruct He as [r [He [Hb [Hp [Hprov [Hc Ht]]]]]].
  assert (Hne : ExtractionResult.items r <> []).
  { intros E. rewrite E in Hb. discriminate Hb. }
  rewrite <- Hc in Hconf.
  destruct (POST_passes env col request w _ config form raw file r Hr He Hne Hconf
              Hexcel) as [s [Hs [Hi [_ [Htf [Hcf [Hpr _]]]]]]].
  exists s. eexists. split; [exact Hs|].
  split; [cbn [called afterLoad trace]; rewrite <- !app_assoc; reflexivity|].
  rewrite Hi, Htf, Hcf, Hpr, Hprov, Hc, Ht.
  repeat split.
  - rewrite !map_map.
    change (fun x => ResponseItem.business_reg_no (toResponseItem (normalizeItem x)))
      with (fun x => ExtractionItem.business_reg_no (normalizeItem x)).
    destruct (ExtractionResult.items r) as [|i1 [|i2 [|i3 l]]]; try discriminate Hb.
    cbn [map] in Hb |- *. injection Hb as H1 H2.
    unfold normalizeItem. rewrite H1, H2. reflexivity.
  - rewrite !map_map.
    transitivity (map ExtractionItem.product_code (ExtractionResult.items r));
      [|exact Hp].
    apply map_ext. intros x. unfold normalizeItem.
    destruct (truthy (ExtractionItem.business_reg_no x)); reflexivity.
Qed.

Lemma POST_mock_witness :
  exists s w',
    POST quietEnv (collaboratorsLoading (inr (exampleConfig None true)))
         (requestWith goodForm) freshWorld
    = (inr {| status := 200; body := Success s |}, w')
    /\ trace w' = trace freshWorld ++ [EvUuid; EvLoadEnvConfig; EvUuid; EvNow; EvNow;
                                       EvSendEmail]
    /\ map ResponseItem.business_reg_no (SuccessResponse.items s)
       = [js "123-45-67890"; js "987-65-43210"]
    /\ map ResponseItem.product_code (SuccessResponse.items s)
       = [js "12345"; js "12345"]
    /\ SuccessResponse.provider s = mock
    /\ SuccessResponse.confidence s = 0.95%float
    /\ SuccessResponse.total_found s = VNum 2%float.
Proof.
  apply (POST_mock quietEnv (collaboratorsLoading (inr (exampleConfig None true)))
           (requestWith goodForm) freshWorld (exampleConfig None true)
           goodForm (js "12345, 67-890") pngFile (js "12345") [js "67890"]).
  - apply (reachesExtraction_example quietEnv).
  - reflexivity.
  - reflexivity.
  - reflexivity.
  - intros rows. exists []. reflexivity.
Defined.

(** *** Failure to load the configuration *)

(** When the configuration cannot be loaded, the answer is 500 and nothing
    else is done; for the missing-variables error the answer is
    [configuration_error] with a fixed message that does not repeat the
    error, for any other error it is [internal_error] with its message. *)
Lemma POST_load_failure (env : environment) (col : collaborators)
        (request : Request) (w : world) (e : thrown) :
  loadEnvConfig col ((trace w ++ [EvUuid]) ++ [EvLoadEnvConfig]) = inl e ->
  POST env col request w
  = (inr (if isError e
             && includes (messageOf e) (js "Missing required environment variables")
          then fail 500 (js "configuration_error")
                 (js "Server configuration error. Please contact administrator.")
                 (requestIdOf env w)
          else fail 500 (js "internal_error")
                 (if isError e then messageOf e
                  else js "An unexpected error occurred")
                 (requestIdOf env w)),
     afterLoad w).
Proof.
  intros H. unfold POST, bind, ask, tryCatch, handle, bind, askOrThrow.
  cbn [trace]. rewrite H.
  destruct (isError e && includes (messageOf e) _); reflexivity.
Qed.

(** *** The connection test *)

Lemma getOpenAIClient_spec (config : EnvConfig) (w : world) :
  exists c, getOpenAIClient (OPENAI_API_KEY config) w = (inr c, withClient config w).
Proof.
  unfold getOpenAIClient, withClient. destruct w as [[c|] a t]; eexists; reflexivity.
Qed.

Lemma testOpenAIConnection_spec (env : environment) (config : EnvConfig) (w : world) :
  exists t w',
    testOpenAIConnection env config w = (inr t, w')
    /\ (OPENAI_API_KEY config = [] -> w' = w /\ ConnectionTest.ok t = false)
    /\ (OPENAI_API_KEY config <> [] ->
        match models_list env (trace w ++ [EvModelsList]) with
        | inl _ => ConnectionTest.ok t = false
                   /\ w' = called EvModelsList (withClient config w)
        | inr ids =>
          ConnectionTest.ok t = true
          /\ ConnectionTest.modelCount t
             = Some (of_nat (List.length
                               (filter (fun id => includes id (js "gpt")) ids)))
          /\ exists m k,
               ConnectionTest.model t = Some m
               /\ availableModel w' = Some m
               /\ trace w' = trace w ++ EvModelsList :: k
               /\ (k = [] \/ k = [EvModelsList])
        end).
Proof.
  unfold testOpenAIConnection.
  destruct (OPENAI_API_KEY config) as [|c key] eqn:Ek.
  - cbn [truthy negb]. eexists. eexists. split; [reflexivity|].
    split; [intros _; split; reflexivity | intros H; now contradiction H].
  - cbn [truthy negb]. unfold tryCatch.
    unfold bind at 1.
    destruct (getOpenAIClient_spec config w) as [cl Hcl]. rewrite Ek in Hcl.
    rewrite Hcl. unfold bind at 1. unfold askOrThrow. cbn [trace withClient].
    destruct (models_list env (trace w ++ [EvModelsList])) as [e|ids].
    + eexists. eexists. split; [reflexivity|].
      split; [discriminate|]. intros _. split; reflexivity.
    + cbv zeta. unfold bind.
      match goal with
      | |- context [getAvailableModel env ?c0 ?w0] =>
        destruct (getAvailableModel_result env c0 w0) as [m [k [Hg [_ Hk]]]];
        rewrite Hg
      end.
      eexists. eexists. split; [reflexivity|].
      split; [discriminate|]. intros _. split; [reflexivity|].
      split; [reflexivity|]. exists m, k. cbn [chose trace availableModel].
      rewrite <- app_assoc. repeat split. exact Hk.
Qed.

(** X26. The connection test never throws. It reports success exactly when
    there is a key and the catalogue can be read; it then reports the model
    that is remembered from then on and the number of catalogue entries
    whose id contains gpt. Without a key it does nothing. *)
Theorem testOpenAIConnection_ok_iff (env : environment) (config : EnvConfig)
        (w : world) :
  exists t w',
    testOpenAIConnection env config w = (inr t, w')
    /\ (ConnectionTest.ok t = true
        <-> OPENAI_API_KEY config <> []
            /\ exists ids, models_list env (trace w ++ [EvModelsList]) = inr ids)
    /\ (ConnectionTest.ok t = true ->
        exists m, ConnectionTest.model t = Some m /\ availableModel w' = Some m)
    /\ (forall ids, OPENAI_API_KEY config <> [] ->
                    models_list env (trace w ++ [EvModelsList]) = inr ids ->
                    ConnectionTest.modelCount t
                    = Some (of_nat (List.length
                                      (filter (fun id => includes id (js "gpt")) ids))))
    /\ (OPENAI_API_KEY config = [] -> w' = w).
Proof.
  destruct (testOpenAIConnection_spec env config w) as [t [w' [H [Hno Hkey]]]].
  exists t, w'. split; [exact H|].
  destruct (OPENAI_API_KEY config) as [|c key] eqn:Ek.
  - destruct (Hno eq_refl) as [Hw Hok]. rewrite Hok.
    split; [split; [discriminate | intros [Hc _]; now contradiction Hc]|].
    split; [discriminate|]. split; [intros ids Hc; now contradiction Hc|].
    intros _. exact Hw.
  - assert (Hne : c :: key <> []) by discriminate. specialize (Hkey Hne).
    destruct (models_list env (trace w ++ [EvModelsList])) as [e|ids].
    + destruct Hkey as [Hok _]. rewrite Hok.
      split; [split; [discriminate | intros [_ [ids Hi]]; discriminate Hi]|].
      split; [discriminate|]. split; [intros ids _ Hi; discriminate Hi | discriminate].
    + destruct Hkey as [Hok [Hcount [m [k [Hm [Ha _]]]]]].
      split; [split; [intros _; split; [exact Hne | now exists ids] | intros _; exact Hok]|].
      split; [intros _; now exists m|].
      split; [intros ids' _ Hi; injection Hi as <-; exact Hcount | discriminate].
Qed.

(** X27. The connection-test route answers every request, with 200 or 500;
    it answers 200 exactly when the configuration loads, holds a key, and the
    catalogue can be read. *)
Theorem GET_status (env : environment) (col : collaborators) (w : world) :
  exists resp w',
    TestConnection.GET env col w = (inr resp, w')
    /\ (TestConnection.status resp = 200%Z \/ TestConnection.status resp = 500%Z)
    /\ (TestConnection.status resp = 200%Z
        <-> exists config ids,
              loadEnvConfig col ((trace w ++ [EvUuid]) ++ [EvLoadEnvConfig])
              = inr config
              /\ OPENAI_API_KEY config <> []
              /\ models_list env (((trace w ++ [EvUuid]) ++ [EvLoadEnvConfig])
                                  ++ [EvModelsList]) = inr ids).
Proof.
  unfold TestConnection.GET, bind, ask, tryCatch, askOrThrow. cbn [trace].
  destruct (loadEnvConfig col ((trace w ++ [EvUuid]) ++ [EvLoadEnvConfig]))
    as [e|config] eqn:El.
  - destruct (isError e && includes (messageOf e) _);
      (eexists; eexists; split; [reflexivity|]; split; [now right|];
       split; [discriminate | intros [c [ids [Hc _]]]; discriminate Hc]).
  - match goal with
    | |- context [testOpenAIConnection env config ?w0] =>
      destruct (testOpenAIConnection_spec env config w0) as [t [w1 [Ht [Hno Hkey]]]];
      rewrite Ht
    end.
    cbn [trace] in Hkey.
    destruct (OPENAI_API_KEY config) as [|c key] eqn:Ek.
    + destruct (Hno eq_refl) as [_ Hok]. rewrite Hok.
      eexists. eexists. split; [reflexivity|]. split; [now right|].
      split; [discriminate|].
      intros [c' [ids [Hc [Hk _]]]]. injection Hc as <-. rewrite Ek in Hk.
      now contradiction Hk.
    + assert (Hne : c :: key <> []) by discriminate. specialize (Hkey Hne).
      destruct (models_list env _) as [e|ids] eqn:Em.
      * destruct Hkey as [Hok _]. rewrite Hok.
        eexists. eexists. split; [reflexivity|]. split; [now right|].
        split; [discriminate|].
        intros [c' [ids [Hc [_ Hm]]]]. discriminate Hm.
      * destruct Hkey as [Hok _]. rewrite Hok.
        eexists. eexists. split; [reflexivity|]. split; [now left|].
        split; [|reflexivity]. intros _. exists config, ids.
        split; [reflexivity|]. split; [now rewrite Ek | reflexivity].
Qed.

(** Clearing the cache forgets the client and the model: the next
    choice of a model asks the catalogue again, even though a model had been
    remembered. *)
Lemma clearOpenAICache_forgets (env : environment) (w : world) :
  exists m,
    bind clearOpenAICache (fun _ => getAvailableModel env None) w
    = (inr m, {| openaiClient := None; availableModel := Some m;
                 trace := trace w ++ [EvModelsList] |})
    /\ In m modelPriority.
Proof.
  unfold bind, clearOpenAICache, getAvailableModel, bind, getAvailable.
  cbn [availableModel]. unfold useConfigured.
  destruct (selectFromCatalog_spec env
              {| openaiClient := None; availableModel := None; trace := trace w |})
    as [m [H [Hin _]]].
  exists m. rewrite H. split; [reflexivity | exact Hin].
Qed.

(** *** loadEnvConfig *)

Lemma missingVarsOf_unfold (vars : Env.variables) :
  Env.missingVarsOf vars
  = (if Env.mockLlmOf vars then []
     else if Env.isSet (vars (js "OPENAI_API_KEY")) then []
          else [js "OPENAI_API_KEY"])
    ++ (if Env.isSet (vars (js "RESEND_API_KEY")) then []
        else [js "RESEND_API_KEY"]).
Proof.
  unfold Env.missingVarsOf, Env.REQUIRED_VARS. cbn [fold_left].
  replace (eqb (js "OPENAI_API_KEY") (js "OPENAI_API_KEY")) with true by reflexivity.
  replace (eqb (js "RESEND_API_KEY") (js "OPENAI_API_KEY")) with false by reflexivity.
  rewrite andb_true_r, andb_false_r.
  destruct (Env.mockLlmOf vars); destruct (Env.isSet (vars (js "OPENAI_API_KEY")));
    destruct (Env.isSet (vars (js "RESEND_API_KEY"))); reflexivity.
Qed.

Lemma missingVarsOf_nil (vars : Env.variables) :
  Env.missingVarsOf vars = []
  <-> Env.isSet (vars (js "RESEND_API_KEY")) = true
      /\ (Env.mockLlmOf vars = false -> Env.isSet (vars (js "OPENAI_API_KEY")) = true).
Proof.
  rewrite missingVarsOf_unfold.
  destruct (Env.mockLlmOf vars); destruct (Env.isSet (vars (js "OPENAI_API_KEY")));
    destruct (Env.isSet (vars (js "RESEND_API_KEY"))); cbn [app]; split;
      first [ discriminate
            | intros [H1 H2]; first [ discriminate H1
                                    | specialize (H2 eq_refl); discriminate H2 ]
            | intros _; split; [reflexivity|]; intros H; first [reflexivity | discriminate H]
            | intros _; reflexivity ].
Qed.

Lemma loadEnvConfig_missing (pf : Env.platform) (vars : Env.variables) :
  Env.missingVarsOf vars <> [] ->
  Env.loadEnvConfig pf vars None
  = (inl (newError (js "Missing required environment variables: "
                    ++ join (js ", ") (Env.missingVarsOf vars))), None).
Proof.
  intros H. unfold Env.loadEnvConfig. cbv zeta.
  destruct (Env.missingVarsOf vars) as [|k ks] eqn:E; [now contradiction H|].
  reflexivity.
Qed.

Lemma missingMessage_recognised (vars : Env.variables) :
  includes (missingMessage vars) (js "Missing required environment variables") = true.
Proof.
  unfold missingMessage.
  replace (js "Missing required environment variables: ")
    with (js "Missing required environment variables" ++ js ": ") by reflexivity.
  rewrite <- app_assoc. apply includes_self.
Qed.

Lemma names_differ : js "OPENAI_API_KEY" <> js "RESEND_API_KEY".
Proof. intros H. apply (f_equal (hd 0%N)) in H. vm_compute in H. discriminate H. Qed.

Lemma loadEnvConfig_other_errors (pf : Env.platform) (vars : Env.variables)
      (names : jstring) :
  Env.missingVarsOf vars = [] ->
  Env.loadEnvConfig pf vars None
  <> (inl (newError (js "Missing required environment variables: " ++ names)), None).
Proof.
  intros E. unfold Env.loadEnvConfig. cbv zeta. rewrite E.
  cbn [List.length Nat.ltb Nat.leb].
  destruct (Env.RegExp_new pf _) as [e|re].
  - intros H. apply (f_equal fst) in H. cbn [fst] in H.
    apply (f_equal (fun r => match r with
                             | inl (PlainError _ (c :: _)) => c
                             | _ => 0%N
                             end)) in H.
    vm_compute in H. discriminate H.
  - destruct (_ || _ || _).
    + intros H. apply (f_equal fst) in H. cbn [fst] in H.
      apply (f_equal (fun r => match r with
                               | inl (PlainError _ (c :: _)) => c
                               | _ => 0%N
                               end)) in H.
      vm_compute in H. discriminate H.
    + intros H. apply (f_equal fst) in H. cbn [fst] in H. discriminate H.
Qed.

Lemma members_generic (O R swapped : jstring) (mock o r : bool) :
  O <> R ->
  O ++ js ", " ++ R <> swapped -> O <> swapped -> R <> swapped -> [] <> swapped ->
  let missing := (if mock then [] else if o then [] else [O])
                 ++ (if r then [] else [R]) in
  (In O missing <-> mock = false /\ o = false)
  /\ (In R missing <-> r = false)
  /\ join (js ", ") missing <> swapped.
Proof.
  intros Hd Hj Ho Hr Hn.
  destruct mock, o, r; cbn [app In join]; intuition (try congruence).
Qed.

Lemma missing_members (vars : Env.variables) :
  (In (js "OPENAI_API_KEY") (Env.missingVarsOf vars)
   <-> Env.mockLlmOf vars = false /\ Env.isSet (vars (js "OPENAI_API_KEY")) = false)
  /\ (In (js "RESEND_API_KEY") (Env.missingVarsOf vars)
      <-> Env.isSet (vars (js "RESEND_API_KEY")) = false)
  /\ join (js ", ") (Env.missingVarsOf vars) <> js "RESEND_API_KEY, OPENAI_API_KEY".
Proof.
  rewrite missingVarsOf_unfold.
  apply (members_generic (js "OPENAI_API_KEY") (js "RESEND_API_KEY")
           (js "RESEND_API_KEY, OPENAI_API_KEY")).
  - exact names_differ.
  - intros H. apply (f_equal (hd 0%N)) in H. vm_compute in H. discriminate H.
  - intros H. apply (f_equal (hd 0%N)) in H. vm_compute in H. discriminate H.
  - intros H. apply (f_equal (@List.length _)) in H. vm_compute in H. discriminate H.
  - intros H. apply (f_equal (@List.length _)) in H. vm_compute in H. discriminate H.
Qed.

(** X28. From an empty cache, [loadEnvConfig] throws the missing-variables
    error exactly when RESEND_API_KEY is unset or empty, or OPENAI_API_KEY is
    unset or empty while MOCK_LLM is not the string true. The message then
    lists the missing names, OPENAI_API_KEY first; the pattern and the
    confidence are not looked at, and nothing is cached. *)
Theorem loadEnvConfig_missing_iff (pf : Env.platform) (vars : Env.variables) :
  ((exists names,
       Env.loadEnvConfig pf vars None
       = (inl (newError (js "Missing required environment variables: " ++ names)),
          None))
   <-> Env.isSet (vars (js "RESEND_API_KEY")) = false
       \/ (Env.mockLlmOf vars = false
           /\ Env.isSet (vars (js "OPENAI_API_KEY")) = false))
  /\ (Env.missingVarsOf vars <> [] ->
      Env.loadEnvConfig pf vars None
      = (inl (newError (js "Missing required environment variables: "
                        ++ join (js ", ") (Env.missingVarsOf vars))), None))
  /\ (In (js "OPENAI_API_KEY") (Env.missingVarsOf vars)
      <-> Env.mockLlmOf vars = false
          /\ Env.isSet (vars (js "OPENAI_API_KEY")) = false)
  /\ (In (js "RESEND_API_KEY") (Env.missingVarsOf vars)
      <-> Env.isSet (vars (js "RESEND_API_KEY")) = false)
  /\ join (js ", ") (Env.missingVarsOf vars) <> js "RESEND_API_KEY, OPENAI_API_KEY".
Proof.
  split; [|split; [exact (loadEnvConfig_missing pf vars) | apply missing_members]].
  split.
  - intros [names H].
    destruct (Env.missingVarsOf vars) as [|k ks] eqn:E.
    + now contradiction (loadEnvConfig_other_errors pf vars names E).
    + assert (Hne : Env.missingVarsOf vars <> []) by (rewrite E; discriminate).
      rewrite missingVarsOf_nil in Hne.
      destruct (Env.isSet (vars (js "RESEND_API_KEY"))); [|left; reflexivity].
      right. destruct (Env.mockLlmOf vars).
      * exfalso. apply Hne. split; [reflexivity | discriminate].
      * destruct (Env.isSet (vars (js "OPENAI_API_KEY"))); [|split; reflexivity].
        exfalso. apply Hne. split; reflexivity.
  - intros H. exists (join (js ", ") (Env.missingVarsOf vars)).
    apply (loadEnvConfig_missing pf vars). rewrite missingVarsOf_nil.
    intros [Hr Ho]. destruct H as [H|[Hm H]].
    + rewrite Hr in H. discriminate H.
    + rewrite (Ho Hm) in H. discriminate H.
Qed.

Lemma orDefault_truthy (v : option jstring) (d : jstring) :
  truthy d = true -> truthy (Env.orDefault v d) = true.
Proof.
  intros H. unfold Env.orDefault. destruct v as [s|]; [|exact H].
  destruct (truthy s) eqn:E; [exact E | exact H].
Qed.

Lemma orDefault_isSet (v : option jstring) :
  Env.isSet v = true -> Env.orDefault v [] = Env.rendered v /\ v <> None.
Proof.
  unfold Env.isSet, Env.orDefault, Env.rendered. destruct v as [s|]; [|discriminate].
  intros ->. split; [reflexivity | discriminate].
Qed.

(** X29. A configuration that was loaded is sound and final. The minimum
    confidence is a number that is neither below 0 nor above 1; the mail key
    is set; outside mock mode the API key is not empty; model and sender
    have their defaults when unset. It is cached, and every later load
    returns it, whatever the variables and the platform have become. *)
Theorem loadEnvConfig_loaded (pf : Env.platform) (vars : Env.variables)
        (c : Env.Config.t) (cache : option Env.Config.t) :
  Env.loadEnvConfig pf vars None = (inr c, cache) ->
  cache = Some c
  /\ PrimFloat.is_nan (Env.Config.MIN_CONFIDENCE c) = false
  /\ PrimFloat.ltb (Env.Config.MIN_CONFIDENCE c) 0%float = false
  /\ PrimFloat.ltb 1%float (Env.Config.MIN_CONFIDENCE c) = false
  /\ Env.isSet (Env.Config.RESEND_API_KEY c) = true
  /\ Env.Config.MOCK_LLM c = Env.mockLlmOf vars
  /\ (Env.Config.MOCK_LLM c = false -> truthy (Env.Config.OPENAI_API_KEY c) = true)
  /\ truthy (Env.Config.OPENAI_MODEL c) = true
  /\ truthy (Env.Config.SENDER_EMAIL c) = true
  /\ Env.RegExp_new pf (Env.orDefault (vars (js "PRODUCT_CODE_REGEX")) (js "^\d{5}$"))
     = inr (Env.Config.PRODUCT_CODE_REGEX c)
  /\ (forall pf' vars', Env.loadEnvConfig pf' vars' cache = (inr c, cache)).
Proof.
  unfold Env.loadEnvConfig at 1. cbv zeta.
  destruct (Env.missingVarsOf vars) as [|k ks] eqn:E; [|discriminate].
  cbn [List.length Nat.ltb Nat.leb].
  apply missingVarsOf_nil in E. destruct E as [Hr Ho].
  destruct (Env.RegExp_new pf _) as [e|re] eqn:Ere; [discriminate|].
  destruct (PrimFloat.is_nan _) eqn:En; [discriminate|].
  destruct (PrimFloat.ltb _ 0%float) eqn:E0; [discriminate|].
  destruct (PrimFloat.ltb 1%float _) eqn:E1; [discriminate|].
  cbn [orb]. intros H. injection H as <- <-.
  cbn [Env.Config.MIN_CONFIDENCE Env.Config.RESEND_API_KEY Env.Config.MOCK_LLM
       Env.Config.OPENAI_API_KEY Env.Config.OPENAI_MODEL Env.Config.SENDER_EMAIL
       Env.Config.PRODUCT_CODE_REGEX].
  repeat (split; [first [reflexivity | assumption]|]).
  split.
  - intros Hm. specialize (Ho Hm). unfold Env.isSet in Ho. unfold Env.orDefault.
    destruct (vars (js "OPENAI_API_KEY")) as [s|]; [|discriminate Ho].
    now rewrite Ho.
  - split; [now apply orDefault_truthy|]. split; [now apply orDefault_truthy|].
    split; [reflexivity|]. intros pf' vars'. reflexivity.
Qed.

Lemma loadEnvConfig_loaded_witness :
  exists c,
    Env.loadEnvConfig examplePlatform
      (variablesOf [("RESEND_API_KEY", "re_example"); ("MOCK_LLM", "true");
                    ("MIN_CONFIDENCE", "0.8")]%string) None
    = (inr c, Some c)
    /\ Env.Config.MIN_CONFIDENCE c = 0.8%float
    /\ Env.Config.OPENAI_API_KEY c = []
    /\ Env.Config.OPENAI_MODEL c = PRIMARY_MODEL
    /\ forall pf' vars', Env.loadEnvConfig pf' vars' (Some c) = (inr c, Some c).
Proof.
  assert (H : { c : Env.Config.t
              | Env.loadEnvConfig examplePlatform
                  (variablesOf [("RESEND_API_KEY", "re_example"); ("MOCK_LLM", "true");
                                ("MIN_CONFIDENCE", "0.8")]%string) None
                = (inr c, Some c)
                /\ Env.Config.MIN_CONFIDENCE c = 0.8%float
                /\ Env.Config.OPENAI_API_KEY c = []
                /\ Env.Config.OPENAI_MODEL c = PRIMARY_MODEL }).
  { eexists. vm_compute. repeat split. }
  destruct H as [c [H [H1 [H2 H3]]]]. exists c.
  split; [exact H|]. split; [exact H1|]. split; [exact H2|]. split; [exact H3|].
  exact (proj2 (proj2 (proj2 (proj2 (proj2 (proj2 (proj2 (proj2 (proj2 (proj2
           (loadEnvConfig_loaded examplePlatform _ c (Some c) H))))))))))).
Defined.

(** X30. With the loader of [$lib/util/env] and a required variable missing,
    both routes answer 500 [configuration_error] and do nothing else. The
    process route gives a fixed message that does not name the variables;
    the connection test passes the message on, names included. *)
Theorem routes_missing_variables (env : environment) (col : collaborators)
        (request : Request) (w : world) (pf : Env.platform) (vars : Env.variables) :
  loadEnvConfig col ((trace w ++ [EvUuid]) ++ [EvLoadEnvConfig]) = loaded pf vars None ->
  Env.missingVarsOf vars <> [] ->
  POST env col request w
  = (inr (fail 500 (js "configuration_error")
            (js "Server configuration error. Please contact administrator.")
            (requestIdOf env w)),
     afterLoad w)
  /\ TestConnection.GET env col w
     = (inr {| TestConnection.status := 500;
               TestConnection.body :=
                 TestConnection.Failed (js "configuration_error")
                                       (missingMessage vars) (requestIdOf env w) |},
        afterLoad w).
Proof.
  intros Hload Hmiss.
  assert (Hl : loaded pf vars None = inl (newError (missingMessage vars))).
  { unfold loaded, missingMessage.
    rewrite (loadEnvConfig_missing pf vars Hmiss). reflexivity. }
  rewrite Hl in Hload. split.
  - rewrite (POST_load_failure env col request w _ Hload).
    cbn [isError newError messageOf andb]. unfold newError. cbn [isError messageOf].
    rewrite missingMessage_recognised. reflexivity.
  - unfold TestConnection.GET, bind, ask, tryCatch, askOrThrow. cbn [trace].
    rewrite Hload. unfold newError. cbn [isError messageOf andb].
    rewrite missingMessage_recognised. reflexivity.
Qed.

Lemma routes_missing_variables_witness :
  POST quietEnv
       (collaboratorsLoading
          (loaded examplePlatform (variablesOf [("OPENAI_API_KEY", "sk-example")]%string)
                  None))
       exampleRequest freshWorld
  = (inr (fail 500 (js "configuration_error")
            (js "Server configuration error. Please contact administrator.")
            (requestIdOf quietEnv freshWorld)),
     afterLoad freshWorld)
  /\ TestConnection.GET quietEnv
       (collaboratorsLoading
          (loaded examplePlatform (variablesOf [("OPENAI_API_KEY", "sk-example")]%string)
                  None))
       freshWorld
     = (inr {| TestConnection.status := 500;
               TestConnection.body :=
                 TestConnection.Failed
                   (js "configuration_error")
                   (js "Missing required environment variables: RESEND_API_KEY")
                   (requestIdOf quietEnv freshWorld) |},
        afterLoad freshWorld).
Proof.
  apply (routes_missing_variables quietEnv _ exampleRequest freshWorld examplePlatform
           (variablesOf [("OPENAI_API_KEY", "sk-example")]%string)).
  - reflexivity.
  - vm_compute. discriminate.
Defined.
